(** * Protein intake calculator: a shallow embedding of [main.py]

    The calculation core of the service ([_round5], [_make_plan] and
    [calculate_protein], together with the [ProteinRequest] validation)
    is translated to Rocq functions.  Python's [float] is IEEE 754
    binary64, and so is Rocq's primitive [float]: the embedding uses the
    primitive operations for [+], [*] and [/], and defines on top of
    them the parts of Python's number semantics the program relies on
    ([round], [round(x, n)], [int -> float] conversion, [repr]).
    Python exceptions are values of an error monad. *)

From Stdlib Require Import ZArith Lia Bool List String Ascii.
From Stdlib Require Import Floats.
Import ListNotations.
Local Open Scope string_scope.

Set Warnings "-inexact-float".

Local Open Scope Z_scope.

(** ** Exceptions and the error monad *)

Inductive exn : Type :=
| ValidationError
| ZeroDivisionError
| OverflowError
| ValueError.

Inductive result (A : Type) : Type :=
| Ok (a : A)
| Raise (e : exn).

Arguments Ok {A} a.
Arguments Raise {A} e.

Definition bind {A B : Type} (r : result A) (k : A -> result B) : result B :=
  match r with
  | Ok a => k a
  | Raise e => Raise e
  end.

Notation "x <- r ;; k" := (bind r (fun x => k))
  (at level 61, r at next level, right associativity).
Notation "' p <- r ;; k" := (bind r (fun x => let 'p := x in k))
  (at level 61, p pattern, r at next level, right associativity).

Fixpoint mapM {A B : Type} (f : A -> result B) (l : list A) : result (list B) :=
  match l with
  | [] => Ok []
  | a :: l' => b <- f a ;; bs <- mapM f l' ;; Ok (b :: bs)
  end.

(** ** Python numbers on binary64 *)

Module Py.

(** Round-half-to-even of the rational [n / d], for [0 < d]. *)
Definition rne_div (n d : Z) : Z :=
  let q := n / d in
  match 2 * (n mod d) ?= d with
  | Lt => q
  | Eq => if Z.even q then q else q + 1
  | Gt => q + 1
  end.

(** The exact value of a finite binary64 number is [m * 2^e]; it is kept
    as the fraction [num / den]. *)
Definition num_of (m : positive) (e : Z) : Z :=
  if 0 <=? e then Zpos m * 2 ^ e else Zpos m.

Definition den_of (e : Z) : Z :=
  if 0 <=? e then 1 else 2 ^ (- e).

Definition cond_opp (s : bool) (z : Z) : Z := if s then - z else z.

(** [float(n)] for a Python [int]: correctly rounded, [OverflowError]
    when [n] is too large for a double. *)
Definition float_of_int (n : Z) : result float :=
  let f := SF2Prim (binary_normalize prec emax n 0 false) in
  if is_infinity f then Raise OverflowError else Ok f.

(** [x / y] on floats. *)
Definition fdiv (x y : float) : result float :=
  if is_zero y then Raise ZeroDivisionError else Ok (x / y)%float.

(** [round(x)]: the nearest integer, ties to even. *)
Definition round (x : float) : result Z :=
  match Prim2SF x with
  | S754_nan => Raise ValueError
  | S754_infinity _ => Raise OverflowError
  | S754_zero _ => Ok 0
  | S754_finite s m e => Ok (cond_opp s (rne_div (num_of m e) (den_of e)))
  end.

(** The decimal [n * 10^(-k)] (the digits [strtod] reads) rounded to
    binary64, for [0 <= n] and [0 <= k]: the correctly rounded quotient
    of the two integers. *)
Definition of_decimal (s : bool) (n : Z) (k : Z) : spec_float :=
  match n with
  | Zpos p => SF64div (S754_finite s p 0) (S754_finite false (Z.to_pos (10 ^ k)) 0)
  | _ => S754_zero s
  end.

(** [round(x, ndigits)] for [0 <= ndigits]: [x] is rounded to [ndigits]
    decimals on its exact value, ties to even, and the decimal is
    converted back to the nearest double; a result out of range raises
    [OverflowError]. *)
Definition round_ndigits (x : float) (ndigits : Z) : result float :=
  match Prim2SF x with
  | S754_finite s m e =>
      let n := rne_div (num_of m e * 10 ^ ndigits) (den_of e) in
      match of_decimal s n ndigits with
      | S754_infinity _ => Raise OverflowError
      | r => Ok (SF2Prim r)
      end
  | _ => Ok x
  end.

(** [max(a, b)] and [min(a, b)] on floats keep the first argument unless
    the second is strictly greater (smaller). *)
Definition max (a b : float) : float := if (a <? b)%float then b else a.
Definition min (a b : float) : float := if (b <? a)%float then b else a.

(** *** [repr] of a float: the shortest decimal that reads back as [x] *)

Fixpoint digits_aux (fuel : nat) (n : Z) (acc : string) : string :=
  match fuel with
  | O => acc
  | S fuel' =>
      let acc' := String (ascii_of_nat (48 + Z.to_nat (n mod 10))) acc in
      if n / 10 =? 0 then acc' else digits_aux fuel' (n / 10) acc'
  end.

Definition string_of_Z (n : Z) : string :=
  digits_aux (S (Z.to_nat (Z.log2 n))) n "".

Fixpoint zeros (n : nat) : string :=
  match n with
  | O => ""
  | S n' => String "0" (zeros n')
  end.

(** [10^d <= num / den] *)
Definition pow10_le (d num den : Z) : bool :=
  if 0 <=? d then 10 ^ d * den <=? num else den <=? num * 10 ^ (- d).

Fixpoint find_exp10 (fuel : nat) (d num den : Z) : Z :=
  match fuel with
  | O => d
  | S fuel' => if pow10_le d num den then d else find_exp10 fuel' (d - 1) num den
  end.

(** The position of the decimal point: [10^(decpt-1) <= num/den < 10^decpt]. *)
Definition decpt_of (num den : Z) : Z :=
  let l := Z.log2 num - Z.log2 den in
  1 + find_exp10 4 ((l + 1) * 30103 / 100000 + 1) num den.

(** The double nearest to [dg * 10^p]. *)
Definition of_digits (dg p : Z) : float :=
  if 0 <=? p then SF2Prim (binary_normalize prec emax (dg * 10 ^ p) 0 false)
  else SF2Prim (of_decimal false dg (- p)).

(** [num/den] rounded down and up to [k] significant digits, nearest first. *)
Definition candidates (num den decpt k : Z) : list (Z * Z) :=
  let p := decpt - k in
  let n := if 0 <=? p then num else num * 10 ^ (- p) in
  let d := if 0 <=? p then den * 10 ^ p else den in
  let lo := n / d in
  let near := rne_div n d in
  let far := if near =? lo then lo + 1 else lo in
  map (fun c => if c =? 10 ^ k then (10 ^ (k - 1), decpt + 1) else (c, decpt))
      [near; far].

Fixpoint first_roundtrip (x : float) (k : Z) (cs : list (Z * Z)) : option (Z * Z) :=
  match cs with
  | [] => None
  | (dg, dp) :: cs' =>
      if (of_digits dg (dp - k) =? x)%float then Some (dg, dp)
      else first_roundtrip x k cs'
  end.

Fixpoint shortest (fuel : nat) (x : float) (num den decpt k : Z) : Z * Z * Z :=
  match fuel with
  | O => (rne_div (num * 10 ^ (17 - decpt)) den, 17, decpt)
  | S fuel' =>
      match first_roundtrip x k (candidates num den decpt k) with
      | Some (dg, dp) => (dg, k, dp)
      | None => shortest fuel' x num den decpt (k + 1)
      end
  end.

Fixpoint drop_zeros (fuel : nat) (dg k : Z) : Z * Z :=
  match fuel with
  | O => (dg, k)
  | S fuel' =>
      if (1 <? k) && (dg mod 10 =? 0) then drop_zeros fuel' (dg / 10) (k - 1)
      else (dg, k)
  end.

Definition format_short (dg k decpt : Z) : string :=
  let ds := string_of_Z dg in
  if (decpt <=? -4) || (16 <? decpt) then
    let e := decpt - 1 in
    let mant :=
      match ds with
      | String c EmptyString => String c EmptyString
      | String c rest => String c (String "." rest)
      | EmptyString => EmptyString
      end in
    let ea := Z.abs e in
    let es := if ea <? 10 then String "0" (string_of_Z ea) else string_of_Z ea in
    (mant ++ "e" ++ (if (e <? 0)%Z then "-" else "+") ++ es)%string
  else if decpt <=? 0 then
    ("0." ++ zeros (Z.to_nat (- decpt)%Z) ++ ds)%string
  else if decpt <? k then
    (substring 0 (Z.to_nat decpt) ds ++ "." ++
     substring (Z.to_nat decpt) (Z.to_nat (k - decpt)%Z) ds)%string
  else
    (ds ++ zeros (Z.to_nat (decpt - k)%Z) ++ ".0")%string.

Definition repr (x : float) : string :=
  match Prim2SF x with
  | S754_nan => "nan"
  | S754_infinity s => if s then "-inf" else "inf"
  | S754_zero s => if s then "-0.0" else "0.0"
  | S754_finite s m e =>
      let num := num_of m e in
      let den := den_of e in
      let '(dg, k, dp) := shortest 17 (abs x) num den (decpt_of num den) 1 in
      let '(dg, k) := drop_zeros 17 dg k in
      ((if s then "-" else "") ++ format_short dg k dp)%string
  end.

End Py.

(** [d.get(key, default)] on a dict kept as an association list. *)
Fixpoint dict_get {V : Type} (d : list (string * V)) (key : string) (default : V) : V :=
  match d with
  | [] => default
  | (k, v) :: d' => if String.eqb k key then v else dict_get d' key default
  end.

(** ** The request model (main.py, lines 18-34) *)

Record ProteinRequest : Type := {
  weight : float;
  unit : string;
  activity : string;
  goal : string;
  age : option Z;
  sex : option string
}.

(** [Literal[...]] fields accept exactly the listed strings. *)
Definition literal (allowed : list string) (v : string) : bool :=
  existsb (String.eqb v) allowed.

Definition optional {A : Type} (check : A -> bool) (v : option A) : bool :=
  match v with
  | None => true
  | Some a => check a
  end.

Definition with_default {A : Type} (d : A) (v : option A) : A :=
  match v with
  | None => d
  | Some a => a
  end.

(** The [@validator("weight")] method (lines 30-34). *)
Definition validate_weight (v : float) : result float :=
  if (1000 <? v)%float then Raise ValueError else Ok v.

(** The [weight] field: the constraint [gt=0] of its [Field], then the
    validator. *)
Definition weight_field (v : float) : result float :=
  if (0 <? v)%float then validate_weight v else Raise ValueError.

(** Construction of a [ProteinRequest]: every failing field makes the
    construction raise [ValidationError]; omitted fields take the
    defaults of their [Field]. *)
Definition ProteinRequest_init (weight : float) (unit activity goal : option string)
    (age : option Z) (sex : option string) : result ProteinRequest :=
  let unit := with_default "kg" unit in
  let activity := with_default "moderate" activity in
  let goal := with_default "maintenance" goal in
  match weight_field weight with
  | Raise _ => Raise ValidationError
  | Ok w =>
      if literal ["kg"; "lb"] unit
         && literal ["low"; "moderate"; "high"] activity
         && literal ["fat_loss"; "maintenance"; "muscle_gain"] goal
         && optional (fun a => (10 <=? a) && (a <=? 100)) age
         && optional (literal ["male"; "female"; "other"]) sex
      then Ok {| weight := w; unit := unit; activity := activity; goal := goal;
                 age := age; sex := sex |}
      else Raise ValidationError
  end.

(** ** The response models (lines 37-59) *)

Record MacroSplit : Type := {
  protein_g : Z;
  carbs_g : Z;
  fats_g : Z;
  split_percent : list (string * Z);
  calories : Z
}.

Record MealSuggestion : Type := {
  name : string;
  tagline : string;
  macros : MacroSplit;
  sample_meals : list string
}.

Record ProteinResponse : Type := {
  weight_kg : float;
  grams_per_kg_range : float * float;
  daily_grams_min : Z;
  daily_grams_max : Z;
  daily_grams_target : Z;
  rationale : string;
  suggestions : list MealSuggestion
}.

(** ** [_round5] and [_make_plan] (lines 72-127) *)

(** An argument that is a Python [int] or a [float]. *)
Inductive number : Type :=
| Int (n : Z)
| Float (x : float).

(** The conversion an [int] operand gets next to a [float] one. *)
Definition as_float (v : number) : result float :=
  match v with
  | Int n => Py.float_of_int n
  | Float x => Ok x
  end.

(** [int(round(x / 5.0) * 5)] *)
Definition _round5 (x : number) : result Z :=
  xf <- as_float x ;;
  q <- Py.fdiv xf 5 ;;
  r <- Py.round q ;;
  Ok (r * 5).

Definition base_meals : list (string * list string) :=
  [ ("Lifting Beast",
     [ "Breakfast: Greek yogurt parfait + oats + whey";
       "Lunch: Steak bowl with rice, beans, salsa";
       "Snack: Cottage cheese + fruit + almonds";
       "Dinner: Chicken thighs, potatoes, roasted veg" ]);
    ("Mat Dominator",
     [ "Breakfast: Egg white omelet + spinach + toast";
       "Lunch: Turkey rice bowl + kimchi";
       "Snack: Beef jerky + banana";
       "Dinner: Salmon, quinoa, mixed greens" ]);
    ("Track Rocket",
     [ "Breakfast: Protein pancakes + berries";
       "Lunch: Teriyaki chicken + jasmine rice";
       "Snack: Low-fat chocolate milk + pretzels";
       "Dinner: Lean beef pasta + tomato sauce" ]);
    ("Grand Tour Engine",
     [ "Breakfast: Oats + honey + whey + banana";
       "Ride Fuel: Rice cakes + isotonic drink";
       "Lunch: Tuna baguette + fruit";
       "Dinner: Chicken risotto + olive oil drizzle" ]) ].

Definition default_meals : list string :=
  [ "Breakfast: Eggs + oats + fruit";
    "Lunch: Chicken rice bowl";
    "Snack: Yogurt + nuts";
    "Dinner: Fish, potatoes, vegetables" ].

(** [total_kcal = (protein_g * 4.0) / (p_pct / 100.0)] (line 80) *)
Definition total_kcal_of (p_pct protein_g : Z) : result float :=
  pg <- Py.float_of_int protein_g ;;
  pp <- Py.float_of_int p_pct ;;
  share <- Py.fdiv pp 100 ;;
  Py.fdiv (pg * 4)%float share.

(** [total_kcal * (pct / 100.0) / kcal_per_g] (lines 81 and 82) *)
Definition grams_of (total_kcal : float) (pct : Z) (kcal_per_g : float) : result float :=
  pf <- Py.float_of_int pct ;;
  share <- Py.fdiv pf 100 ;;
  Py.fdiv (total_kcal * share)%float kcal_per_g.

Definition _make_plan (name tagline : string) (pct : Z * Z * Z) (protein_g : Z)
  : result MealSuggestion :=
  let '(p_pct, c_pct, f_pct) := pct in
  total_kcal <- total_kcal_of p_pct protein_g ;;
  carbs_g <- grams_of total_kcal c_pct 4 ;;
  fats_g <- grams_of total_kcal f_pct 9 ;;
  rp <- _round5 (Int protein_g) ;;
  rc <- _round5 (Float carbs_g) ;;
  rf <- _round5 (Float fats_g) ;;
  kcal <- Py.round total_kcal ;;
  let macros :=
    {| protein_g := rp; carbs_g := rc; fats_g := rf;
       split_percent := [("protein", p_pct); ("carbs", c_pct); ("fats", f_pct)];
       calories := kcal |} in
  let meals := dict_get base_meals name default_meals in
  Ok {| name := name; tagline := tagline; macros := macros; sample_meals := meals |}.

(** ** [calculate_protein] (lines 130-200) *)

(** Line 133: the weight in kilograms. *)
Definition to_kg (req : ProteinRequest) : float :=
  if String.eqb (unit req) "kg" then weight req
  else (weight req * 0.45359237)%float.

(** Lines 136-141: the base range of the activity level. *)
Definition base_range (activity : string) : float * float :=
  if String.eqb activity "low" then (1.2, 1.6)%float
  else if String.eqb activity "moderate" then (1.6, 2.0)%float
  else (1.8, 2.2)%float.

(** Lines 144-149: the goal moves both bounds. *)
Definition goal_range (goal : string) (base : float * float) : float * float :=
  let '(base_min, base_max) := base in
  if String.eqb goal "fat_loss" then (base_min + 0.2, base_max + 0.2)%float
  else if String.eqb goal "muscle_gain" then (base_min + 0.1, base_max + 0.1)%float
  else (base_min, base_max).

(** Lines 152-153: rounding to two decimals, then the clamp. *)
Definition clamp_range (base : float * float) : result (float * float) :=
  let '(base_min, base_max) := base in
  rmin <- Py.round_ndigits base_min 2 ;;
  let min_gkg := Py.max 1.2 rmin in
  rmax <- Py.round_ndigits base_max 2 ;;
  let max_gkg := Py.min 2.7 rmax in
  Ok (min_gkg, max_gkg).

Definition gkg_range (activity goal : string) : result (float * float) :=
  clamp_range (goal_range goal (base_range activity)).

(** Lines 155-157: the daily grams [(daily_min, daily_max, target)]. *)
Definition daily_grams (min_gkg max_gkg weight_kg : float) : result (Z * Z * Z) :=
  daily_min <- Py.round (min_gkg * weight_kg)%float ;;
  daily_max <- Py.round (max_gkg * weight_kg)%float ;;
  mid <- Py.fdiv (min_gkg + max_gkg)%float 2 ;;
  target <- Py.round (mid * weight_kg)%float ;;
  Ok (daily_min, daily_max, target).

(** Lines 159-164: the f-string of the rationale; a float in an f-string
    without a format spec is printed by [repr]. *)
Definition rationale_text (min_gkg max_gkg : float) : string :=
  "Based on your activity and goal, a range of "
  ++ Py.repr min_gkg ++ "-" ++ Py.repr max_gkg ++ " g/kg is appropriate. "
  ++ "Using your body weight, that translates to the amounts shown. "
  ++ "Hitting the middle of the range is a practical daily target.".

(** Lines 168-173. *)
Definition archetypes : list (string * string * (Z * Z * Z)) :=
  [ ("Lifting Beast", "Build thick strength with steady carbs.", (30, 45, 25));
    ("Mat Dominator", "Mat-ready power with cutting-edge leanness.", (35, 35, 30));
    ("Track Rocket", "Explosive speed fueled by fast carbs.", (25, 50, 25));
    ("Grand Tour Engine", "Endurance-first fuel for long days in the saddle.",
     (20, 60, 20)) ].

(** Line 176. *)
Definition goal_adj : list (string * Z) :=
  [ ("fat_loss", 5); ("maintenance", 0); ("muscle_gain", 0) ].

(** Lines 181-189: the body of the loop up to the call of [_make_plan]. *)
Definition adjust_split (p_bump : Z) (pct : Z * Z * Z) : Z * Z * Z :=
  let '(p, c, f) := pct in
  let adj_p := Z.min 45 (p + p_bump) in
  let reduce_from_carbs := p_bump in
  let adj_c := Z.max 30 (c - reduce_from_carbs) in
  let total := adj_p + adj_c + f in
  let f := if negb (total =? 100) then
             let diff := 100 - total in Z.max 20 (f + diff)
           else f in
  (adj_p, adj_c, f).

(** Lines 179-190: the loop over the archetypes. *)
Definition make_suggestions (goal : string) (target : Z) : result (list MealSuggestion) :=
  let p_bump := dict_get goal_adj goal 0 in
  mapM (fun '(name, tag, pct) => _make_plan name tag (adjust_split p_bump pct) target)
       archetypes.

Definition calculate_protein (req : ProteinRequest) : result ProteinResponse :=
  let weight_kg := to_kg req in
  '(min_gkg, max_gkg) <- gkg_range (activity req) (goal req) ;;
  '(daily_min, daily_max, target) <- daily_grams min_gkg max_gkg weight_kg ;;
  let rationale := rationale_text min_gkg max_gkg in
  suggestions <- make_suggestions (goal req) target ;;
  rounded_kg <- Py.round_ndigits weight_kg 2 ;;
  Ok {| weight_kg := rounded_kg;
        grams_per_kg_range := (min_gkg, max_gkg);
        daily_grams_min := daily_min;
        daily_grams_max := daily_max;
        daily_grams_target := target;
        rationale := rationale;
        suggestions := suggestions |}.

(** ** [test_database] (lines 203-245)

    The function reads its surroundings: the import of [db], two
    attributes of [db] and two environment variables.  They are the
    argument of the embedding.  What is raised is an [Exception] (the
    handlers catch nothing else), [str(e)] is its message, a sequence
    of characters, and [db.name] and the names of the collections are
    strings. *)

(** An exception that the function catches: whether it is an
    [ImportError], and the text [str(e)]. *)
Record pyexn : Type := {
  is_import_error : bool;
  message : string
}.

(** What an import, an attribute or a call does: it gives a value or
    raises. *)
Inductive outcome (A : Type) : Type :=
| Returns (a : A)
| Throws (e : pyexn).

Arguments Returns {A} a.
Arguments Throws {A} e.

(** The object [db] as far as the function looks at it: [db.name], with
    [None] when [hasattr(db, 'name')] is false, and
    [db.list_collection_names()]. *)
Record Db : Type := {
  db_name : outcome (option string);
  list_collection_names : outcome (list string)
}.

(** The surroundings of a call: what [from database import db] gives,
    with [None] for a [db] that is [None], and [os.getenv]. *)
Record world : Type := {
  import_db : outcome (option Db);
  getenv : string -> option string
}.

(** The dict [response]; [None] is the [None] of lines 209-210. *)
Record db_report : Type := {
  backend : string;
  database : string;
  database_url : option string;
  database_name : option string;
  connection_status : string;
  collections : list string
}.

(** The assignments [response[key] = v]. *)
Definition set_database (v : string) (r : db_report) : db_report :=
  {| backend := backend r; database := v; database_url := database_url r;
     database_name := database_name r; connection_status := connection_status r;
     collections := collections r |}.

Definition set_database_url (v : option string) (r : db_report) : db_report :=
  {| backend := backend r; database := database r; database_url := v;
     database_name := database_name r; connection_status := connection_status r;
     collections := collections r |}.

Definition set_database_name (v : option string) (r : db_report) : db_report :=
  {| backend := backend r; database := database r; database_url := database_url r;
     database_name := v; connection_status := connection_status r;
     collections := collections r |}.

Definition set_connection_status (v : string) (r : db_report) : db_report :=
  {| backend := backend r; database := database r; database_url := database_url r;
     database_name := database_name r; connection_status := v;
     collections := collections r |}.

Definition set_collections (v : list string) (r : db_report) : db_report :=
  {| backend := backend r; database := database r; database_url := database_url r;
     database_name := database_name r; connection_status := connection_status r;
     collections := v |}.

(** Lines 206-213. *)
Definition initial_report : db_report :=
  {| backend := "✅ Running";
     database := "❌ Not Available";
     database_url := None;
     database_name := None;
     connection_status := "Not Connected";
     collections := [] |}.

(** The truth value of what [os.getenv] returns: [None] and the empty
    string are false. *)
Definition truthy (v : option string) : bool :=
  match v with
  | Some s => negb (String.eqb s "")
  | None => false
  end.

(** Lines 235-238: the handlers of the outer [try], on the dict as the
    body left it. *)
Definition handle (e : pyexn) (r : db_report) : db_report :=
  if is_import_error e then
    set_database "❌ Database module not found (run enable-database first)" r
  else
    set_database ("❌ Error: " ++ substring 0 50 (message e)) r.

(** Lines 219-233, the body of the outer [try] after the import: the
    dict when the body ends, and the exception that ended it, if any. *)
Definition probe (db : option Db) (r : db_report) : db_report * option pyexn :=
  match db with
  | Some db =>
      let r := set_database "✅ Available" r in
      let r := set_database_url (Some "✅ Configured") r in
      match db_name db with
      | Throws e => (r, Some e)
      | Returns nm =>
          let r := set_database_name (Some (with_default "✅ Connected" nm)) r in
          let r := set_connection_status "Connected" r in
          match list_collection_names db with
          | Returns cols =>
              let r := set_collections (firstn 10 cols) r in
              (set_database "✅ Connected & Working" r, None)
          | Throws e =>
              (set_database ("⚠️  Connected but Error: " ++ substring 0 50 (message e)) r, None)
          end
      end
  | None => (set_database "⚠️  Available but not initialized" r, None)
  end.

Definition test_database (w : world) : db_report :=
  let response := initial_report in
  let response :=
    match import_db w with
    | Throws e => handle e response
    | Returns db =>
        match probe db response with
        | (response, Some e) => handle e response
        | (response, None) => response
        end
    end in
  let response :=
    set_database_url
      (Some (if truthy (getenv w "DATABASE_URL") then "✅ Set" else "❌ Not Set"))
      response in
  set_database_name
    (Some (if truthy (getenv w "DATABASE_NAME") then "✅ Set" else "❌ Not Set"))
    response.

(** * Definitions for the statements and the proofs *)

(** ** Values of doubles, counted in units of [2^-2148] *)

(** A finite double is [m * 2^e] with [-1074 <= e], so the exact product
    of two doubles is a multiple of [2^-2148]. *)
Definition scale : Z := 2148.

(** [m * 2^e] in that unit. *)
Definition units (m e : Z) : Z := m * 2 ^ (e + scale).

(** The value of a non-negative finite double. *)
Definition value_of (x : spec_float) : option Z :=
  match x with
  | S754_zero _ => Some 0
  | S754_finite false m e => if -1074 <=? e then Some (units (Zpos m) e) else None
  | _ => None
  end.

(** The exponent of the last place a double has for a value whose
    integer part is [v]. *)
Definition last_place (v : Z) : Z := Z.max (Z.log2 v - 52) (scale - 1074).

(** The rational [n / d] rounded to nearest, ties to even, at 53 bits. *)
Definition round_units (n d : Z) : Z :=
  let l := last_place (n / d) in
  Py.rne_div n (d * 2 ^ l) * 2 ^ l.

(** The integer [v] of units rounded to a double. *)
Definition round64 (v : Z) : Z := round_units v 1.

(** The location of [q + r / d] between [q] and [q + 1], as the
    specification of the division records it. *)
Definition loc_of_rem (r d : Z) : location :=
  if r =? 0 then loc_Exact else loc_Inexact (2 * r ?= d).

(** The second half of the rounding step of the specification: the
    rounded mantissa [m2] at the exponent [e'] is renormalised, which
    matters when the rounding carried it to [2^53], and is out of range
    when the exponent ends above 971. *)
Definition renormalise (m2 e' : Z) : spec_float :=
  let '(mrs, e'') := shr_fexp prec emax m2 e' loc_Exact in
  match shr_m mrs with
  | Z0 => S754_zero false
  | Zpos m => if e'' <=? emax - prec then S754_finite false m e''
              else S754_infinity false
  | Zneg _ => S754_nan
  end.

(** The value of a float that is finite and not negative. *)
Definition fvalue (x : float) : option Z := value_of (Prim2SF x).

(** [x] is finite with [0 <= x <= B]. *)
Definition below (x : float) (B : Z) : Prop :=
  exists v, fvalue x = Some v /\ 0 <= v <= units B 0.

(** ** Checks on the constants of the program *)

(** [f] holds on the [n] integers from [lo]. *)
Fixpoint forall_from (n : nat) (lo : Z) (f : Z -> bool) : bool :=
  match n with
  | O => true
  | S n' => f lo && forall_from n' (lo + 1) f
  end.

(** [below], decided. *)
Definition belowb (x : float) (B : Z) : bool :=
  match fvalue x with
  | Some v => (0 <=? v) && (v <=? units B 0)
  | None => false
  end.

(** A float that is at least [1 / K]. *)
Definition at_least_inv (c : float) (K : Z) : bool :=
  match fvalue c with
  | Some v => (0 <? v) && (2 ^ scale <=? K * v)
  | None => false
  end.

(** The bounds of a valid protein range, as the floats of the literals
    [1.2] and [2.7]. *)
Definition in_range (min_gkg max_gkg : float) : bool :=
  (1.2 <=? min_gkg)%float && (min_gkg <=? max_gkg)%float && (max_gkg <=? 2.7)%float.

(** The value of a constant of the program. *)
Definition value_or_zero (x : float) : Z :=
  match fvalue x with
  | Some v => v
  | None => 0
  end.

(** The largest daily amount: the upper bound 2.7 on 1000 kg. *)
Definition top_grams : Z :=
  Py.rne_div (round64 (value_or_zero 2.7 * units 1000 0 / 2 ^ scale)) (2 ^ scale).

(** The double [x] is the integer [t]. *)
Definition is_int (x : float) (t : Z) : bool :=
  match Prim2SF x with
  | S754_zero _ => t =? 0
  | S754_finite false m e => (-52 <=? e) && (Zpos m * 2 ^ (e + 52) =? t * 2 ^ 52)
  | _ => false
  end.

(** The conversion of the integer [t] is exact, and [_round5] on it is
    the nearest multiple of 5. *)
Definition int_ok (t : Z) : bool :=
  match Py.float_of_int t with
  | Ok pg => is_int pg t
  | Raise _ => false
  end
  && match _round5 (Int t) with
     | Ok z => z =? Py.rne_div t 5 * 5
     | Raise _ => false
     end.

(** The share [pct / 100.0] of [_make_plan]. *)
Definition share_of (pct : Z) : result float :=
  pf <- Py.float_of_int pct ;; Py.fdiv pf 100.

(** The shares that [_make_plan] divides by and multiplies with: the
    protein share is at least 1/5, the other two at most 1. *)
Definition split_ok (pct : Z * Z * Z) : bool :=
  let '(p, c, f) := pct in
  match share_of p, share_of c, share_of f with
  | Ok ps, Ok cs, Ok fs => at_least_inv ps 5 && belowb cs 1 && belowb fs 1
  | _, _, _ => false
  end.

(** ** Requests and plans *)

(** What the construction of a request guarantees. *)
Definition valid_request (req : ProteinRequest) : Prop :=
  weight_field (weight req) = Ok (weight req)
  /\ In (unit req) ["kg"; "lb"]
  /\ In (activity req) ["low"; "moderate"; "high"]
  /\ In (goal req) ["fat_loss"; "maintenance"; "muscle_gain"].

(** The range of a pair of activity and goal is a valid one. *)
Definition gkg_check (activity goal : string) : bool :=
  match gkg_range activity goal with
  | Ok (min_gkg, max_gkg) => in_range min_gkg max_gkg
  | Raise _ => false
  end.

(** The plan that the loop of [calculate_protein] builds for one
    archetype, with the calls it comes from. *)
Definition plan_of (p_bump target : Z) (a : string * string * (Z * Z * Z))
    (plan : MealSuggestion) : Prop :=
  let '(nm, tag, pct) := a in
  let '(p, c, f) := adjust_split p_bump pct in
  exists total gc gf kc kf kcal,
    total_kcal_of p target = Ok total
    /\ grams_of total c 4 = Ok gc
    /\ grams_of total f 9 = Ok gf
    /\ _round5 (Int target) = Ok (Py.rne_div target 5 * 5)
    /\ _round5 (Float gc) = Ok (kc * 5)
    /\ _round5 (Float gf) = Ok (kf * 5)
    /\ Py.round total = Ok kcal
    /\ plan = {| name := nm; tagline := tag;
                 macros := {| protein_g := Py.rne_div target 5 * 5;
                              carbs_g := kc * 5;
                              fats_g := kf * 5;
                              split_percent :=
                                [("protein", p); ("carbs", c); ("fats", f)];
                              calories := kcal |};
                 sample_meals := dict_get base_meals nm default_meals |}.

(** ** The wording of the specification *)

(** The percent split as the specification words it: a bump of 5 for
    [fat_loss] and 0 otherwise, protein capped at 45, carbs floored at
    30, and the fat share absorbing the remainder, floored at 20. *)
Definition spec_split (goal : string) (base : Z * Z * Z) : Z * Z * Z :=
  let '(base_protein, base_carbs, fat) := base in
  let bump := if String.eqb goal "fat_loss" then 5 else 0 in
  let adjusted_protein := Z.min 45 (base_protein + bump) in
  let adjusted_carbs := Z.max 30 (base_carbs - bump) in
  let sum := adjusted_protein + adjusted_carbs + fat in
  (adjusted_protein, adjusted_carbs,
   if sum =? 100 then fat else Z.max 20 (fat + (100 - sum))).

(** The floor of 30 on the carbs binds: it raises the carbs share. *)
Definition carbs_floor_binds (goal : string) (base : Z * Z * Z) : Prop :=
  let '(_, base_carbs, _) := base in
  base_carbs - (if String.eqb goal "fat_loss" then 5 else 0) < 30.

(** The floor of 20 on the fat binds: it raises the fat share that would
    absorb the remainder. *)
Definition fat_floor_binds (goal : string) (base : Z * Z * Z) : Prop :=
  let '(base_protein, base_carbs, fat) := base in
  let bump := if String.eqb goal "fat_loss" then 5 else 0 in
  let sum := Z.min 45 (base_protein + bump) + Z.max 30 (base_carbs - bump) + fat in
  sum <> 100 /\ fat + (100 - sum) < 20.

(** The sum of the three percents of a split. *)
Definition split_sum (pct : Z * Z * Z) : Z :=
  let '(p, c, f) := pct in p + c + f.

(** The template of the rationale around the two printed bounds. *)
Definition rationale_template (lo hi : string) : string :=
  "Based on your activity and goal, a range of "
  ++ lo ++ "-" ++ hi ++ " g/kg is appropriate. "
  ++ "Using your body weight, that translates to the amounts shown. "
  ++ "Hitting the middle of the range is a practical daily target.".

(** A float printed with exactly [ndigits] decimals, as the format
    [.2f] does for [ndigits = 2]: correctly rounded, ties to even. *)
Definition fixed (ndigits : Z) (x : float) : string :=
  match Prim2SF x with
  | S754_nan => "nan"
  | S754_infinity s => if s then "-inf" else "inf"
  | S754_zero s =>
      (if s then "-" else "") ++ "0." ++ Py.zeros (Z.to_nat ndigits)
  | S754_finite s m e =>
      let n := Py.rne_div (Py.num_of m e * 10 ^ ndigits) (Py.den_of e) in
      let frac := Py.string_of_Z (10 ^ ndigits + n mod 10 ^ ndigits) in
      (if s then "-" else "") ++ Py.string_of_Z (n / 10 ^ ndigits) ++ "."
      ++ substring 1 (Z.to_nat ndigits) frac
  end.

(** [z] is [round(x / 5.0) * 5]. *)
Definition rounds_to_5 (x : number) (z : Z) : Prop :=
  exists xf q r,
    as_float x = Ok xf /\ Py.fdiv xf 5 = Ok q /\ Py.round q = Ok r /\ z = r * 5.

(** The grams of a plan come from the target and the split of the plan
    by the formulas of [_make_plan], each rounded to a multiple of 5. *)
Definition macros_rounded (target : Z) (plan : MealSuggestion) : Prop :=
  exists p c f total raw_carbs raw_fats,
    split_percent (macros plan) = [("protein", p); ("carbs", c); ("fats", f)]
    /\ total_kcal_of p target = Ok total
    /\ grams_of total c 4 = Ok raw_carbs
    /\ grams_of total f 9 = Ok raw_fats
    /\ rounds_to_5 (Int target) (protein_g (macros plan))
    /\ rounds_to_5 (Float raw_carbs) (carbs_g (macros plan))
    /\ rounds_to_5 (Float raw_fats) (fats_g (macros plan)).

(** The protein percent of a plan and the share that [_make_plan]
    divides by. *)
Definition divisor_check (p_bump : Z) (a : string * string * (Z * Z * Z)) : bool :=
  let '(p, _, _) := adjust_split p_bump (snd a) in
  (0 <? p)
  && match share_of p with
     | Ok share => negb (is_zero share)
     | Raise _ => false
     end.

(** ** Definitions for the further properties *)

(** The place of an activity in the order of the base ranges of lines
    136-141; as there, a string that is neither low nor moderate counts
    as high. *)
Definition activity_rank (activity : string) : Z :=
  if String.eqb activity "low" then 0
  else if String.eqb activity "moderate" then 1
  else 2.

(** The place of a goal in the order of what lines 144-149 add to the
    range: nothing, 0.1 for muscle_gain, 0.2 for fat_loss. *)
Definition goal_rank (goal : string) : Z :=
  if String.eqb goal "fat_loss" then 2
  else if String.eqb goal "muscle_gain" then 1
  else 0.

(** Both bounds of the first range are at most those of the second. *)
Definition range_leb (r1 r2 : result (float * float)) : bool :=
  match r1, r2 with
  | Ok (min1, max1), Ok (min2, max2) => (min1 <=? min2)%float && (max1 <=? max2)%float
  | _, _ => false
  end.

(** The ranges follow the order of the activities and of the goals. *)
Definition ranges_ordered : bool :=
  forallb (fun a1 => forallb (fun a2 => forallb (fun g1 => forallb (fun g2 =>
    negb ((activity_rank a1 <=? activity_rank a2) && (goal_rank g1 <=? goal_rank g2))
    || range_leb (gkg_range a1 g1) (gkg_range a2 g2))
    ["fat_loss"; "maintenance"; "muscle_gain"]) ["fat_loss"; "maintenance"; "muscle_gain"])
    ["low"; "moderate"; "high"]) ["low"; "moderate"; "high"].

(** Lines 152-153 without the clamp: the two bounds rounded to two
    decimals. *)
Definition round_range (base : float * float) : result (float * float) :=
  let '(base_min, base_max) := base in
  rmin <- Py.round_ndigits base_min 2 ;;
  rmax <- Py.round_ndigits base_max 2 ;;
  Ok (rmin, rmax).

(** The range of an activity and a goal is the rounded one, strictly
    increasing and at most 2.4. *)
Definition clamp_idle (activity goal : string) : bool :=
  match gkg_range activity goal, round_range (goal_range goal (base_range activity)) with
  | Ok (min_gkg, max_gkg), Ok (rmin, rmax) =>
      (min_gkg =? rmin)%float && (max_gkg =? rmax)%float
      && (min_gkg <? max_gkg)%float && (max_gkg <=? 2.4)%float
  | _, _ => false
  end.

(** ** Evaluating the plans quickly *)

(** Round-half-even of [n / 2^k] with shifts and masks. *)
Definition rne_shift (n k : Z) : Z :=
  let q := Z.shiftr n k in
  let r := Z.land n (Z.ones k) in
  match 2 * r ?= Z.shiftl 1 k with
  | Lt => q
  | Eq => if Z.even q then q else q + 1
  | Gt => q + 1
  end.

(** [Py.round], evaluated with shifts. *)
Definition round_fast (x : float) : result Z :=
  match Prim2SF x with
  | S754_nan => Raise ValueError
  | S754_infinity _ => Raise OverflowError
  | S754_zero _ => Ok 0
  | S754_finite s m e =>
      Ok (Py.cond_opp s (if 0 <=? e then Zpos m * 2 ^ e else rne_shift (Zpos m) (- e)))
  end.

(** [Py.float_of_int] on a machine integer, by the primitive conversion. *)
Definition int_fast (n : Z) : result float :=
  let f := of_uint63 (Uint63.of_Z n) in
  if is_infinity f then Raise OverflowError else Ok f.

(** [_round5], [total_kcal_of] and [grams_of] with these two. *)
Definition round5_fast (x : number) : result Z :=
  xf <- match x with Int n => int_fast n | Float x => Ok x end ;;
  q <- Py.fdiv xf 5 ;;
  r <- round_fast q ;;
  Ok (r * 5).

Definition total_kcal_fast (p_pct protein_g : Z) : result float :=
  pg <- int_fast protein_g ;;
  pp <- int_fast p_pct ;;
  share <- Py.fdiv pp 100 ;;
  Py.fdiv (pg * 4)%float share.

Definition grams_fast (total_kcal : float) (pct : Z) (kcal_per_g : float) : result float :=
  pf <- int_fast pct ;;
  share <- Py.fdiv pf 100 ;;
  Py.fdiv (total_kcal * share)%float kcal_per_g.

(** The four numbers of the plan that [_make_plan] builds: protein,
    carbs and fat grams and the calories. *)
Definition plan_numbers (pct : Z * Z * Z) (protein_g : Z) : result (Z * Z * Z * Z) :=
  let '(p_pct, c_pct, f_pct) := pct in
  total_kcal <- total_kcal_fast p_pct protein_g ;;
  carbs_g <- grams_fast total_kcal c_pct 4 ;;
  fats_g <- grams_fast total_kcal f_pct 9 ;;
  rp <- round5_fast (Int protein_g) ;;
  rc <- round5_fast (Float carbs_g) ;;
  rf <- round5_fast (Float fats_g) ;;
  kcal <- round_fast total_kcal ;;
  Ok (rp, rc, rf, kcal).

(** The numbers of a plan against the exact rationals: the protein grams
    are the multiple of 5 nearest to the target, the calories are
    [400 * target / p_pct] rounded to nearest, the carbs and fat grams
    are within 2.5 of [target * c_pct / p_pct] and of
    [4 * target * f_pct / (9 * p_pct)], and the energy of the three
    grams is within 38 kcal of the calories. *)
Definition numbers_ok (pct : Z * Z * Z) (t : Z) (n : Z * Z * Z * Z) : bool :=
  let '(p, c, f) := pct in
  let '(P, C, F, K) := n in
  (P =? Py.rne_div t 5 * 5)
  && (K =? Py.rne_div (400 * t) p)
  && (2 * Z.abs (C * p - t * c) <=? 5 * p)
  && (2 * Z.abs (9 * p * F - 4 * t * f) <=? 45 * p)
  && (Z.abs (4 * P + 4 * C + 9 * F - K) <=? 38).

(** The four numbers of one plan are at most those of another. *)
Definition numbers_le (n1 n2 : Z * Z * Z * Z) : Prop :=
  let '(P1, C1, F1, K1) := n1 in
  let '(P2, C2, F2, K2) := n2 in
  P1 <= P2 /\ C1 <= C2 /\ F1 <= F2 /\ K1 <= K2.

(** [numbers_le], decided. *)
Definition numbers_leb (n1 n2 : Z * Z * Z * Z) : bool :=
  let '(P1, C1, F1, K1) := n1 in
  let '(P2, C2, F2, K2) := n2 in
  (P1 <=? P2) && (C1 <=? C2) && (F1 <=? F2) && (K1 <=? K2).

(** The plans of [n] targets from [t] on are right and grow with the
    target. *)
Fixpoint scan (n : nat) (pct : Z * Z * Z) (t : Z) (prev : Z * Z * Z * Z) : bool :=
  match n with
  | O => true
  | S n' =>
      match plan_numbers pct t with
      | Ok cur => numbers_ok pct t cur && numbers_leb prev cur && scan n' pct (t + 1) cur
      | Raise _ => false
      end
  end.

(** The splits of the four archetypes, for the bumps 0 and 5. *)
Definition adjusted_splits : list (Z * Z * Z) :=
  [ (30, 45, 25); (35, 35, 30); (25, 50, 25); (20, 60, 20);
    (35, 40, 25); (40, 30, 30); (25, 55, 20) ].

(** Equality of two splits, decided. *)
Definition split_eqb (x y : Z * Z * Z) : bool :=
  let '(p1, c1, f1) := x in
  let '(p2, c2, f2) := y in
  (p1 =? p2) && (c1 =? c2) && (f1 =? f2).

(** What a plan of a response is, for its archetype: the fields that
    [_make_plan] copies, and the numbers it computes. *)
Definition plan_for (p_bump target : Z) (a : string * string * (Z * Z * Z))
    (plan : MealSuggestion) : Prop :=
  let '(nm, tag, base) := a in
  let pct := adjust_split p_bump base in
  let '(p, c, f) := pct in
  name plan = nm /\ tagline plan = tag
  /\ split_percent (macros plan) = [("protein", p); ("carbs", c); ("fats", f)]
  /\ sample_meals plan = dict_get base_meals nm default_meals
  /\ In pct adjusted_splits
  /\ plan_numbers pct target =
     Ok (protein_g (macros plan), carbs_g (macros plan), fats_g (macros plan),
         calories (macros plan)).

(** * Properties *)

(** ** The model of Python's numbers on values known from the interpreter *)

Section KnownValues.

Example round_ties_to_even :
  (Py.round 0.5, Py.round 1.5, Py.round 2.5, Py.round 143.99999999999997)
  = (Ok 0, Ok 2, Ok 2, Ok 144).
Proof. vm_compute. reflexivity. Qed.

Example round_ndigits_known :
  (Py.round_ndigits 2.675 2, Py.round_ndigits 1.005 2,
   Py.round_ndigits (2.2 + 0.2) 2, Py.round_ndigits 68.0388555 2)
  = (Ok 2.67%float, Ok 1%float, Ok 2.4%float, Ok 68.04%float).
Proof. vm_compute. reflexivity. Qed.

Example repr_known :
  [Py.repr (2.2 + 0.2); Py.repr (1.6 + 0.1); Py.repr 0.1; Py.repr 1e22;
   Py.repr 1e-5; Py.repr 2; Py.repr 123456789.125; Py.repr 5e-324]
  = ["2.4000000000000004"; "1.7000000000000002"; "0.1"; "1e+22";
     "1e-05"; "2.0"; "123456789.125"; "5e-324"].
Proof. vm_compute. reflexivity. Qed.

Example float_of_int_known :
  (Py.float_of_int 9007199254740993, Py.float_of_int (2 ^ 1024), Py.fdiv 1 0)
  = (Ok 9007199254740992%float, Raise OverflowError, Raise ZeroDivisionError).
Proof. vm_compute. reflexivity. Qed.

Example fixed_known :
  [fixed 2 1.6; fixed 2 2.675; fixed 2 0.005; fixed 2 2.4]
  = ["1.60"; "2.67"; "0.01"; "2.40"].
Proof. vm_compute. reflexivity. Qed.

(** 150 lb, high activity, fat loss: 68.04 kg, the range 2.0 to 2.4 g/kg,
    136 to 163 g a day with the target 150. *)
Example request_150_lb_high_fat_loss :
  (req <- ProteinRequest_init 150 (Some "lb") (Some "high") (Some "fat_loss") None None ;;
   r <- calculate_protein req ;;
   Ok (weight_kg r, grams_per_kg_range r,
       daily_grams_min r, daily_grams_max r, daily_grams_target r,
       map (fun plan => (protein_g (macros plan), carbs_g (macros plan),
                         fats_g (macros plan), calories (macros plan)))
           (suggestions r)))
  = Ok (68.04%float, (2%float, 2.4%float), 136, 163, 150,
        [(150, 170, 50, 1714); (150, 110, 50, 1500);
         (150, 225, 55, 2000); (150, 330, 55, 2400)]).
Proof. vm_compute. reflexivity. Qed.

(** The grams of protein of a plan are the target rounded to a multiple
    of 5, so they can differ from the target: 80 kg, low activity, fat
    loss has the target 128 and plans with 130 g. *)
Example request_80_kg_low_fat_loss :
  (req <- ProteinRequest_init 80 None (Some "low") (Some "fat_loss") None None ;;
   r <- calculate_protein req ;;
   Ok (daily_grams_target r, map (fun plan => protein_g (macros plan)) (suggestions r)))
  = Ok (128, [130; 130; 130; 130]).
Proof. vm_compute. reflexivity. Qed.

(** A weight that is not a number fails the constraint [gt=0]: pydantic
    tests [v > 0], which is false on [nan]. *)
Example nan_weight_rejected :
  ProteinRequest_init nan None None None None None = Raise ValidationError.
Proof. vm_compute. reflexivity. Qed.

End KnownValues.

(** ** Rounding an integer quotient to nearest, ties to even *)

Section RneDiv.

Import Py.

Lemma rne_div_floor (n d : Z) :
  0 < d -> n / d <= rne_div n d <= n / d + 1.
Proof.
  intros Hd. unfold rne_div.
  destruct (2 * (n mod d) ?= d); try destruct (Z.even (n / d)); lia.
Qed.

Lemma rne_div_exact (k d : Z) : 0 < d -> rne_div (k * d) d = k.
Proof.
  intros Hd. unfold rne_div.
  rewrite Z.mod_mul, Z.div_mul by lia.
  replace (2 * 0) with 0 by lia.
  destruct (Z.compare_spec 0 d); try lia; reflexivity.
Qed.

Lemma rne_div_mono (n1 n2 d : Z) :
  0 < d -> n1 <= n2 -> rne_div n1 d <= rne_div n2 d.
Proof.
  intros Hd Hle.
  assert (Hq : n1 / d <= n2 / d) by (apply Z.div_le_mono; lia).
  pose proof (rne_div_floor n1 d Hd) as H1.
  pose proof (rne_div_floor n2 d Hd) as H2.
  destruct (Z.eq_dec (n1 / d) (n2 / d)) as [Heq | Hne]; [ | lia ].
  assert (Hm : n1 mod d <= n2 mod d).
  { pose proof (Z.div_mod n1 d ltac:(lia)). pose proof (Z.div_mod n2 d ltac:(lia)). nia. }
  unfold rne_div. rewrite <- Heq.
  destruct (Z.compare_spec (2 * (n1 mod d)) d);
    destruct (Z.compare_spec (2 * (n2 mod d)) d);
    try destruct (Z.even (n1 / d)); lia.
Qed.

Lemma rne_div_scale (n d c : Z) :
  0 < d -> 0 < c -> rne_div (n * c) (d * c) = rne_div n d.
Proof.
  intros Hd Hc. unfold rne_div.
  rewrite Z.div_mul_cancel_r by lia.
  rewrite Z.mul_mod_distr_r by lia.
  replace (2 * (n mod d * c)) with (2 * (n mod d) * c) by lia.
  rewrite <- Zmult_compare_compat_r by lia.
  reflexivity.
Qed.

Lemma rne_div_nonneg (n d : Z) : 0 < d -> 0 <= n -> 0 <= rne_div n d.
Proof.
  intros Hd Hn. pose proof (rne_div_floor n d Hd).
  assert (0 <= n / d) by (apply Z.div_pos; lia). lia.
Qed.

Lemma rne_div_le (n d k : Z) : 0 < d -> n <= k * d -> rne_div n d <= k.
Proof.
  intros Hd Hle. rewrite <- (rne_div_exact k d Hd). now apply rne_div_mono.
Qed.

Lemma rne_div_ge (n d k : Z) : 0 < d -> k * d <= n -> k <= rne_div n d.
Proof.
  intros Hd Hle. rewrite <- (rne_div_exact k d Hd). now apply rne_div_mono.
Qed.

End RneDiv.

(** ** The rounding of binary64, on integers

    A finite double is [m * 2^e] with [-1074 <= e], so the exact product
    of two doubles is a multiple of [2^-2148].  Values are counted in
    that unit, which keeps the whole argument in [Z]. *)

Section Round64.

Lemma last_place_bounds (v : Z) : 1074 <= last_place v.
Proof. unfold last_place, scale. lia. Qed.

Lemma last_place_mono (v1 v2 : Z) : v1 <= v2 -> last_place v1 <= last_place v2.
Proof.
  intros H. unfold last_place.
  pose proof (Z.log2_le_mono v1 v2 H). lia.
Qed.

Lemma pow2_pos (k : Z) : 0 <= k -> 0 < 2 ^ k.
Proof. intros. apply Z.pow_pos_nonneg; lia. Qed.

Lemma round_units_nonneg (n d : Z) : 0 < d -> 0 <= n -> 0 <= round_units n d.
Proof.
  intros Hd Hn. unfold round_units.
  pose proof (last_place_bounds (n / d)).
  pose proof (pow2_pos (last_place (n / d)) ltac:(lia)).
  pose proof (rne_div_nonneg n (d * 2 ^ last_place (n / d)) ltac:(nia) Hn). nia.
Qed.

(** A 53-bit multiple of the last place is a fixed point. *)
Lemma round_units_exact (m e d : Z) :
  0 < d -> 0 <= m < 2 ^ 53 -> scale - 1074 <= e ->
  round_units (m * 2 ^ e * d) d = m * 2 ^ e.
Proof.
  intros Hd Hm He. unfold round_units. rewrite Z.div_mul by lia.
  set (l := last_place (m * 2 ^ e)).
  assert (Hl : scale - 1074 <= l <= e).
  { unfold l, last_place. split; [ lia | ].
    destruct (Z.eq_dec m 0) as [-> | Hm0].
    - rewrite Z.mul_0_l. simpl Z.log2. unfold scale in *. lia.
    - rewrite Z.log2_mul_pow2 by (unfold scale in *; lia).
      assert (Z.log2 m < 53) by (apply Z.log2_lt_pow2; lia). lia. }
  unfold scale in *.
  pose proof (pow2_pos l ltac:(lia)).
  replace (m * 2 ^ e * d) with (m * 2 ^ (e - l) * (d * 2 ^ l)).
  - rewrite rne_div_exact by nia.
    rewrite <- Z.mul_assoc, <- Z.pow_add_r by lia. do 2 f_equal. lia.
  - replace (2 ^ e) with (2 ^ (e - l) * 2 ^ l); [ ring | ].
    rewrite <- Z.pow_add_r by lia. f_equal. lia.
Qed.

Lemma round_units_mono (n1 n2 d : Z) :
  0 < d -> 0 <= n1 -> n1 <= n2 -> round_units n1 d <= round_units n2 d.
Proof.
  intros Hd H0 Hle. unfold round_units.
  assert (Hq : n1 / d <= n2 / d) by (apply Z.div_le_mono; lia).
  assert (Hq0 : 0 <= n1 / d) by (apply Z.div_pos; lia).
  pose proof (last_place_mono _ _ Hq) as Hl.
  pose proof (last_place_bounds (n1 / d)) as Hb1.
  set (l1 := last_place (n1 / d)) in *. set (l2 := last_place (n2 / d)) in *.
  pose proof (pow2_pos l1 ltac:(lia)) as Hp1.
  pose proof (pow2_pos l2 ltac:(lia)) as Hp2.
  destruct (Z.eq_dec l1 l2) as [Heq | Hne].
  - rewrite <- Heq. apply Z.mul_le_mono_nonneg_r; [ lia | ].
    apply rne_div_mono; nia.
  - assert (Hlt : l1 + 1 <= l2) by lia.
    assert (Hl2 : l2 = Z.log2 (n2 / d) - 52) by (unfold l2, last_place in *; lia).
    assert (Hv2 : 0 < n2 / d).
    { destruct (Z_lt_le_dec 0 (n2 / d)); [ assumption | ].
      rewrite (Z.log2_nonpos (n2 / d)) in Hl2 by lia. unfold scale in *. lia. }
    assert (Hlow : 2 ^ 52 * (d * 2 ^ l2) <= n2).
    { assert (2 ^ (52 + l2) <= n2 / d).
      { replace (52 + l2) with (Z.log2 (n2 / d)) by lia. apply Z.log2_spec. lia. }
      rewrite Z.pow_add_r in H by lia.
      pose proof (Z.mul_div_le n2 d Hd). nia. }
    assert (Hhigh : n1 <= 2 ^ 53 * (d * 2 ^ l1)).
    { assert (n1 / d < 2 ^ (53 + l1)).
      { destruct (Z.eq_dec (n1 / d) 0) as [-> | Hv1]; [ apply pow2_pos; lia | ].
        assert (Z.log2 (n1 / d) < 53 + l1) by (unfold l1, last_place; lia).
        apply Z.log2_lt_pow2; lia. }
      rewrite Z.pow_add_r in H by lia.
      pose proof (Z.div_mod n1 d ltac:(lia)).
      pose proof (Z.mod_pos_bound n1 d Hd). nia. }
    pose proof (rne_div_le n1 (d * 2 ^ l1) (2 ^ 53) ltac:(nia) Hhigh) as Hr1.
    pose proof (rne_div_ge n2 (d * 2 ^ l2) (2 ^ 52) ltac:(nia) Hlow) as Hr2.
    assert (Hstep : 2 ^ 53 * 2 ^ l1 <= 2 ^ 52 * 2 ^ l2).
    { rewrite <- !Z.pow_add_r by lia. apply Z.pow_le_mono_r; lia. }
    assert (Py.rne_div n1 (d * 2 ^ l1) * 2 ^ l1 <= 2 ^ 53 * 2 ^ l1)
      by (apply Z.mul_le_mono_nonneg_r; lia).
    assert (2 ^ 52 * 2 ^ l2 <= Py.rne_div n2 (d * 2 ^ l2) * 2 ^ l2)
      by (apply Z.mul_le_mono_nonneg_r; lia).
    lia.
Qed.

Lemma round_units_scale (n d c : Z) :
  0 < d -> 0 < c -> round_units (n * c) (d * c) = round_units n d.
Proof.
  intros Hd Hc. unfold round_units.
  rewrite Z.div_mul_cancel_r by lia.
  set (l := last_place (n / d)).
  replace (d * c * 2 ^ l) with (d * 2 ^ l * c) by ring.
  pose proof (last_place_bounds (n / d)).
  pose proof (pow2_pos l ltac:(unfold l; lia)).
  rewrite rne_div_scale by nia. reflexivity.
Qed.

(** An upper bound that is itself a double bounds the rounded value. *)
Lemma round_units_le (n d m e : Z) :
  0 < d -> 0 <= n -> 0 <= m < 2 ^ 53 -> scale - 1074 <= e ->
  n <= m * 2 ^ e * d -> round_units n d <= m * 2 ^ e.
Proof.
  intros Hd Hn Hm He Hle.
  rewrite <- (round_units_exact m e d) by assumption.
  now apply round_units_mono.
Qed.

Lemma round64_nonneg (v : Z) : 0 <= v -> 0 <= round64 v.
Proof. apply round_units_nonneg. lia. Qed.

Lemma round64_exact (m e : Z) :
  0 <= m < 2 ^ 53 -> scale - 1074 <= e -> round64 (m * 2 ^ e) = m * 2 ^ e.
Proof.
  intros Hm He. unfold round64.
  rewrite <- (Z.mul_1_r (m * 2 ^ e)) at 1. apply round_units_exact; lia.
Qed.

Lemma round64_mono (v1 v2 : Z) : 0 <= v1 -> v1 <= v2 -> round64 v1 <= round64 v2.
Proof. apply round_units_mono. lia. Qed.

End Round64.

(** ** The rounding step of the IEEE 754 specification computes [round_units] *)

Section BinaryRound.

Lemma digits2_pos_size (p : positive) : digits2_pos p = Pos.size p.
Proof. induction p; simpl; congruence. Qed.

Lemma Zdigits2_log2 (p : positive) : Zdigits2 (Zpos p) = Z.log2 (Zpos p) + 1.
Proof.
  unfold Zdigits2. rewrite digits2_pos_size.
  destruct p; simpl; lia.
Qed.

Lemma Zdigits2_bounds (q : Z) :
  0 <= q ->
  0 <= Zdigits2 q /\ q < 2 ^ Zdigits2 q /\
  (0 < q -> Zdigits2 q = Z.log2 q + 1).
Proof.
  intros Hq. destruct q as [ | p | p ]; [ | | lia ].
  - cbn. lia.
  - rewrite Zdigits2_log2. pose proof (Z.log2_nonneg (Zpos p)).
    repeat split; try lia.
    apply Z.log2_lt_pow2; lia.
Qed.

Lemma fexp_eq (x : Z) : fexp prec emax x = Z.max (x - 53) (-1074).
Proof. reflexivity. Qed.

Lemma iter_pos_iter {A : Type} (f : A -> A) (p : positive) (x : A) :
  iter_pos f p x = Pos.iter f x p.
Proof.
  revert x. induction p as [p IH | p IH | ]; intros x; simpl.
  - rewrite !IH. now rewrite <- !Pos.iter_swap.
  - now rewrite !IH.
  - reflexivity.
Qed.

Lemma shr_1_spec (m : Z) (r s : bool) :
  0 <= m ->
  shr_1 (Build_shr_record m r s) = Build_shr_record (m / 2) (Z.odd m) (r || s).
Proof.
  intros Hm. rewrite <- Z.div2_div.
  destruct m as [ | [p | p | ] | p ]; try lia; reflexivity.
Qed.

(** The bits that a shift by [k + 1] drops, from the bit at [k] and the
    bits below it. *)
Lemma mod_pow2_succ (m k : Z) :
  0 <= k ->
  m mod 2 ^ (k + 1) = (if Z.odd (m / 2 ^ k) then 2 ^ k else 0) + m mod 2 ^ k.
Proof.
  intros Hk.
  assert (Hp : 0 < 2 ^ k) by (apply Z.pow_pos_nonneg; lia).
  rewrite Z.pow_add_r, Z.pow_1_r by lia.
  rewrite Z.rem_mul_r by lia.
  rewrite Zmod_odd. destruct (Z.odd (m / 2 ^ k)); lia.
Qed.

Lemma shr_iter (m : Z) (r0 s0 : bool) (p : positive) :
  0 <= m ->
  Pos.iter shr_1 (Build_shr_record m r0 s0) p =
  Build_shr_record (m / 2 ^ Zpos p) (Z.odd (m / 2 ^ (Zpos p - 1)))
                   (negb (m mod 2 ^ (Zpos p - 1) =? 0) || (r0 || s0)).
Proof.
  intros Hm. induction p as [ | p IH ] using Pos.peano_ind.
  - cbn [Pos.iter]. rewrite shr_1_spec by assumption.
    change (2 ^ (1 - 1)) with 1. rewrite Z.div_1_r, Z.mod_1_r. reflexivity.
  - rewrite Pos.iter_succ, IH.
    assert (Hp : 0 < 2 ^ Zpos p) by (apply Z.pow_pos_nonneg; lia).
    rewrite shr_1_spec by (apply Z.div_pos; lia).
    rewrite Pos2Z.inj_succ.
    replace (Z.succ (Zpos p) - 1) with (Zpos p) by lia.
    replace (Z.succ (Zpos p)) with (Zpos p + 1) by lia.
    rewrite Z.pow_add_r, Z.pow_1_r, Z.div_div by lia.
    f_equal.
    pose proof (mod_pow2_succ m (Zpos p - 1) ltac:(lia)) as Hs.
    replace (Zpos p - 1 + 1) with (Zpos p) in Hs by lia.
    assert (Hq : 0 < 2 ^ (Zpos p - 1)) by (apply Z.pow_pos_nonneg; lia).
    pose proof (Z.mod_pos_bound m (2 ^ (Zpos p - 1)) Hq).
    rewrite Hs.
    destruct (Z.odd (m / 2 ^ (Zpos p - 1)));
      destruct (Z.eqb_spec (m mod 2 ^ (Zpos p - 1)) 0);
      match goal with
      | |- context [ ?a + ?b =? 0 ] => destruct (Z.eqb_spec (a + b) 0)
      end; try lia; destruct r0, s0; reflexivity.
Qed.

Lemma shr_record_of_loc_rem (q r d : Z) :
  exists r0 s0,
    shr_record_of_loc q (loc_of_rem r d) = Build_shr_record q r0 s0 /\
    loc_of_shr_record (Build_shr_record q r0 s0) = loc_of_rem r d /\
    r0 || s0 = negb (r =? 0).
Proof.
  unfold loc_of_rem. destruct (r =? 0).
  - exists false, false. repeat split.
  - destruct (2 * r ?= d).
    + exists true, false. repeat split.
    + exists false, true. repeat split.
    + exists true, true. repeat split.
Qed.

(** Shifting a mantissa right and rounding what the shift kept is
    round-half-even division. *)
Lemma shr_round (q r d e n : Z) :
  0 <= q -> 0 <= r < d ->
  let '(mrs, e') := shr (shr_record_of_loc q (loc_of_rem r d)) e n in
  e' = e + Z.max 0 n /\
  round_nearest_even (shr_m mrs) (loc_of_shr_record mrs) =
  Py.rne_div (q * d + r) (d * 2 ^ Z.max 0 n).
Proof.
  intros Hq Hr.
  assert (Hnop : round_nearest_even q (loc_of_rem r d) = Py.rne_div (q * d + r) (d * 1)).
  { unfold Py.rne_div. rewrite Z.mul_1_r.
    rewrite Z.div_add_l, Z.div_small, Z.add_0_r by lia.
    rewrite Z.add_comm, Z.mod_add, Z.mod_small by lia.
    unfold loc_of_rem. destruct (Z.eqb_spec r 0) as [-> | Hr0]; cbn [round_nearest_even].
    - destruct (Z.compare_spec (2 * 0) d); try lia; reflexivity.
    - destruct (2 * r ?= d); reflexivity. }
  destruct (shr_record_of_loc_rem q r d) as (r0 & s0 & Hrec & Hloc & Hrs).
  destruct n as [ | p | p ]; simpl shr.
  - split; [ lia | ]. rewrite Hrec at 2. cbn [shr_m]. rewrite Hrec, Hloc. exact Hnop.
  - rewrite Hrec, iter_pos_iter, shr_iter by assumption.
    split; [ lia | ].
    replace (Z.max 0 (Zpos p)) with (Zpos p) by lia.
    pose proof (mod_pow2_succ q (Zpos p - 1) ltac:(lia)) as Hs.
    replace (Zpos p - 1 + 1) with (Zpos p) in Hs by lia.
    assert (Hh : 0 < 2 ^ (Zpos p - 1)) by (apply Z.pow_pos_nonneg; lia).
    pose proof (Z.mod_pos_bound q (2 ^ (Zpos p - 1)) Hh) as Hb.
    assert (Hpw : 2 ^ Zpos p = 2 * 2 ^ (Zpos p - 1)).
    { rewrite <- Z.pow_succ_r by lia. f_equal. lia. }
    unfold Py.rne_div.
    rewrite <- (Z.div_div _ d) by lia.
    rewrite Z.rem_mul_r by lia.
    rewrite Z.div_add_l, (Z.div_small r d), Z.add_0_r by lia.
    rewrite (Z.add_comm (q * d)), Z.mod_add, (Z.mod_small r d) by lia.
    rewrite Hs, Hrs. cbn [shr_m loc_of_shr_record].
    set (h := 2 ^ (Zpos p - 1)) in *. set (low := q mod h) in *.
    rewrite Hpw.
    destruct (Z.odd (q / h));
      destruct (Z.eqb_spec low 0) as [Hz | Hz];
      destruct (Z.eqb_spec r 0) as [Hr0 | Hr0];
      cbn [negb orb round_nearest_even];
      match goal with
      | |- context [ ?a ?= ?b ] => destruct (Z.compare_spec a b)
      end; try nia; reflexivity.
  - split; [ lia | ]. rewrite Hrec at 2. cbn [shr_m]. rewrite Hrec, Hloc. exact Hnop.
Qed.

Lemma shr_nop (mrs : shr_record) (e n : Z) : n <= 0 -> shr mrs e n = (mrs, e).
Proof. intros Hn. destruct n; try lia; reflexivity. Qed.

(** The second half of the rounding: a mantissa that the rounding
    carried to [2^53] is renormalised. *)
Lemma finish_round (m2 e' : Z) :
  0 <= m2 <= 2 ^ 53 -> -1074 <= e' ->
  (0 < m2 -> e' <= 971) -> (m2 = 2 ^ 53 -> e' <= 919) ->
  value_of (renormalise m2 e') = Some (units m2 e').
Proof.
  intros Hm2 He' Hfin Hcarry. unfold renormalise, shr_fexp. cbn [shr_record_of_loc].
  destruct (Z.eq_dec m2 (2 ^ 53)) as [Htop | Hntop].
  - specialize (Hcarry Htop).
    rewrite Htop. change (2 ^ 53) with 9007199254740992.
    cbn [Zdigits2 digits2_pos Pos.succ]. rewrite fexp_eq.
    replace (Z.max (54 + e' - 53) (-1074) - e') with 1 by lia.
    cbn [shr iter_pos shr_1 shr_m fst snd].
    replace (e' + 1 <=? emax - prec) with true
      by (symmetry; apply Z.leb_le; change (emax - prec) with 971; lia).
    cbn [value_of].
    replace (-1074 <=? e' + 1) with true by (symmetry; apply Z.leb_le; lia).
    f_equal. unfold units.
    replace (e' + 1 + scale) with (1 + (e' + scale)) by lia.
    rewrite Z.pow_add_r by (unfold scale; lia). lia.
  - destruct m2 as [ | p2 | p2 ]; [ | | lia ].
    + cbn [Zdigits2]. rewrite fexp_eq, shr_nop by lia.
      cbn [shr_m value_of]. f_equal.
    + rewrite Zdigits2_log2, fexp_eq.
      assert (Z.log2 (Zpos p2) < 53) by (apply Z.log2_lt_pow2; lia).
      rewrite shr_nop by lia. cbn [shr_m].
      replace (e' <=? emax - prec) with true
        by (symmetry; apply Z.leb_le; change (emax - prec) with 971; lia).
      cbn [value_of].
      replace (-1074 <=? e') with true by (symmetry; apply Z.leb_le; lia).
      reflexivity.
Qed.

(** Out of range, the result is the infinity. *)
Lemma finish_round_cases (m2 e' : Z) :
  0 <= m2 <= 2 ^ 53 -> -1074 <= e' ->
  value_of (renormalise m2 e') = Some (units m2 e')
  \/ renormalise m2 e' = S754_infinity false.
Proof.
  intros Hm2 He'. unfold renormalise, shr_fexp. cbn [shr_record_of_loc].
  destruct (Z.eq_dec m2 (2 ^ 53)) as [Htop | Hntop].
  - rewrite Htop. change (2 ^ 53) with 9007199254740992.
    cbn [Zdigits2 digits2_pos Pos.succ]. rewrite fexp_eq.
    replace (Z.max (54 + e' - 53) (-1074) - e') with 1 by lia.
    cbn [shr iter_pos shr_1 shr_m fst snd].
    destruct (Z.leb_spec (e' + 1) (emax - prec)); [ left | right; reflexivity ].
    cbn [value_of].
    replace (-1074 <=? e' + 1) with true by (symmetry; apply Z.leb_le; lia).
    f_equal. unfold units.
    replace (e' + 1 + scale) with (1 + (e' + scale)) by lia.
    rewrite Z.pow_add_r by (unfold scale; lia). lia.
  - destruct m2 as [ | p2 | p2 ]; [ | | lia ].
    + left. cbn [Zdigits2]. rewrite fexp_eq, shr_nop by lia.
      cbn [shr_m value_of]. f_equal.
    + rewrite Zdigits2_log2, fexp_eq.
      assert (Z.log2 (Zpos p2) < 53) by (apply Z.log2_lt_pow2; lia).
      rewrite shr_nop by lia. cbn [shr_m].
      destruct (Z.leb_spec e' (emax - prec)); [ left | right; reflexivity ].
      cbn [value_of].
      replace (-1074 <=? e') with true by (symmetry; apply Z.leb_le; lia).
      reflexivity.
Qed.

Lemma floor_units (q r d k : Z) :
  0 <= q -> 0 <= r < d -> 0 <= k ->
  q * 2 ^ k <= (q * d + r) * 2 ^ k / d < (q + 1) * 2 ^ k.
Proof.
  intros Hq Hr Hk. pose proof (pow2_pos k Hk) as Hp.
  replace ((q * d + r) * 2 ^ k) with (q * 2 ^ k * d + r * 2 ^ k) by ring.
  rewrite Z.div_add_l by lia.
  assert (0 <= r * 2 ^ k / d) by (apply Z.div_pos; nia).
  assert (r * 2 ^ k / d < 2 ^ k) by (apply Z.div_lt_upper_bound; nia).
  lia.
Qed.

(** The first half of the rounding step on [(q + r / d) * 2^e]: the
    mantissa is shifted to the last place and rounded to nearest, ties
    to even; the result is the mantissa of [round_units].  An inexact
    [q] has to reach the last place, which the division ensures. *)
Lemma binary_round_aux_shape (q r d e : Z) :
  0 <= q -> 0 <= r < d -> - scale <= e ->
  (r <> 0 -> e <= fexp prec emax (Zdigits2 q + e)) ->
  exists m2 e',
    binary_round_aux prec emax false q e (loc_of_rem r d) = renormalise m2 e'
    /\ e' = Z.max e (Z.max (Zdigits2 q + e - 53) (-1074))
    /\ m2 = Py.rne_div (q * d + r) (d * 2 ^ (e' - e))
    /\ 0 <= m2 <= 2 ^ 53
    /\ round_units ((q * d + r) * 2 ^ (e + scale)) d = units m2 e'.
Proof.
  intros Hq Hr He Hplace.
  destruct (Zdigits2_bounds q Hq) as (Hd0 & Hdq & Hdlog).
  pose proof (floor_units q r d (e + scale) Hq Hr ltac:(lia)) as HF.
  pose proof (pow2_pos (e + scale) ltac:(lia)) as Hpe.
  set (N := q * d + r) in *.
  assert (HN : 0 <= N) by (unfold N; nia).
  set (F := N * 2 ^ (e + scale) / d) in *.
  rewrite fexp_eq in Hplace.
  unfold binary_round_aux. unfold shr_fexp at 1. rewrite fexp_eq.
  set (ex := Z.max (Zdigits2 q + e - 53) (-1074)) in *.
  assert (Hex : ex = Z.max (Zdigits2 q + e - 53) (-1074)) by reflexivity.
  clearbody ex.
  pose proof (shr_round q r d e (ex - e) Hq Hr) as H1.
  destruct (shr (shr_record_of_loc q (loc_of_rem r d)) e (ex - e)) as [mrs' e'].
  destruct H1 as [He' Hm2]. rewrite Hm2. clear Hm2 mrs'.
  fold N.
  set (k := Z.max 0 (ex - e)) in *.
  assert (Hkeq : k = Z.max 0 (ex - e)) by reflexivity.
  clearbody k.
  set (m2 := Py.rne_div N (d * 2 ^ k)).
  assert (Hk : 0 <= k) by lia.
  pose proof (pow2_pos k Hk) as Hpk.
  exists m2, e'. split; [ reflexivity | ].
  split; [ lia | ].
  split; [ unfold m2; do 3 f_equal; lia | ].
  split.
  { split; [ apply rne_div_nonneg; nia | ].
    apply rne_div_le; [ nia | ].
    assert (2 ^ Zdigits2 q <= 2 ^ (53 + k)) by (apply Z.pow_le_mono_r; lia).
    rewrite Z.pow_add_r in H by lia. unfold N. nia. }
  destruct (Z_le_gt_dec e ex) as [Hle | Hgt].
  - (* the mantissa reaches the last place *)
    unfold round_units. fold F.
    assert (Hl : last_place F = ex + scale).
    { unfold last_place. destruct (Z.eq_dec q 0) as [Hq0 | Hq0].
      - rewrite Hq0 in *. cbn [Zdigits2] in *.
        assert (He1 : e <= -1074) by lia.
        assert (F < 2 ^ (scale - 1074)).
        { apply Z.lt_le_trans with (1 := proj2 HF).
          rewrite Z.mul_1_l. apply Z.pow_le_mono_r; lia. }
        destruct (Z.eq_dec F 0) as [-> | HF0]; [ simpl Z.log2; unfold scale; lia | ].
        assert (Z.log2 F < scale - 1074) by (apply Z.log2_lt_pow2; lia).
        lia.
      - assert (Z.log2 F = Z.log2 q + (e + scale)).
        { apply Z.log2_unique; [ pose proof (Z.log2_nonneg q); lia | ].
          pose proof (Z.log2_spec q ltac:(lia)) as [Hlo Hhi].
          pose proof (Z.log2_nonneg q) as Hl0.
          replace (Z.succ (Z.log2 q + (e + scale)))
            with (Z.succ (Z.log2 q) + (e + scale)) by lia.
          rewrite (Z.pow_add_r 2 (Z.log2 q) (e + scale)) by lia.
          rewrite (Z.pow_add_r 2 (Z.succ (Z.log2 q)) (e + scale)) by lia.
          nia. }
        rewrite Hdlog in * by lia. lia. }
    rewrite Hl. unfold units. replace e' with ex by lia.
    f_equal. unfold m2.
    replace (2 ^ (ex + scale)) with (2 ^ k * 2 ^ (e + scale)).
    + rewrite Z.mul_assoc. apply rne_div_scale; nia.
    + rewrite <- Z.pow_add_r by lia. f_equal. lia.
  - (* an exact mantissa with places to spare *)
    assert (Hr0 : r = 0) by (destruct (Z.eq_dec r 0); [ assumption | lia ]).
    assert (Hk0 : k = 0) by lia.
    unfold m2, N. rewrite Hr0, Hk0, Z.add_0_r.
    change (2 ^ 0) with 1. rewrite Z.mul_1_r, rne_div_exact by lia.
    replace e' with e by lia. unfold units.
    replace (q * d * 2 ^ (e + scale)) with (q * 2 ^ (e + scale) * d) by ring.
    apply round_units_exact; [ lia | | unfold scale; lia ].
    split; [ assumption | ].
    apply Z.lt_le_trans with (1 := Hdq). apply Z.pow_le_mono_r; lia.
Qed.

(** Rounding [(q + r / d) * 2^e] as the specification does gives the
    double of value [round_units], when that is in range. *)
Lemma binary_round_aux_correct (q r d e : Z) :
  0 <= q -> 0 <= r < d -> - scale <= e ->
  (r <> 0 -> e <= fexp prec emax (Zdigits2 q + e)) ->
  (q * d + r) * 2 ^ (e + scale) < d * 2 ^ (scale + 972) ->
  value_of (binary_round_aux prec emax false q e (loc_of_rem r d)) =
  Some (round_units ((q * d + r) * 2 ^ (e + scale)) d).
Proof.
  intros Hq Hr He Hplace Hb.
  destruct (binary_round_aux_shape q r d e Hq Hr He Hplace)
    as (m2 & e' & -> & He' & Hm2eq & Hm2 & ->).
  destruct (Zdigits2_bounds q Hq) as (Hd0 & Hdq & Hdlog).
  pose proof (floor_units q r d (e + scale) Hq Hr ltac:(lia)) as HF.
  pose proof (pow2_pos (e + scale) ltac:(lia)) as Hpe.
  rewrite fexp_eq in Hplace.
  set (N := q * d + r) in *.
  assert (HN : 0 <= N) by (unfold N; nia).
  assert (HFb : N * 2 ^ (e + scale) / d < 2 ^ (scale + 972))
    by (apply Z.div_lt_upper_bound; lia).
  assert (Hqe : 0 < q -> Z.log2 q + e < 972).
  { intros Hq0.
    assert (Z.log2 (q * 2 ^ (e + scale)) < scale + 972)
      by (apply Z.log2_lt_pow2; nia).
    rewrite Z.log2_mul_pow2 in H by lia. lia. }
  set (k := e' - e) in *.
  assert (Hk : 0 <= k) by lia.
  pose proof (pow2_pos k Hk) as Hpk.
  assert (Hm2q : 0 < m2 -> 0 < q \/ e' = -1074).
  { intros Hpos. destruct (Z.eq_dec q 0) as [Hq0 | Hq0]; [ right | lia ].
    destruct (Z.eq_dec r 0) as [Hr0 | Hr0].
    - exfalso. rewrite Hm2eq in Hpos. unfold N in Hpos. rewrite Hq0, Hr0 in Hpos.
      replace (0 * d + 0) with (0 * (d * 2 ^ k)) in Hpos by ring.
      rewrite rne_div_exact in Hpos by nia. lia.
    - rewrite Hq0 in *. cbn [Zdigits2] in *. lia. }
  apply finish_round; try lia.
  - intros Hpos. destruct (Hm2q Hpos) as [Hq0 | ->]; [ | lia ].
    specialize (Hqe Hq0). rewrite Hdlog in * by assumption.
    pose proof (Z.log2_nonneg q). lia.
  - intros Htop.
    assert (Hq52 : 2 ^ 52 <= q).
    { destruct (Z_lt_le_dec q (2 ^ 52)) as [Hlt | ]; [ exfalso | assumption ].
      assert (m2 <= 2 ^ 52); [ | lia ].
      rewrite Hm2eq. apply rne_div_le; [ nia | ]. unfold N.
      assert (1 <= 2 ^ k) by lia. nia. }
    assert (52 <= Z.log2 q) by (apply Z.log2_le_pow2; lia).
    specialize (Hqe ltac:(lia)). rewrite Hdlog in * by lia. lia.
Qed.

(** Out of range, the rounding gives the infinity. *)
Lemma binary_round_aux_cases (q r d e : Z) :
  0 <= q -> 0 <= r < d -> - scale <= e ->
  (r <> 0 -> e <= fexp prec emax (Zdigits2 q + e)) ->
  value_of (binary_round_aux prec emax false q e (loc_of_rem r d)) =
  Some (round_units ((q * d + r) * 2 ^ (e + scale)) d)
  \/ binary_round_aux prec emax false q e (loc_of_rem r d) = S754_infinity false.
Proof.
  intros Hq Hr He Hplace.
  destruct (binary_round_aux_shape q r d e Hq Hr He Hplace)
    as (m2 & e' & -> & He' & _ & Hm2 & ->).
  apply finish_round_cases; [ assumption | lia ].
Qed.

Lemma new_location_rem (d r : Z) :
  0 <= r < d -> new_location d r = loc_of_rem r d.
Proof.
  intros Hr. unfold new_location, new_location_even, new_location_odd, loc_of_rem.
  pose proof (Zmod_even d) as Hev. pose proof (Z.div_mod d 2 ltac:(lia)) as Hdm.
  destruct (Z.even d); destruct (Z.eqb_spec r 0); try reflexivity.
  f_equal.
  destruct (Z.compare_spec (2 * r + 1) d); destruct (Z.compare_spec (2 * r) d);
    try reflexivity; lia.
Qed.

(** The quotient that the specification of the division hands to the
    rounding: it has [s] more bits than [m1 / m2], enough to reach the
    last place. *)
Lemma SFdiv_core_binary_spec (m1 m2 : positive) (e1 e2 : Z) :
  let e' := Z.min (Z.max (Zdigits2 (Zpos m1) + e1 - (Zdigits2 (Zpos m2) + e2) - 53)
                         (-1074)) (e1 - e2) in
  let n := Zpos m1 * 2 ^ (e1 - e2 - e') in
  SFdiv_core_binary prec emax (Zpos m1) e1 (Zpos m2) e2 =
  (n / Zpos m2, e', loc_of_rem (n mod Zpos m2) (Zpos m2)).
Proof.
  intros e' n. unfold SFdiv_core_binary. rewrite fexp_eq. fold e'.
  assert (Hs : 0 <= e1 - e2 - e') by (unfold e'; lia).
  assert (Hn : match e1 - e2 - e' with
               | Zpos _ => Z.shiftl (Zpos m1) (e1 - e2 - e')
               | Z0 => Zpos m1
               | Zneg _ => 0
               end = n).
  { unfold n. destruct (e1 - e2 - e') as [ | p | p ] eqn:Hsp; [ | | lia ].
    - change (2 ^ 0) with 1. lia.
    - now rewrite Z.shiftl_mul_pow2 by lia. }
  rewrite Hn.
  pose proof (Z.mod_pos_bound n (Zpos m2) ltac:(lia)) as Hr.
  unfold Z.div, Z.modulo in *.
  destruct (Z.div_eucl n (Zpos m2)) as [q r]. cbn [fst snd] in *.
  now rewrite new_location_rem.
Qed.

Lemma iter_xO (m d : positive) : Zpos (Pos.iter xO m d) = Zpos m * 2 ^ Zpos d.
Proof.
  induction d as [ | d IH ] using Pos.peano_ind.
  - cbn [Pos.iter]. change (2 ^ 1) with 2. lia.
  - rewrite Pos.iter_succ, Pos2Z.inj_xO, IH, Pos2Z.inj_succ, Z.pow_succ_r by lia. ring.
Qed.

(** Aligning a mantissa to a smaller exponent keeps the value. *)
Lemma shl_align_spec (m : positive) (e e' : Z) :
  let '(mz, ez) := shl_align m e e' in
  ez = Z.min e e' /\ Zpos mz = Zpos m * 2 ^ (e - ez).
Proof.
  unfold shl_align. destruct (e' - e) as [ | d | d ] eqn:Hd.
  - split; [ lia | ]. rewrite Z.sub_diag. change (2 ^ 0) with 1. lia.
  - split; [ lia | ]. rewrite Z.sub_diag. change (2 ^ 0) with 1. lia.
  - split; [ lia | ]. rewrite iter_xO. do 2 f_equal. lia.
Qed.

(** Rounding an integer mantissa at an exponent. *)
Lemma binary_round_value (m : positive) (e : Z) :
  -1074 <= e -> units (Zpos m) e < 2 ^ (scale + 972) ->
  value_of (binary_round prec emax false m e) = Some (round64 (units (Zpos m) e)).
Proof.
  intros He Hb. unfold binary_round. rewrite fexp_eq.
  pose proof (shl_align_spec m e (Z.max (Zpos (digits2_pos m) + e - 53) (-1074))) as Hs.
  destruct (shl_align m e (Z.max (Zpos (digits2_pos m) + e - 53) (-1074))) as [mz ez].
  destruct Hs as [Hez Hmz].
  assert (Hu : units (Zpos mz) ez = units (Zpos m) e).
  { unfold units. rewrite Hmz, <- Z.mul_assoc, <- Z.pow_add_r by (unfold scale; lia).
    do 2 f_equal. lia. }
  pose proof (binary_round_aux_correct (Zpos mz) 0 1 ez) as Hr.
  rewrite Z.mul_1_r, Z.add_0_r in Hr. fold (units (Zpos mz) ez) in Hr.
  rewrite Hu in Hr. apply Hr; try lia; unfold scale; lia.
Qed.

End BinaryRound.

(** ** Values of the floats of the program *)

Section FloatValues.

Lemma some_inj {A : Type} (x y : A) : Some x = Some y -> x = y.
Proof. congruence. Qed.

Lemma round64_0 : round64 0 = 0.
Proof. apply (round64_exact 0 scale); [ lia | unfold scale; lia ]. Qed.

Lemma units_mul (ma mb ea eb : Z) :
  -1074 <= ea -> -1074 <= eb ->
  units ma ea * units mb eb / 2 ^ scale = units (ma * mb) (ea + eb).
Proof.
  intros Ha Hb. unfold units.
  replace (ma * 2 ^ (ea + scale) * (mb * 2 ^ (eb + scale)))
    with (ma * mb * 2 ^ (ea + eb + scale) * 2 ^ scale).
  - apply Z.div_mul. apply Z.pow_nonzero; unfold scale; lia.
  - assert (Hx : forall x y, 0 <= x -> 0 <= y ->
                 ma * mb * 2 ^ (x + y) * 2 ^ (1074 + 1074) =
                 ma * 2 ^ (x + 1074) * (mb * 2 ^ (y + 1074))).
    { intros x y Hx Hy. rewrite !Z.pow_add_r by lia. ring. }
    specialize (Hx (ea + 1074) (eb + 1074) ltac:(lia) ltac:(lia)).
    unfold scale.
    replace (ea + eb + 2148) with (ea + 1074 + (eb + 1074)) by lia.
    replace (ea + 2148) with (ea + 1074 + 1074) by lia.
    replace (eb + 2148) with (eb + 1074 + 1074) by lia.
    exact Hx.
Qed.

(** What the type gives for a positive finite float. *)
Lemma valid_finite (x : float) (s : bool) (m : positive) (e : Z) :
  Prim2SF x = S754_finite s m e ->
  -1074 <= e <= 971 /\ Zpos m < 2 ^ 53 /\ (-1074 < e -> 2 ^ 52 <= Zpos m).
Proof.
  intros Hx. pose proof (Prim2SF_valid x) as Hv. rewrite Hx in Hv.
  unfold SpecFloat.valid_binary, bounded, canonical_mantissa in Hv.
  apply andb_prop in Hv. destruct Hv as [Hc He].
  apply Z.eqb_eq in Hc. apply Z.leb_le in He. change (emax - prec) with 971 in He.
  rewrite fexp_eq in Hc.
  change (Zpos (digits2_pos m)) with (Zdigits2 (Zpos m)) in Hc.
  rewrite Zdigits2_log2 in Hc.
  split; [ lia | split ].
  - apply Z.log2_lt_cancel. change (Z.log2 (2 ^ 53)) with 53. lia.
  - intros Hn. assert (Hl : Z.log2 (Zpos m) = 52) by lia.
    rewrite <- Hl. apply Z.log2_spec. lia.
Qed.

(** The value of a float, when it is finite and not negative. *)
Lemma fvalue_finite (x : float) (m : positive) (e : Z) :
  Prim2SF x = S754_finite false m e -> fvalue x = Some (units (Zpos m) e).
Proof.
  intros Hx. destruct (valid_finite x false m e Hx) as (He & _).
  unfold fvalue. rewrite Hx. cbn [value_of].
  now replace (-1074 <=? e) with true by (symmetry; apply Z.leb_le; lia).
Qed.

(** On canonical mantissas the comparison of the specification, exponent
    first, is the comparison of the values. *)
Lemma SFcompare_value (m1 m2 : positive) (e1 e2 : Z) :
  -1074 <= e1 -> -1074 <= e2 ->
  Zpos m1 < 2 ^ 53 -> Zpos m2 < 2 ^ 53 ->
  (-1074 < e1 -> 2 ^ 52 <= Zpos m1) -> (-1074 < e2 -> 2 ^ 52 <= Zpos m2) ->
  SFcompare (S754_finite false m1 e1) (S754_finite false m2 e2) =
  Some (units (Zpos m1) e1 ?= units (Zpos m2) e2).
Proof.
  intros He1 He2 Hm1 Hm2 Hn1 Hn2. cbn [SFcompare]. f_equal. unfold units.
  pose proof (pow2_pos (e1 + scale) ltac:(unfold scale; lia)) as Hp1.
  pose proof (pow2_pos (e2 + scale) ltac:(unfold scale; lia)) as Hp2.
  destruct (Z.compare_spec e1 e2) as [-> | Hlt | Hgt].
  - change (Pos.compare_cont Eq m1 m2) with (Zpos m1 ?= Zpos m2).
    apply Zmult_compare_compat_r. lia.
  - symmetry. apply Z.compare_lt_iff.
    assert (2 ^ (e2 + scale) = 2 ^ (e2 - e1) * 2 ^ (e1 + scale)).
    { rewrite <- Z.pow_add_r by (unfold scale; lia). f_equal. lia. }
    assert (2 ^ 1 <= 2 ^ (e2 - e1)) by (apply Z.pow_le_mono_r; lia).
    specialize (Hn2 ltac:(lia)).
    change (2 ^ 53) with (2 * 2 ^ 52) in *. change (2 ^ 1) with 2 in *. nia.
  - symmetry. apply Z.compare_gt_iff.
    assert (2 ^ (e1 + scale) = 2 ^ (e1 - e2) * 2 ^ (e2 + scale)).
    { rewrite <- Z.pow_add_r by (unfold scale; lia). f_equal. lia. }
    assert (2 ^ 1 <= 2 ^ (e1 - e2)) by (apply Z.pow_le_mono_r; lia).
    specialize (Hn1 ltac:(lia)).
    change (2 ^ 53) with (2 * 2 ^ 52) in *. change (2 ^ 1) with 2 in *. nia.
Qed.

(** [x <= y] on non-negative finite floats. *)
Lemma leb_value (x y : float) (vx vy : Z) :
  fvalue x = Some vx -> fvalue y = Some vy -> (x <=? y)%float = (vx <=? vy).
Proof.
  unfold fvalue. rewrite leb_spec. unfold SFleb.
  destruct (Prim2SF x) as [sx | sx | | [ | ] mx ex] eqn:Hx; try discriminate;
    destruct (Prim2SF y) as [sy | sy | | [ | ] my ey] eqn:Hy; try discriminate;
    cbn [value_of].
  - intros <-%some_inj <-%some_inj. reflexivity.
  - destruct (valid_finite y false my ey Hy) as (He & _).
    replace (-1074 <=? ey) with true by (symmetry; apply Z.leb_le; lia).
    intros <-%some_inj <-%some_inj. cbn [SFcompare]. symmetry. apply Z.leb_le.
    unfold units. pose proof (pow2_pos (ey + scale) ltac:(unfold scale; lia)). nia.
  - destruct (valid_finite x false mx ex Hx) as (He & _).
    replace (-1074 <=? ex) with true by (symmetry; apply Z.leb_le; lia).
    intros <-%some_inj <-%some_inj. cbn [SFcompare]. symmetry. apply Z.leb_gt.
    unfold units. pose proof (pow2_pos (ex + scale) ltac:(unfold scale; lia)). nia.
  - destruct (valid_finite x false mx ex Hx) as (Hex & Hmx & Hnx).
    destruct (valid_finite y false my ey Hy) as (Hey & Hmy & Hny).
    replace (-1074 <=? ex) with true by (symmetry; apply Z.leb_le; lia).
    replace (-1074 <=? ey) with true by (symmetry; apply Z.leb_le; lia).
    intros <-%some_inj <-%some_inj.
    rewrite SFcompare_value by (assumption || lia).
    unfold Z.leb. destruct (units (Zpos mx) ex ?= units (Zpos my) ey); reflexivity.
Qed.

(** A float between two non-negative finite floats is one of them. *)
Lemma between_value (lo hi x : float) (vlo vhi : Z) :
  fvalue lo = Some vlo -> fvalue hi = Some vhi ->
  (lo <=? x)%float = true -> (x <=? hi)%float = true ->
  exists v, fvalue x = Some v /\ vlo <= v <= vhi.
Proof.
  intros Hlo Hhi Hle1 Hle2.
  assert (Hx : exists v, fvalue x = Some v).
  { revert Hlo Hhi Hle1 Hle2. unfold fvalue. rewrite !leb_spec. unfold SFleb.
    destruct (Prim2SF lo) as [sl | sl | | [ | ] ml el]; try discriminate;
      destruct (Prim2SF hi) as [sh | sh | | [ | ] mh eh]; try discriminate;
      destruct (Prim2SF x) as [sx | [ | ] | | [ | ] mx ex] eqn:Hx;
      cbn [SFcompare value_of]; try discriminate; intros _ _ _ _;
      try (eexists; reflexivity);
      destruct (valid_finite x false mx ex Hx) as (He & _);
      replace (-1074 <=? ex) with true by (symmetry; apply Z.leb_le; lia);
      eexists; reflexivity. }
  destruct Hx as (v & Hv). exists v. split; [ assumption | ].
  rewrite (leb_value lo x vlo v) in Hle1 by assumption.
  rewrite (leb_value x hi v vhi) in Hle2 by assumption.
  apply Z.leb_le in Hle1, Hle2. lia.
Qed.

(** The product of two non-negative finite floats, when it is in range. *)
Lemma mul_value (a b : float) (va vb : Z) :
  fvalue a = Some va -> fvalue b = Some vb ->
  va * vb < 2 ^ (2 * scale + 972) ->
  fvalue (a * b) = Some (round64 (va * vb / 2 ^ scale)).
Proof.
  unfold fvalue. rewrite mul_spec. unfold SF64mul.
  destruct (Prim2SF a) as [sa | sa | | [ | ] ma ea]; try discriminate;
    destruct (Prim2SF b) as [sb | sb | | [ | ] mb eb]; try discriminate;
    cbn [value_of SFmul].
  - intros <-%some_inj <-%some_inj _. now rewrite Z.mul_0_l, Z.div_0_l, round64_0 by (unfold scale; lia).
  - destruct (Z.leb_spec (-1074) eb); [ | discriminate ].
    intros <-%some_inj <-%some_inj _. now rewrite Z.mul_0_l, Z.div_0_l, round64_0 by (unfold scale; lia).
  - destruct (Z.leb_spec (-1074) ea); [ | discriminate ].
    intros <-%some_inj <-%some_inj _. now rewrite Z.mul_0_r, Z.div_0_l, round64_0 by (unfold scale; lia).
  - destruct (Z.leb_spec (-1074) ea); [ | discriminate ].
    destruct (Z.leb_spec (-1074) eb); [ | discriminate ].
    intros <-%some_inj <-%some_inj Hb.
    rewrite units_mul by assumption.
    change (xorb false false) with false.
    change (Zpos ma * Zpos mb) with (Zpos (ma * mb)).
    pose proof (binary_round_aux_correct (Zpos (ma * mb)) 0 1 (ea + eb)) as Hr.
    rewrite Z.mul_1_r, Z.add_0_r in Hr. apply Hr; try lia.
    + unfold scale; lia.
    + change (Zpos (ma * mb)) with (Zpos ma * Zpos mb).
      fold (units (Zpos ma * Zpos mb) (ea + eb)).
      rewrite <- units_mul by assumption. rewrite Z.mul_1_l.
      apply Z.div_lt_upper_bound; [ apply Z.pow_pos_nonneg; unfold scale; lia | ].
      rewrite <- Z.pow_add_r by (unfold scale; lia).
      replace (scale + (scale + 972)) with (2 * scale + 972) by lia. assumption.
Qed.

(** The product of two non-negative finite floats is the rounded
    product, or the infinity when that is out of range. *)
Lemma mul_value_cases (a b : float) (va vb : Z) :
  fvalue a = Some va -> fvalue b = Some vb ->
  fvalue (a * b) = Some (round64 (va * vb / 2 ^ scale))
  \/ Prim2SF (a * b) = S754_infinity false.
Proof.
  unfold fvalue. rewrite mul_spec. unfold SF64mul.
  destruct (Prim2SF a) as [sa | sa | | [ | ] ma ea]; try discriminate;
    destruct (Prim2SF b) as [sb | sb | | [ | ] mb eb]; try discriminate;
    cbn [value_of SFmul].
  - intros <-%some_inj <-%some_inj. left.
    now rewrite Z.mul_0_l, Z.div_0_l, round64_0 by (unfold scale; lia).
  - destruct (Z.leb_spec (-1074) eb); [ | discriminate ].
    intros <-%some_inj <-%some_inj. left.
    now rewrite Z.mul_0_l, Z.div_0_l, round64_0 by (unfold scale; lia).
  - destruct (Z.leb_spec (-1074) ea); [ | discriminate ].
    intros <-%some_inj <-%some_inj. left.
    now rewrite Z.mul_0_r, Z.div_0_l, round64_0 by (unfold scale; lia).
  - destruct (Z.leb_spec (-1074) ea); [ | discriminate ].
    destruct (Z.leb_spec (-1074) eb); [ | discriminate ].
    intros <-%some_inj <-%some_inj.
    rewrite units_mul by assumption.
    change (xorb false false) with false.
    change (Zpos ma * Zpos mb) with (Zpos (ma * mb)).
    pose proof (binary_round_aux_cases (Zpos (ma * mb)) 0 1 (ea + eb)) as Hr.
    rewrite Z.mul_1_r, Z.add_0_r in Hr. apply Hr; try lia.
    unfold scale; lia.
Qed.

(** A float above zero is finite and positive, or the infinity. *)
Lemma positive_cases (w : float) :
  (0 <? w)%float = true ->
  (exists v, fvalue w = Some v /\ 0 < v) \/ Prim2SF w = S754_infinity false.
Proof.
  rewrite ltb_spec. unfold SFltb.
  change (Prim2SF 0) with (S754_zero false).
  destruct (Prim2SF w) as [s | [ | ] | | [ | ] m e] eqn:Hw;
    cbn [SFcompare]; try discriminate; intros _.
  - now right.
  - left. exists (units (Zpos m) e). split; [ now apply fvalue_finite | ].
    destruct (valid_finite w false m e Hw) as (He & _).
    unfold units. pose proof (pow2_pos (e + scale) ltac:(unfold scale; lia)). nia.
Qed.

Lemma mul_infinity (a w : float) (va : Z) :
  fvalue a = Some va -> 0 < va -> Prim2SF w = S754_infinity false ->
  Prim2SF (a * w) = S754_infinity false.
Proof.
  unfold fvalue. rewrite mul_spec. unfold SF64mul. intros Ha Hpos ->.
  destruct (Prim2SF a) as [sa | sa | | [ | ] ma ea]; try discriminate;
    cbn [value_of SFmul] in *.
  - apply some_inj in Ha. lia.
  - reflexivity.
Qed.

(** The quotient of two positive finite numbers of the specification. *)
Lemma SFdiv_value (ma mb : positive) (ea eb : Z) :
  -1074 <= ea -> -1074 <= eb <= 971 ->
  units (Zpos ma) ea < units (Zpos mb) eb * 2 ^ 972 ->
  value_of (SFdiv prec emax (S754_finite false ma ea) (S754_finite false mb eb)) =
  Some (round_units (units (Zpos ma) ea * 2 ^ scale) (units (Zpos mb) eb)).
Proof.
  intros Hea Heb Hbound. cbn [SFdiv].
    rewrite SFdiv_core_binary_spec. change (xorb false false) with false.
    set (e' := Z.min (Z.max (Zdigits2 (Zpos ma) + ea - (Zdigits2 (Zpos mb) + eb) - 53)
                            (-1074)) (ea - eb)).
    assert (He' : e' = Z.min (Z.max (Zdigits2 (Zpos ma) + ea - (Zdigits2 (Zpos mb) + eb) - 53)
                            (-1074)) (ea - eb)) by reflexivity.
    clearbody e'.
    assert (Hs : 0 <= ea - eb - e') by lia.
    pose proof (pow2_pos _ Hs) as Hps.
    set (n := Zpos ma * 2 ^ (ea - eb - e')).
    assert (Hn : n = Zpos ma * 2 ^ (ea - eb - e')) by reflexivity.
    clearbody n.
    pose proof (Z.div_mod n (Zpos mb) ltac:(lia)) as Hdm.
    pose proof (Z.mod_pos_bound n (Zpos mb) ltac:(lia)) as Hr.
    assert (Hq : 0 <= n / Zpos mb) by (apply Z.div_pos; lia).
    assert (Hnq : n / Zpos mb * Zpos mb + n mod Zpos mb = n) by lia.
    pose proof (pow2_pos (eb + scale) ltac:(unfold scale; lia)) as Hpb.
    assert (Hnum : n * 2 ^ (e' + scale) * 2 ^ (eb + scale) = units (Zpos ma) ea * 2 ^ scale).
    { unfold units. rewrite Hn. rewrite <- !Z.mul_assoc. f_equal.
      rewrite <- !Z.pow_add_r by (unfold scale; lia). f_equal. lia. }
    pose proof (binary_round_aux_correct (n / Zpos mb) (n mod Zpos mb) (Zpos mb) e') as Hc.
    rewrite Hnq in Hc. rewrite Hc; try assumption; try (unfold scale; lia).
    + f_equal. rewrite <- Hnum. unfold units. symmetry. apply round_units_scale; lia.
    + (* the quotient reaches the last place *)
      intros _. rewrite fexp_eq.
      destruct (Z_le_gt_dec e' (-1074)) as [ | Hgt ]; [ lia | ].
      destruct (Zdigits2_bounds (Zpos ma) ltac:(lia)) as (_ & _ & Hda).
      destruct (Zdigits2_bounds (Zpos mb) ltac:(lia)) as (Hdb0 & Hdb & _).
      specialize (Hda ltac:(lia)).
      pose proof (Z.log2_spec (Zpos ma) ltac:(lia)) as [Hla _].
      pose proof (Z.log2_nonneg (Zpos ma)) as Hl0.
      set (da := Zdigits2 (Zpos ma)) in *. set (db := Zdigits2 (Zpos mb)) in *.
      set (j := da - 1 + (ea - eb - e') - db).
      assert (Hj : 52 <= j) by (unfold j; lia).
      assert (Hqj : 2 ^ j <= n / Zpos mb).
      { apply Z.div_le_lower_bound; [ lia | ].
        assert (2 ^ j * 2 ^ db = 2 ^ Z.log2 (Zpos ma) * 2 ^ (ea - eb - e')).
        { rewrite <- !Z.pow_add_r by lia. f_equal. unfold j. lia. }
        pose proof (pow2_pos j ltac:(lia)) as Hpj. rewrite Hn.
        rewrite (Z.mul_comm (Zpos mb)).
        apply Z.le_trans with (2 ^ j * 2 ^ db);
          [ apply Z.mul_le_mono_nonneg_l; lia | ].
        rewrite H. apply Z.mul_le_mono_nonneg_r; lia. }
      destruct (Zdigits2_bounds (n / Zpos mb) Hq) as (_ & _ & Hdq).
      pose proof (pow2_pos j ltac:(lia)).
      specialize (Hdq ltac:(lia)).
      assert (j <= Z.log2 (n / Zpos mb)) by (apply Z.log2_le_pow2; lia).
      unfold j in *. lia.
    + (* the bound *)
      apply Z.mul_lt_mono_pos_r with (p := 2 ^ (eb + scale)); [ assumption | ].
      rewrite Hnum.
      replace (Zpos mb * 2 ^ (scale + 972) * 2 ^ (eb + scale))
        with (units (Zpos mb) eb * 2 ^ 972 * 2 ^ scale).
      * apply Z.mul_lt_mono_pos_r; [ apply pow2_pos; unfold scale; lia | assumption ].
      * unfold units. rewrite (Z.pow_add_r 2 scale 972) by (unfold scale; lia). ring.
Qed.

(** The quotient of a non-negative finite float by a positive one, when
    it is in range. *)
Lemma div_value (a b : float) (va vb : Z) :
  fvalue a = Some va -> fvalue b = Some vb -> 0 < vb ->
  va < vb * 2 ^ 972 ->
  fvalue (a / b) = Some (round_units (va * 2 ^ scale) vb).
Proof.
  unfold fvalue. rewrite div_spec. unfold SF64div.
  destruct (Prim2SF b) as [sb | sb | | [ | ] mb eb] eqn:Hb; try discriminate;
    cbn [value_of]; [ intros _ <-%some_inj; lia | ].
  destruct (valid_finite b false mb eb Hb) as (Heb & Hmb & _).
  replace (-1074 <=? eb) with true by (symmetry; apply Z.leb_le; lia).
  destruct (Prim2SF a) as [sa | sa | | [ | ] ma ea]; try discriminate;
    cbn [value_of].
  - intros <-%some_inj <-%some_inj Hvb _. cbn [SFdiv value_of]. f_equal. rewrite Z.mul_0_l.
    symmetry. apply (round_units_exact 0 scale); [ assumption | lia | unfold scale; lia ].
  - destruct (Z.leb_spec (-1074) ea) as [Hea | ]; [ | discriminate ].
    intros <-%some_inj <-%some_inj Hvb Hbound.
    now apply SFdiv_value.
Qed.

(** A double is the rounding of its own value. *)
Lemma round64_value (x : float) (v : Z) : fvalue x = Some v -> round64 v = v.
Proof.
  unfold fvalue. destruct (Prim2SF x) as [s | s | | [ | ] m e] eqn:Hx; try discriminate;
    cbn [value_of].
  - intros <-%some_inj. apply round64_0.
  - destruct (valid_finite x false m e Hx) as (He & Hm & _).
    replace (-1074 <=? e) with true by (symmetry; apply Z.leb_le; lia).
    intros <-%some_inj. apply round64_exact; [ lia | unfold scale; lia ].
Qed.

(** The sum of two non-negative finite floats, when it is in range. *)
Lemma add_value (a b : float) (va vb : Z) :
  fvalue a = Some va -> fvalue b = Some vb ->
  va + vb < 2 ^ (scale + 972) ->
  fvalue (a + b) = Some (round64 (va + vb)).
Proof.
  intros Ha Hb Hbound.
  pose proof (round64_value a va Ha) as Hra. pose proof (round64_value b vb Hb) as Hrb.
  revert Ha Hb. unfold fvalue. rewrite add_spec. unfold SF64add.
  destruct (Prim2SF a) as [sa | sa | | [ | ] ma ea] eqn:Hpa; try discriminate;
    destruct (Prim2SF b) as [sb | sb | | [ | ] mb eb] eqn:Hpb; try discriminate;
    cbn [value_of SFadd].
  - intros <-%some_inj <-%some_inj. change (0 + 0) with 0. rewrite round64_0.
    destruct sa, sb; reflexivity.
  - intros <-%some_inj Hvb. rewrite Z.add_0_l, Hrb. exact Hvb.
  - intros Hva <-%some_inj. rewrite Z.add_0_r, Hra. exact Hva.
  - destruct (Z.leb_spec (-1074) ea) as [Hea | ]; [ | discriminate ].
    destruct (Z.leb_spec (-1074) eb) as [Heb | ]; [ | discriminate ].
    intros <-%some_inj <-%some_inj. cbn [cond_Zopp].
    pose proof (shl_align_spec ma ea (Z.min ea eb)) as Hsa.
    pose proof (shl_align_spec mb eb (Z.min ea eb)) as Hsb.
    destruct (shl_align ma ea (Z.min ea eb)) as [ma' ea'].
    destruct (shl_align mb eb (Z.min ea eb)) as [mb' eb'].
    destruct Hsa as [Hea' Hma']. destruct Hsb as [Heb' Hmb'].
    cbn [fst]. change (Zpos ma' + Zpos mb') with (Zpos (ma' + mb')).
    cbn [binary_normalize].
    assert (Hsum : units (Zpos (ma' + mb')) (Z.min ea eb) =
                   units (Zpos ma) ea + units (Zpos mb) eb).
    { change (Zpos (ma' + mb')) with (Zpos ma' + Zpos mb'). unfold units.
      rewrite Hma', Hmb', Z.mul_add_distr_r.
      rewrite <- !Z.mul_assoc, <- !Z.pow_add_r by (unfold scale; lia).
      f_equal; do 2 f_equal; lia. }
    rewrite <- Hsum in *. apply binary_round_value; [ lia | assumption ].
Qed.

(** A double is the rounding of any fraction that is its value. *)
Lemma round_units_value (x : float) (v d : Z) :
  fvalue x = Some v -> 0 < d -> round_units (v * d) d = v.
Proof.
  unfold fvalue. destruct (Prim2SF x) as [s | s | | [ | ] m e] eqn:Hx; try discriminate;
    cbn [value_of].
  - intros <-%some_inj Hd.
    apply (round_units_exact 0 scale d); [ assumption | lia | unfold scale; lia ].
  - destruct (valid_finite x false m e Hx) as (He & Hm & _).
    replace (-1074 <=? e) with true by (symmetry; apply Z.leb_le; lia).
    intros <-%some_inj Hd. apply round_units_exact; [ assumption | lia | unfold scale; lia ].
Qed.

(** Twice a double below the top binade is a double. *)
Lemma round64_twice (x : float) (v : Z) :
  fvalue x = Some v -> round64 (2 * v) = 2 * v.
Proof.
  unfold fvalue. destruct (Prim2SF x) as [s | s | | [ | ] m e] eqn:Hx; try discriminate;
    cbn [value_of].
  - intros <-%some_inj. apply round64_0.
  - destruct (valid_finite x false m e Hx) as (He & Hm & _).
    replace (-1074 <=? e) with true by (symmetry; apply Z.leb_le; lia).
    intros <-%some_inj. unfold units.
    replace (2 * (Zpos m * 2 ^ (e + scale))) with (Zpos m * 2 ^ (e + 1 + scale)).
    + apply round64_exact; [ lia | unfold scale; lia ].
    + replace (e + 1 + scale) with (1 + (e + scale)) by lia.
      rewrite Z.pow_add_r by (unfold scale; lia). change (2 ^ 1) with 2. ring.
Qed.

(** [round] on a non-negative finite float. *)
Lemma round_value (x : float) (v : Z) :
  fvalue x = Some v -> Py.round x = Ok (Py.rne_div v (2 ^ scale)).
Proof.
  unfold fvalue, Py.round.
  destruct (Prim2SF x) as [s | s | | [ | ] m e]; try discriminate; cbn [value_of].
  - intros <-%some_inj. f_equal.
  - destruct (Z.leb_spec (-1074) e); [ | discriminate ].
    intros <-%some_inj. cbn [Py.cond_opp]. f_equal.
    unfold Py.num_of, Py.den_of, units.
    destruct (Z.leb_spec 0 e).
    + rewrite Z.pow_add_r by (unfold scale; lia). rewrite Z.mul_assoc.
      rewrite <- (Z.mul_1_l (2 ^ scale)) at 2.
      now rewrite rne_div_scale by (try apply Z.pow_pos_nonneg; unfold scale; lia).
    + replace (2 ^ scale) with (2 ^ (- e) * 2 ^ (e + scale)).
      * now rewrite rne_div_scale by (apply Z.pow_pos_nonneg; unfold scale; lia).
      * rewrite <- Z.pow_add_r by (unfold scale; lia). f_equal. lia.
Qed.

Lemma round_infinity (x : float) (s : bool) :
  Prim2SF x = S754_infinity s -> Py.round x = Raise OverflowError.
Proof. unfold Py.round. now intros ->. Qed.

Lemma units_le_1000 (m e : Z) :
  -1074 <= e ->
  (e = -43 /\ m <= 8796093022208000) \/ (e < -43 /\ m < 9007199254740992) ->
  units m e <= units 1000 0.
Proof.
  intros He Hcases. unfold units. rewrite Z.add_0_l.
  assert (Hs : 2 ^ scale = 2 ^ (- e) * 2 ^ (e + scale)).
  { rewrite <- Z.pow_add_r by (unfold scale; lia). f_equal. lia. }
  rewrite Hs, Z.mul_assoc.
  apply Z.mul_le_mono_nonneg_r; [ apply Z.pow_nonneg; lia | ].
  destruct Hcases as [[-> Hm] | [He' Hm]].
  - change (2 ^ (- -43)) with 8796093022208. lia.
  - assert (2 ^ 44 <= 2 ^ (- e)) by (apply Z.pow_le_mono_r; lia).
    change (2 ^ 44) with 17592186044416 in H. lia.
Qed.

(** A weight that passes the checks of its field is a positive finite
    float, at most 1000, and is kept as it is. *)
Lemma weight_field_value (w w' : float) :
  weight_field w = Ok w' ->
  w' = w /\ exists v, fvalue w = Some v /\ 0 < v <= units 1000 0.
Proof.
  unfold weight_field, validate_weight.
  destruct (0 <? w)%float eqn:Hpos; [ | discriminate ].
  destruct (1000 <? w)%float eqn:Hcap; [ discriminate | ].
  intros [= <-]. split; [ reflexivity | ].
  rewrite ltb_spec in Hpos, Hcap. unfold fvalue.
  assert (H1000 : Prim2SF 1000 = S754_finite false 8796093022208000 (-43)) by reflexivity.
  assert (H0 : Prim2SF 0 = S754_zero false) by reflexivity.
  rewrite H1000 in Hcap. rewrite H0 in Hpos. clear H0 H1000.
  destruct (Prim2SF w) as [s | [ | ] | | [ | ] m e] eqn:Hw; try discriminate.
  destruct (valid_finite w false m e Hw) as (He & Hm & _).
  cbn [value_of]. replace (-1074 <=? e) with true by (symmetry; apply Z.leb_le; lia).
  eexists. split; [ reflexivity | ].
  unfold SFltb, SFcompare in Hcap.
  split.
  - unfold units. apply Z.mul_pos_pos; [ lia | apply Z.pow_pos_nonneg; unfold scale; lia ].
  - apply units_le_1000; [ lia | ].
    destruct (Z.compare_spec (-43) e) as [He43 | Hlt | Hgt]; [ | discriminate | ].
    + left. split; [ lia | ].
      change (Pos.compare_cont Eq 8796093022208000 m)
        with (8796093022208000 ?= m)%positive in Hcap.
      destruct (Pos.compare_spec 8796093022208000 m) as [Hm1 | Hm1 | Hm1].
      * subst m. apply Z.le_refl.
      * discriminate Hcap.
      * apply Z.lt_le_incl. exact Hm1.
    + right. change (2 ^ 53) with 9007199254740992 in Hm. lia.
Qed.

End FloatValues.

(** ** Non-negative floats below an integer bound *)

Section Bounds.

Lemma units_int (n : Z) : units n 0 = n * 2 ^ scale.
Proof. reflexivity. Qed.

Lemma scale_pos : 0 < 2 ^ scale.
Proof. apply pow2_pos. unfold scale. lia. Qed.

Lemma below_weaken (x : float) (A B : Z) : below x A -> A <= B -> below x B.
Proof.
  intros (v & Hv & Hb) Hle. exists v. split; [ assumption | ].
  rewrite units_int in *. pose proof scale_pos. nia.
Qed.

Lemma mul_below (x y : float) (A B : Z) :
  below x A -> below y B -> 0 <= A -> 0 <= B -> A * B < 2 ^ 53 ->
  below (x * y) (A * B).
Proof.
  intros (va & Hva & Ha) (vb & Hvb & Hb) HA HB HAB.
  rewrite units_int in *. pose proof scale_pos as HP.
  assert (Hprod : va * vb <= A * B * 2 ^ scale * 2 ^ scale) by nia.
  exists (round64 (va * vb / 2 ^ scale)). split; [ | split ].
  - apply mul_value; try assumption.
    apply Z.le_lt_trans with (1 := Hprod).
    replace (2 * scale + 972) with (972 + scale + scale) by lia.
    rewrite !Z.pow_add_r by (unfold scale; lia).
    assert (2 ^ 53 <= 2 ^ 972) by (apply Z.pow_le_mono_r; lia).
    nia.
  - apply round64_nonneg, Z.div_pos; nia.
  - rewrite units_int.
    rewrite <- (round64_exact (A * B) scale) by (unfold scale; lia).
    apply round64_mono; [ apply Z.div_pos; nia | ].
    apply Z.div_le_upper_bound; [ assumption | nia ].
Qed.

Lemma is_zero_value (c : float) (vc : Z) :
  fvalue c = Some vc -> 0 < vc -> is_zero c = false.
Proof.
  unfold fvalue, is_zero. rewrite eqb_spec.
  change (Prim2SF zero) with (S754_zero false).
  destruct (Prim2SF c) as [s | s | | [ | ] m e]; try discriminate; cbn [value_of].
  - intros <-%some_inj. lia.
  - reflexivity.
Qed.

Lemma fdiv_below (x c : float) (A K vc : Z) :
  below x A -> fvalue c = Some vc -> 0 < vc -> 2 ^ scale <= K * vc ->
  0 <= A -> 0 < K -> A * K < 2 ^ 53 ->
  exists y, Py.fdiv x c = Ok y /\ below y (A * K).
Proof.
  intros (va & Hva & Ha) Hvc Hpos HK HA HK0 HAK.
  rewrite units_int in *. pose proof scale_pos as HP.
  unfold Py.fdiv. rewrite (is_zero_value c vc Hvc Hpos).
  eexists. split; [ reflexivity | ].
  exists (round_units (va * 2 ^ scale) vc). split; [ | split ].
  - apply div_value; try assumption.
    assert (2 ^ 53 <= 2 ^ 972) by (apply Z.pow_le_mono_r; lia).
    assert (va <= A * K * vc) by nia.
    nia.
  - apply round_units_nonneg; nia.
  - rewrite units_int.
    apply round_units_le; try lia; try (unfold scale; lia); nia.
Qed.

Lemma round_below (x : float) (B : Z) :
  below x B -> exists z, Py.round x = Ok z /\ 0 <= z <= B.
Proof.
  intros (v & Hv & Hb). rewrite units_int in Hb. pose proof scale_pos.
  rewrite (round_value x v Hv). eexists. split; [ reflexivity | ].
  split; [ apply rne_div_nonneg; lia | apply rne_div_le; lia ].
Qed.

Lemma round_mono (x y : float) (vx vy : Z) :
  fvalue x = Some vx -> fvalue y = Some vy -> vx <= vy ->
  exists zx zy, Py.round x = Ok zx /\ Py.round y = Ok zy /\ zx <= zy.
Proof.
  intros Hx Hy Hle. rewrite (round_value x vx Hx), (round_value y vy Hy).
  do 2 eexists. repeat split. apply rne_div_mono; [ apply scale_pos | assumption ].
Qed.

(** Multiplying by a non-negative float keeps the order. *)
Lemma mul_mono (a b w : float) (va vb vw : Z) :
  fvalue a = Some va -> fvalue b = Some vb -> fvalue w = Some vw ->
  0 <= va <= vb -> 0 <= vw -> vb * vw < 2 ^ (2 * scale + 972) ->
  exists ra rb, fvalue (a * w) = Some ra /\ fvalue (b * w) = Some rb /\ ra <= rb.
Proof.
  intros Ha Hb Hw Hab Hw0 Hbound. pose proof scale_pos.
  exists (round64 (va * vw / 2 ^ scale)), (round64 (vb * vw / 2 ^ scale)).
  repeat split.
  - apply mul_value; try assumption. nia.
  - apply mul_value; assumption.
  - apply round64_mono; [ apply Z.div_pos; nia | apply Z.div_le_mono; nia ].
Qed.

(** The float in the middle of two floats lies between them. *)
Lemma mid_between (lo hi : float) (a c : Z) :
  fvalue lo = Some a -> fvalue hi = Some c -> 0 <= a <= c -> c < 2 ^ (scale + 970) ->
  exists mid b, Py.fdiv (lo + hi) 2 = Ok mid /\ fvalue mid = Some b /\ a <= b <= c.
Proof.
  intros Ha Hc Hac Hbound.
  assert (Hp : 2 ^ (scale + 972) = 4 * 2 ^ (scale + 970)).
  { replace (scale + 972) with (2 + (scale + 970)) by lia.
    now rewrite Z.pow_add_r by (unfold scale; lia). }
  assert (Hs : fvalue (lo + hi) = Some (round64 (a + c)))
    by (apply add_value; try assumption; lia).
  assert (Hlo : 2 * a <= round64 (a + c)).
  { rewrite <- (round64_twice lo a Ha). apply round64_mono; lia. }
  assert (Hhi : round64 (a + c) <= 2 * c).
  { rewrite <- (round64_twice hi c Hc). apply round64_mono; lia. }
  assert (H2 : fvalue 2 = Some (units 2 0)) by (vm_compute; reflexivity).
  pose proof scale_pos as HP.
  unfold Py.fdiv. rewrite (is_zero_value 2 _ H2) by (rewrite units_int; lia).
  do 2 eexists. split; [ reflexivity | ]. split.
  - apply div_value; try eassumption; rewrite units_int; try lia.
    assert (2 ^ (scale + 970) <= 2 ^ scale * 2 ^ 972).
    { rewrite <- Z.pow_add_r by (unfold scale; lia). apply Z.pow_le_mono_r; lia. }
    nia.
  - rewrite units_int. rewrite round_units_scale by lia.
    rewrite <- (round_units_value lo a 2 Ha) at 1 by lia.
    rewrite <- (round_units_value hi c 2 Hc) at 3 by lia.
    split; apply round_units_mono; lia.
Qed.

End Bounds.

(** ** Checks that are decided by evaluation *)

Section Decided.

Lemma forall_from_spec (n : nat) (lo : Z) (f : Z -> bool) :
  forall_from n lo f = true ->
  forall t, lo <= t < lo + Z.of_nat n -> f t = true.
Proof.
  revert lo. induction n as [ | n IH ]; intros lo H t Ht; [ lia | ].
  cbn [forall_from] in H. apply andb_prop in H. destruct H as [H0 H1].
  destruct (Z.eq_dec t lo) as [-> | Hne]; [ assumption | ].
  apply (IH (lo + 1) H1). lia.
Qed.

Lemma belowb_below (x : float) (B : Z) : belowb x B = true -> below x B.
Proof.
  unfold belowb, below. destruct (fvalue x) as [v | ]; [ | discriminate ].
  intros H. apply andb_prop in H. destruct H as [H0 H1].
  exists v. split; [ reflexivity | ]. split; [ now apply Z.leb_le | now apply Z.leb_le ].
Qed.

Lemma at_least_inv_spec (c : float) (K : Z) :
  at_least_inv c K = true ->
  exists v, fvalue c = Some v /\ 0 < v /\ 2 ^ scale <= K * v.
Proof.
  unfold at_least_inv. destruct (fvalue c) as [v | ]; [ | discriminate ].
  intros H. apply andb_prop in H. destruct H as [H0 H1].
  exists v. split; [ reflexivity | ]. split; [ now apply Z.ltb_lt | now apply Z.leb_le ].
Qed.

Lemma is_int_value (x : float) (t : Z) : is_int x t = true -> fvalue x = Some (units t 0).
Proof.
  unfold is_int, fvalue.
  destruct (Prim2SF x) as [s | s | | [ | ] m e]; try discriminate; cbn [value_of].
  - intros ->%Z.eqb_eq. reflexivity.
  - intros H. apply andb_prop in H. destruct H as [He Hm].
    apply Z.leb_le in He. apply Z.eqb_eq in Hm.
    replace (-1074 <=? e) with true by (symmetry; apply Z.leb_le; lia).
    f_equal. unfold units.
    replace (2 ^ (e + scale)) with (2 ^ (e + 52) * 2 ^ (scale - 52)).
    + replace (2 ^ (0 + scale)) with (2 ^ 52 * 2 ^ (scale - 52)) by reflexivity.
      rewrite !Z.mul_assoc. now rewrite Hm.
    + rewrite <- Z.pow_add_r by (unfold scale; lia). f_equal. lia.
Qed.

Lemma int_ok_all (t : Z) : 0 <= t <= 2700 -> int_ok t = true.
Proof.
  intros Ht. apply (forall_from_spec 2701 0 int_ok); [ | lia ].
  vm_compute. reflexivity.
Qed.

Lemma top_grams_eq : top_grams = 2700.
Proof. vm_compute. reflexivity. Qed.

Lemma fvalue_const (x : float) :
  fvalue x <> None -> fvalue x = Some (value_or_zero x).
Proof. unfold value_or_zero. destruct (fvalue x); congruence. Qed.

(** Three floats in order between two non-negative finite floats. *)
Lemma chain_values (lo hi x y : float) (vlo vhi : Z) :
  fvalue lo = Some vlo -> fvalue hi = Some vhi ->
  (lo <=? x)%float = true -> (x <=? y)%float = true -> (y <=? hi)%float = true ->
  exists vx vy, fvalue x = Some vx /\ fvalue y = Some vy
                /\ vlo <= vx /\ vx <= vy /\ vy <= vhi.
Proof.
  intros Hlo Hhi H1 H2 H3.
  assert (Hxy : (exists vx, fvalue x = Some vx) /\ (exists vy, fvalue y = Some vy)).
  { revert Hlo Hhi H1 H2 H3. unfold fvalue. rewrite !leb_spec. unfold SFleb.
    destruct (Prim2SF lo) as [sl | sl | | [ | ] ml el]; try discriminate;
      destruct (Prim2SF hi) as [sh | sh | | [ | ] mh eh]; try discriminate;
      destruct (Prim2SF x) as [sx | [ | ] | | [ | ] mx ex] eqn:Hx;
      destruct (Prim2SF y) as [sy | [ | ] | | [ | ] my ey] eqn:Hy;
      cbn [SFcompare value_of]; try discriminate; intros _ _ _ _ _;
      try (destruct (valid_finite x false mx ex Hx) as (Hex & _);
           replace (-1074 <=? ex) with true by (symmetry; apply Z.leb_le; lia));
      try (destruct (valid_finite y false my ey Hy) as (Hey & _);
           replace (-1074 <=? ey) with true by (symmetry; apply Z.leb_le; lia));
      split; eexists; reflexivity. }
  destruct Hxy as ((vx & Hvx) & (vy & Hvy)). exists vx, vy.
  rewrite (leb_value lo x vlo vx) in H1 by assumption.
  rewrite (leb_value x y vx vy) in H2 by assumption.
  rewrite (leb_value y hi vy vhi) in H3 by assumption.
  apply Z.leb_le in H1, H2, H3. repeat split; assumption.
Qed.

End Decided.

(** ** The pipeline on a validated request *)

Section Pipeline.

Lemma literal_in (l : list string) (v : string) : literal l v = true -> In v l.
Proof.
  unfold literal. intros H. apply existsb_exists in H.
  destruct H as (x & Hin & Heq). apply String.eqb_eq in Heq. now subst.
Qed.

Lemma in_literal (l : list string) (v : string) : In v l -> literal l v = true.
Proof.
  unfold literal. intros H. apply existsb_exists.
  exists v. split; [ assumption | apply String.eqb_refl ].
Qed.

Lemma init_valid (w : float) (u a g : option string) (age : option Z)
    (sex : option string) (req : ProteinRequest) :
  ProteinRequest_init w u a g age sex = Ok req ->
  valid_request req /\
  req = {| weight := w; unit := with_default "kg" u;
           activity := with_default "moderate" a;
           goal := with_default "maintenance" g; age := age; sex := sex |}.
Proof.
  unfold ProteinRequest_init.
  destruct (weight_field w) as [w' | ] eqn:Hw; [ | discriminate ].
  destruct (weight_field_value w w' Hw) as [-> _].
  destruct (literal ["kg"; "lb"] (with_default "kg" u)) eqn:Hu; [ | discriminate ].
  destruct (literal ["low"; "moderate"; "high"] (with_default "moderate" a)) eqn:Ha;
    [ | discriminate ].
  destruct (literal ["fat_loss"; "maintenance"; "muscle_gain"]
                    (with_default "maintenance" g)) eqn:Hg; [ | discriminate ].
  cbn [andb].
  destruct (optional _ age && optional _ sex); [ | discriminate ].
  intros [= <-]. split; [ | reflexivity ].
  unfold valid_request. cbn [weight unit activity goal].
  repeat split; try assumption; now apply literal_in.
Qed.

Lemma to_kg_below (req : ProteinRequest) : valid_request req -> below (to_kg req) 1000.
Proof.
  intros (Hw & _). unfold to_kg.
  destruct (weight_field_value _ _ Hw) as (_ & v & Hv & Hb).
  assert (Hbw : below (weight req) 1000) by (exists v; split; [ assumption | lia ]).
  destruct (String.eqb (unit req) "kg"); [ assumption | ].
  change 1000 with (1000 * 1).
  apply mul_below; try lia; [ assumption | ].
  apply belowb_below. vm_compute. reflexivity.
Qed.

Lemma gkg_range_ok (activity goal : string) :
  In activity ["low"; "moderate"; "high"] ->
  In goal ["fat_loss"; "maintenance"; "muscle_gain"] ->
  gkg_check activity goal = true.
Proof.
  cbn [In]. intros [<- | [<- | [<- | []]]] [<- | [<- | [<- | []]]];
    vm_compute; reflexivity.
Qed.

(** The daily grams of a valid range on a weight of at most 1000 are
    in order. *)
Lemma daily_grams_ordered (min_gkg max_gkg w : float) :
  in_range min_gkg max_gkg = true -> below w 1000 ->
  exists daily_min daily_max target,
    daily_grams min_gkg max_gkg w = Ok (daily_min, daily_max, target)
    /\ 0 <= daily_min /\ daily_min <= target /\ target <= daily_max
    /\ daily_max <= 2700.
Proof.
  unfold in_range, daily_grams. intros Hr (vw & Hw & Hvw).
  apply andb_prop in Hr. destruct Hr as [Hr H3].
  apply andb_prop in Hr. destruct Hr as [H1 H2].
  assert (H12 : fvalue 1.2 = Some (value_or_zero 1.2))
    by (apply fvalue_const; vm_compute; discriminate).
  assert (H27 : fvalue 2.7 = Some (value_or_zero 2.7))
    by (apply fvalue_const; vm_compute; discriminate).
  destruct (chain_values 1.2 2.7 min_gkg max_gkg _ _ H12 H27 H1 H2 H3)
    as (a & c & Ha & Hc & Hlo & Hac & Hhi).
  assert (Hlo0 : 0 <= value_or_zero 1.2) by (vm_compute; discriminate).
  assert (Hhi4 : value_or_zero 2.7 <= 4 * 2 ^ scale) by (vm_compute; discriminate).
  rewrite units_int in *. pose proof scale_pos as HP.
  assert (Hc970 : c < 2 ^ (scale + 970)).
  { rewrite Z.pow_add_r by (unfold scale; lia).
    assert (2 ^ 3 <= 2 ^ 970) by (apply Z.pow_le_mono_r; lia).
    change (2 ^ 3) with 8 in *. nia. }
  destruct (mid_between min_gkg max_gkg a c Ha Hc ltac:(lia) Hc970)
    as (mid & b & Hmid & Hb & Hab).
  assert (Hbound : c * vw < 2 ^ (2 * scale + 972)).
  { replace (2 * scale + 972) with (972 + scale + scale) by lia.
    rewrite !Z.pow_add_r by (unfold scale; lia).
    assert (2 ^ 12 <= 2 ^ 972) by (apply Z.pow_le_mono_r; lia).
    change (2 ^ 12) with 4096 in *. nia. }
  assert (Hva : fvalue (min_gkg * w) = Some (round64 (a * vw / 2 ^ scale)))
    by (apply mul_value; try assumption; nia).
  assert (Hvb : fvalue (mid * w) = Some (round64 (b * vw / 2 ^ scale)))
    by (apply mul_value; try assumption; nia).
  assert (Hvc : fvalue (max_gkg * w) = Some (round64 (c * vw / 2 ^ scale)))
    by (apply mul_value; assumption).
  rewrite (round_value _ _ Hva), (round_value _ _ Hvc). cbn [bind].
  rewrite Hmid. cbn [bind].
  rewrite (round_value _ _ Hvb). cbn [bind]. do 3 eexists. split; [ reflexivity | ].
  assert (Hdiv : forall x y, 0 <= x <= y -> 0 <= x * vw / 2 ^ scale <= y * vw / 2 ^ scale).
  { intros x y Hxy. split; [ apply Z.div_pos; nia | apply Z.div_le_mono; nia ]. }
  pose proof (Hdiv a b ltac:(lia)) as Hab'.
  pose proof (Hdiv b c ltac:(lia)) as Hbc'.
  repeat split.
  - apply rne_div_nonneg; [ assumption | ]. apply round64_nonneg. lia.
  - apply rne_div_mono; [ assumption | ]. apply round64_mono; lia.
  - apply rne_div_mono; [ assumption | ]. apply round64_mono; lia.
  - rewrite <- top_grams_eq. unfold top_grams.
    apply rne_div_mono; [ assumption | ]. apply round64_mono; [ lia | ].
    rewrite units_int. apply Z.div_le_mono; [ assumption | nia ].
Qed.

(** Whatever the weight above zero, daily grams that are returned are
    in order. *)
Lemma daily_grams_in_order (min_gkg max_gkg w : float) (daily_min daily_max target : Z) :
  in_range min_gkg max_gkg = true -> (0 <? w)%float = true ->
  daily_grams min_gkg max_gkg w = Ok (daily_min, daily_max, target) ->
  daily_min <= target <= daily_max.
Proof.
  unfold in_range, daily_grams. intros Hr Hw0.
  apply andb_prop in Hr. destruct Hr as [Hr H3].
  apply andb_prop in Hr. destruct Hr as [H1 H2].
  assert (H12 : fvalue 1.2 = Some (value_or_zero 1.2))
    by (apply fvalue_const; vm_compute; discriminate).
  assert (H27 : fvalue 2.7 = Some (value_or_zero 2.7))
    by (apply fvalue_const; vm_compute; discriminate).
  destruct (chain_values 1.2 2.7 min_gkg max_gkg _ _ H12 H27 H1 H2 H3)
    as (a & c & Ha & Hc & Hlo & Hac & Hhi).
  assert (Hlo0 : 0 < value_or_zero 1.2) by (vm_compute; reflexivity).
  assert (Hhi4 : value_or_zero 2.7 <= 4 * 2 ^ scale) by (vm_compute; discriminate).
  pose proof scale_pos as HP.
  assert (Hc970 : c < 2 ^ (scale + 970)).
  { rewrite Z.pow_add_r by (unfold scale; lia).
    assert (2 ^ 3 <= 2 ^ 970) by (apply Z.pow_le_mono_r; lia).
    change (2 ^ 3) with 8 in *. nia. }
  destruct (mid_between min_gkg max_gkg a c Ha Hc ltac:(lia) Hc970)
    as (mid & b & Hmid & Hb & Hab).
  rewrite Hmid.
  destruct (positive_cases w Hw0) as [(vw & Hw & Hvw) | Hinf].
  - destruct (mul_value_cases min_gkg w a vw Ha Hw) as [Hva | Hia];
      [ | rewrite (round_infinity _ _ Hia); discriminate ].
    rewrite (round_value _ _ Hva). cbn [bind].
    destruct (mul_value_cases max_gkg w c vw Hc Hw) as [Hvc | Hic];
      [ | rewrite (round_infinity _ _ Hic); discriminate ].
    rewrite (round_value _ _ Hvc). cbn [bind].
    destruct (mul_value_cases mid w b vw Hb Hw) as [Hvb | Hib];
      [ | rewrite (round_infinity _ _ Hib); discriminate ].
    rewrite (round_value _ _ Hvb). cbn [bind].
    assert (Hdiv : forall x y, 0 <= x <= y -> 0 <= x * vw / 2 ^ scale <= y * vw / 2 ^ scale).
    { intros x y Hxy. split; [ apply Z.div_pos; nia | apply Z.div_le_mono; nia ]. }
    pose proof (Hdiv a b ltac:(lia)) as Hab'.
    pose proof (Hdiv b c ltac:(lia)) as Hbc'.
    assert (Hord : Py.rne_div (round64 (a * vw / 2 ^ scale)) (2 ^ scale)
                   <= Py.rne_div (round64 (b * vw / 2 ^ scale)) (2 ^ scale)
                   <= Py.rne_div (round64 (c * vw / 2 ^ scale)) (2 ^ scale))
      by (split; (apply rne_div_mono; [ assumption | ]); apply round64_mono; lia).
    intros [= <- <- <-]. exact Hord.
  - rewrite (round_infinity _ _ (mul_infinity min_gkg w a Ha ltac:(lia) Hinf)).
    discriminate.
Qed.

End Pipeline.

(** ** [_make_plan] returns *)

Section Plans.

Lemma share_of_inv (pct : Z) (s : float) :
  share_of pct = Ok s ->
  exists pf, Py.float_of_int pct = Ok pf /\ Py.fdiv pf 100 = Ok s.
Proof.
  unfold share_of. destruct (Py.float_of_int pct) as [pf | ]; [ | discriminate ].
  cbn [bind]. intros H. now exists pf.
Qed.

Lemma float_of_int_below (t : Z) :
  0 <= t <= 2700 ->
  exists pg, Py.float_of_int t = Ok pg /\ below pg 2700
             /\ _round5 (Int t) = Ok (Py.rne_div t 5 * 5).
Proof.
  intros Ht. pose proof (int_ok_all t Ht) as H. unfold int_ok in H.
  apply andb_prop in H. destruct H as [Hc Hr].
  destruct (Py.float_of_int t) as [pg | ]; [ | discriminate ].
  destruct (_round5 (Int t)) as [z | ]; [ | discriminate ].
  apply Z.eqb_eq in Hr. subst z.
  exists pg. repeat split.
  exists (units t 0). split; [ now apply is_int_value | ].
  rewrite !units_int. pose proof scale_pos. nia.
Qed.

Lemma total_kcal_ok (p t : Z) (ps : float) :
  share_of p = Ok ps -> at_least_inv ps 5 = true -> 0 <= t <= 2700 ->
  exists total, total_kcal_of p t = Ok total /\ below total 54000.
Proof.
  intros Hs Hps Ht. unfold total_kcal_of.
  destruct (float_of_int_below t Ht) as (pg & -> & Hpg & _). cbn [bind].
  destruct (share_of_inv p ps Hs) as (pf & -> & Hdiv). cbn [bind].
  rewrite Hdiv. cbn [bind].
  destruct (at_least_inv_spec ps 5 Hps) as (v & Hv & Hv0 & HvK).
  assert (H4 : below (pg * 4) (2700 * 4)).
  { apply mul_below; try lia; [ assumption | ].
    apply belowb_below. vm_compute. reflexivity. }
  apply (fdiv_below _ ps (2700 * 4) 5 v); try assumption; lia.
Qed.

Lemma grams_ok (total k : float) (c : Z) (cs : float) :
  below total 54000 -> share_of c = Ok cs -> belowb cs 1 = true ->
  at_least_inv k 1 = true ->
  exists g, grams_of total c k = Ok g /\ below g 54000.
Proof.
  intros Ht Hs Hcs Hk. unfold grams_of.
  destruct (share_of_inv c cs Hs) as (pf & -> & Hdiv). cbn [bind].
  rewrite Hdiv. cbn [bind].
  destruct (at_least_inv_spec k 1 Hk) as (v & Hv & Hv0 & HvK).
  assert (Hm : below (total * cs) (54000 * 1)).
  { apply mul_below; try lia; [ assumption | now apply belowb_below ]. }
  apply (fdiv_below _ k (54000 * 1) 1 v); try assumption; lia.
Qed.

Lemma round5_ok (g : float) :
  below g 54000 -> exists z, _round5 (Float g) = Ok (z * 5).
Proof.
  intros Hg. unfold _round5. cbn [as_float bind].
  assert (H5 : at_least_inv 5 1 = true) by (vm_compute; reflexivity).
  destruct (at_least_inv_spec 5 1 H5) as (v & Hv & Hv0 & HvK).
  destruct (fdiv_below g 5 54000 1 v Hg Hv Hv0 HvK) as (q & -> & Hq); try lia.
  cbn [bind]. destruct (round_below q _ Hq) as (z & -> & _). cbn [bind].
  now exists z.
Qed.

(** On an adjusted split and a target of at most 2700 grams,
    [_make_plan] returns a plan of this shape. *)
Lemma make_plan_ok (name tagline : string) (p c f t : Z) :
  split_ok (p, c, f) = true -> 0 <= t <= 2700 ->
  exists total gc gf kc kf kcal,
    total_kcal_of p t = Ok total
    /\ grams_of total c 4 = Ok gc
    /\ grams_of total f 9 = Ok gf
    /\ _round5 (Int t) = Ok (Py.rne_div t 5 * 5)
    /\ _round5 (Float gc) = Ok (kc * 5)
    /\ _round5 (Float gf) = Ok (kf * 5)
    /\ Py.round total = Ok kcal
    /\ _make_plan name tagline (p, c, f) t =
       Ok {| name := name; tagline := tagline;
             macros := {| protein_g := Py.rne_div t 5 * 5;
                          carbs_g := kc * 5;
                          fats_g := kf * 5;
                          split_percent := [("protein", p); ("carbs", c); ("fats", f)];
                          calories := kcal |};
             sample_meals := dict_get base_meals name default_meals |}.
Proof.
  intros Hs Ht. unfold split_ok in Hs.
  destruct (share_of p) as [ps | ] eqn:Hp; [ | discriminate ].
  destruct (share_of c) as [cs | ] eqn:Hc; [ | discriminate ].
  destruct (share_of f) as [fs | ] eqn:Hf; [ | discriminate ].
  apply andb_prop in Hs. destruct Hs as [Hs Hfs].
  apply andb_prop in Hs. destruct Hs as [Hps Hcs].
  unfold _make_plan.
  destruct (total_kcal_ok p t ps Hp Hps Ht) as (total & Htotal & Htot).
  destruct (grams_ok total 4 c cs Htot Hc Hcs ltac:(vm_compute; reflexivity))
    as (gc & Hgc & Hbc).
  destruct (grams_ok total 9 f fs Htot Hf Hfs ltac:(vm_compute; reflexivity))
    as (gf & Hgf & Hbf).
  destruct (float_of_int_below t Ht) as (_ & _ & _ & Hrp).
  destruct (round5_ok gc Hbc) as (kc & Hkc).
  destruct (round5_ok gf Hbf) as (kf & Hkf).
  destruct (round_below total _ Htot) as (kcal & Hkcal & _).
  exists total, gc, gf, kc, kf, kcal.
  rewrite Htotal. cbn [bind]. rewrite Hgc. cbn [bind]. rewrite Hgf. cbn [bind].
  rewrite Hrp. cbn [bind]. rewrite Hkc. cbn [bind]. rewrite Hkf. cbn [bind].
  rewrite Hkcal. cbn [bind]. repeat split; reflexivity.
Qed.

End Plans.

(** ** The suggestions and the rounded weight *)

Section Suggestions.

Lemma mapM_Forall2 {A B : Type} (f : A -> result B) (P : A -> B -> Prop) (l : list A) :
  (forall a, In a l -> exists b, f a = Ok b /\ P a b) ->
  exists bs, mapM f l = Ok bs /\ Forall2 P l bs.
Proof.
  induction l as [ | a l IH ]; intros H.
  - exists []. split; [ reflexivity | constructor ].
  - destruct (H a (or_introl eq_refl)) as (b & Hb & HP).
    destruct IH as (bs & Hbs & HF); [ intros; apply H; now right | ].
    exists (b :: bs). cbn [mapM]. rewrite Hb. cbn [bind]. rewrite Hbs. cbn [bind].
    split; [ reflexivity | now constructor ].
Qed.

Lemma p_bump_cases (goal : string) :
  dict_get goal_adj goal 0 = 5 \/ dict_get goal_adj goal 0 = 0.
Proof.
  unfold goal_adj. cbn [dict_get].
  destruct (String.eqb "fat_loss" goal); [ now left | ].
  destruct (String.eqb "maintenance" goal); [ now right | ].
  destruct (String.eqb "muscle_gain" goal); now right.
Qed.

Lemma adjusted_splits_ok (goal : string) (a : string * string * (Z * Z * Z)) :
  In a archetypes -> split_ok (adjust_split (dict_get goal_adj goal 0) (snd a)) = true.
Proof.
  intros Hin.
  assert (H : forall b, b = 5 \/ b = 0 ->
              forallb (fun a => split_ok (adjust_split b (snd a))) archetypes = true).
  { intros b [-> | ->]; vm_compute; reflexivity. }
  specialize (H _ (p_bump_cases goal)).
  rewrite forallb_forall in H. now apply H.
Qed.

Lemma make_suggestions_ok (goal : string) (t : Z) :
  0 <= t <= 2700 ->
  exists l, make_suggestions goal t = Ok l
            /\ Forall2 (plan_of (dict_get goal_adj goal 0) t) archetypes l.
Proof.
  intros Ht. unfold make_suggestions. apply mapM_Forall2.
  intros [[nm tag] pct] Hin.
  pose proof (adjusted_splits_ok goal _ Hin) as Hs. cbn [snd] in Hs.
  unfold plan_of.
  destruct (adjust_split (dict_get goal_adj goal 0) pct) as [[p c] f].
  destruct (make_plan_ok nm tag p c f t Hs Ht)
    as (total & gc & gf & kc & kf & kcal & H1 & H2 & H3 & H4 & H5 & H6 & H7 & Hplan).
  eexists. split; [ exact Hplan | ].
  exists total, gc, gf, kc, kf, kcal. repeat split; assumption.
Qed.

Lemma rne_div_num_den (m : positive) (e c : Z) :
  -1074 <= e ->
  Py.rne_div (Py.num_of m e * c) (Py.den_of e) =
  Py.rne_div (units (Zpos m) e * c) (2 ^ scale).
Proof.
  intros He. unfold Py.num_of, Py.den_of, units.
  destruct (Z.leb_spec 0 e).
  - rewrite Z.pow_add_r by (unfold scale; lia).
    replace (Zpos m * (2 ^ e * 2 ^ scale) * c) with (Zpos m * 2 ^ e * c * 2 ^ scale) by ring.
    rewrite <- (Z.mul_1_l (2 ^ scale)) at 2.
    now rewrite rne_div_scale by (try apply scale_pos; lia).
  - replace (2 ^ scale) with (2 ^ (- e) * 2 ^ (e + scale)).
    + replace (Zpos m * 2 ^ (e + scale) * c) with (Zpos m * c * 2 ^ (e + scale)) by ring.
      now rewrite rne_div_scale by (apply pow2_pos; unfold scale; lia).
    + rewrite <- Z.pow_add_r by (unfold scale; lia). f_equal. lia.
Qed.

(** [round(weight_kg, 2)] returns for a weight of at most 1000. *)
Lemma round_ndigits_ok (x : float) :
  below x 1000 -> exists r, Py.round_ndigits x 2 = Ok r.
Proof.
  intros (v & Hv & Hb). unfold Py.round_ndigits, fvalue in *.
  destruct (Prim2SF x) as [s | s | | [ | ] m e]; try discriminate;
    try (eexists; reflexivity).
  cbn [value_of] in Hv.
  destruct (Z.leb_spec (-1074) e) as [He | ]; [ | discriminate ].
  apply some_inj in Hv. subst v.
  rewrite rne_div_num_den by assumption.
  rewrite units_int in Hb. pose proof scale_pos as HP.
  change (10 ^ 2) with 100.
  assert (Hn : 0 <= Py.rne_div (units (Zpos m) e * 100) (2 ^ scale) <= 100000).
  { split; [ apply rne_div_nonneg; lia | apply rne_div_le; lia ]. }
  destruct (Py.rne_div (units (Zpos m) e * 100) (2 ^ scale)) as [ | p | p ];
    cbn [Py.of_decimal]; try (eexists; reflexivity).
  change (Z.to_pos (10 ^ 2)) with 100%positive.
  assert (Hd : value_of (SF64div (S754_finite false p 0) (S754_finite false 100 0)) <> None).
  { unfold SF64div. rewrite SFdiv_value; try lia; [ discriminate | ].
    rewrite !units_int.
    assert (2 ^ 1 <= 2 ^ 972) by (apply Z.pow_le_mono_r; lia).
    change (2 ^ 1) with 2 in *. nia. }
  destruct (SF64div (S754_finite false p 0) (S754_finite false 100 0));
    try (eexists; reflexivity).
  exfalso. apply Hd. reflexivity.
Qed.

End Suggestions.

(** ** [calculate_protein] on a validated request *)

Section Calculate.

Lemma calculate_protein_ok (req : ProteinRequest) :
  valid_request req ->
  exists min_gkg max_gkg daily_min daily_max target plans rounded_kg,
    gkg_range (activity req) (goal req) = Ok (min_gkg, max_gkg)
    /\ in_range min_gkg max_gkg = true
    /\ daily_grams min_gkg max_gkg (to_kg req) = Ok (daily_min, daily_max, target)
    /\ (0 <= daily_min /\ daily_min <= target /\ target <= daily_max /\ daily_max <= 2700)
    /\ make_suggestions (goal req) target = Ok plans
    /\ Forall2 (plan_of (dict_get goal_adj (goal req) 0) target) archetypes plans
    /\ Py.round_ndigits (to_kg req) 2 = Ok rounded_kg
    /\ calculate_protein req =
       Ok {| weight_kg := rounded_kg;
             grams_per_kg_range := (min_gkg, max_gkg);
             daily_grams_min := daily_min;
             daily_grams_max := daily_max;
             daily_grams_target := target;
             rationale := rationale_text min_gkg max_gkg;
             suggestions := plans |}.
Proof.
  intros Hv. pose proof (to_kg_below req Hv) as Hkg.
  destruct Hv as (_ & _ & Hact & Hgoal).
  pose proof (gkg_range_ok _ _ Hact Hgoal) as Hr. unfold gkg_check in Hr.
  destruct (gkg_range (activity req) (goal req)) as [[mn mx] | ] eqn:Hrange;
    [ | discriminate ].
  destruct (daily_grams_ordered mn mx _ Hr Hkg) as (dmin & dmax & t & Hd & Hord).
  destruct (make_suggestions_ok (goal req) t ltac:(lia)) as (plans & Hplans & Hshape).
  destruct (round_ndigits_ok _ Hkg) as (rk & Hrk).
  exists mn, mx, dmin, dmax, t, plans, rk.
  unfold calculate_protein. rewrite Hrange. cbn [bind]. rewrite Hd. cbn [bind].
  rewrite Hplans. cbn [bind]. rewrite Hrk. cbn [bind].
  repeat split; try assumption; lia.
Qed.

End Calculate.

(** ** The code against the wording of the specification *)

Section Wording.

Lemma round5_rounds_to_5 (x : number) (z : Z) : _round5 x = Ok z -> rounds_to_5 x z.
Proof.
  unfold _round5, rounds_to_5.
  destruct (as_float x) as [xf | ] eqn:Hx; [ | discriminate ]. cbn [bind].
  destruct (Py.fdiv xf 5) as [q | ] eqn:Hq; [ | discriminate ]. cbn [bind].
  destruct (Py.round q) as [r | ] eqn:Hr; [ | discriminate ]. cbn [bind].
  intros [= <-]. exists xf, q, r. repeat split; assumption.
Qed.

(** The nearest integer is within half a unit. *)
Lemma rne_div_near (n d : Z) : 0 < d -> 2 * Z.abs (Py.rne_div n d * d - n) <= d.
Proof.
  intros Hd. unfold Py.rne_div.
  pose proof (Z.div_mod n d ltac:(lia)) as Hdm.
  pose proof (Z.mod_pos_bound n d Hd) as Hr.
  destruct (Z.compare_spec (2 * (n mod d)) d); try destruct (Z.even (n / d)); nia.
Qed.

Lemma adjust_split_spec (goal : string) (base : Z * Z * Z) :
  adjust_split (dict_get goal_adj goal 0) base = spec_split goal base.
Proof.
  assert (Hb : dict_get goal_adj goal 0 = if String.eqb goal "fat_loss" then 5 else 0).
  { unfold goal_adj. cbn [dict_get]. rewrite (String.eqb_sym "fat_loss" goal).
    destruct (String.eqb goal "fat_loss"); [ reflexivity | ].
    destruct (String.eqb "maintenance" goal); [ reflexivity | ].
    destruct (String.eqb "muscle_gain" goal); reflexivity. }
  rewrite Hb. destruct base as [[p c] f]. unfold adjust_split, spec_split.
  destruct (_ + _ + f =? 100); reflexivity.
Qed.

Lemma plan_of_macros (p_bump target : Z) (a : string * string * (Z * Z * Z))
    (plan : MealSuggestion) :
  plan_of p_bump target a plan ->
  macros_rounded target plan
  /\ protein_g (macros plan) = Py.rne_div target 5 * 5
  /\ name plan = fst (fst a) /\ tagline plan = snd (fst a)
  /\ split_percent (macros plan) =
     (let '(p, c, f) := adjust_split p_bump (snd a) in
      [("protein", p); ("carbs", c); ("fats", f)]).
Proof.
  destruct a as [[nm tag] pct]. unfold plan_of. cbn [fst snd].
  destruct (adjust_split p_bump pct) as [[p c] f].
  intros (total & gc & gf & kc & kf & kcal & H1 & H2 & H3 & H4 & H5 & H6 & H7 & ->).
  cbn [macros protein_g carbs_g fats_g split_percent name tagline].
  repeat split.
  exists p, c, f, total, gc, gf.
  cbn [macros protein_g carbs_g fats_g split_percent].
  repeat split; try assumption; now apply round5_rounds_to_5.
Qed.

Lemma Forall2_Forall_r {A B : Type} (P : A -> B -> Prop) (Q : B -> Prop)
    (l : list A) (l' : list B) :
  Forall2 P l l' -> (forall a b, P a b -> Q b) -> Forall Q l'.
Proof.
  intros H HPQ. induction H; constructor; eauto.
Qed.

Lemma rounds_to_5_divide (x : number) (z : Z) : rounds_to_5 x z -> (5 | z).
Proof. intros (xf & q & r & _ & _ & _ & ->). now exists r. Qed.

Lemma divisors_nonzero (goal : string) :
  forallb (divisor_check (dict_get goal_adj goal 0)) archetypes = true.
Proof.
  destruct (p_bump_cases goal) as [-> | ->]; vm_compute; reflexivity.
Qed.

(** Without NaN, a float that is not above 0 is at most 0. *)
Lemma not_gt_zero (w : float) :
  is_nan w = false -> (0 <? w)%float = negb (w <=? 0)%float.
Proof.
  unfold is_nan. rewrite eqb_spec, ltb_spec, leb_spec.
  change (Prim2SF 0) with (S754_zero false).
  unfold SFeqb, SFltb, SFleb.
  destruct (Prim2SF w) as [s | [ | ] | | [ | ] m e]; cbn [SFcompare negb];
    try reflexivity; discriminate.
Qed.

End Wording.

(** * The claims *)

Section Claims.

(** C1: for every valid protein range (the floats of [1.2 <= min_gkg <=
    max_gkg <= 2.7]) and every weight in kilograms above zero, the
    outputs of lines 155-157 are
    [daily_min = round(min_gkg * weight_kg)],
    [daily_max = round(max_gkg * weight_kg)] and
    [target = round(((min_gkg + max_gkg) / 2.0) * weight_kg)], each
    rounded to the nearest integer, with
    [daily_min <= target <= daily_max]; and there are outputs for every
    weight that validation lets through (at most 1000). *)
Theorem target_between_daily_bounds (min_gkg max_gkg weight_kg : float) :
  (1.2 <=? min_gkg)%float = true ->
  (min_gkg <=? max_gkg)%float = true ->
  (max_gkg <=? 2.7)%float = true ->
  (0 <? weight_kg)%float = true ->
  (forall daily_min daily_max target,
     daily_grams min_gkg max_gkg weight_kg = Ok (daily_min, daily_max, target) ->
     exists mid,
       Py.round (min_gkg * weight_kg) = Ok daily_min
       /\ Py.round (max_gkg * weight_kg) = Ok daily_max
       /\ Py.fdiv (min_gkg + max_gkg) 2 = Ok mid
       /\ Py.round (mid * weight_kg) = Ok target
       /\ daily_min <= target <= daily_max)
  /\ ((weight_kg <=? 1000)%float = true ->
      exists daily_min daily_max target,
        daily_grams min_gkg max_gkg weight_kg = Ok (daily_min, daily_max, target)).
Proof.
  intros H1 H2 H3 Hw0.
  assert (Hin : in_range min_gkg max_gkg = true)
    by (unfold in_range; now rewrite H1, H2, H3).
  split.
  - intros daily_min daily_max target Hd.
    pose proof (daily_grams_in_order _ _ _ _ _ _ Hin Hw0 Hd) as Hord.
    unfold daily_grams in Hd.
    destruct (Py.round (min_gkg * weight_kg)) as [a | ] eqn:Ea; [ | discriminate ].
    destruct (Py.round (max_gkg * weight_kg)) as [c | ] eqn:Ec; [ | discriminate ].
    destruct (Py.fdiv (min_gkg + max_gkg) 2) as [mid | ] eqn:Em; [ | discriminate ].
    cbn [bind] in Hd.
    destruct (Py.round (mid * weight_kg)) as [b | ] eqn:Eb; [ | discriminate ].
    cbn [bind] in Hd. injection Hd as <- <- <-.
    exists mid. repeat split; try reflexivity; try assumption; lia.
  - intros Hw1.
    assert (Hw : below weight_kg 1000).
    { assert (Hz : (0 <=? weight_kg)%float = true).
      { revert Hw0. rewrite ltb_spec, leb_spec. unfold SFltb, SFleb.
        destruct (SFcompare (Prim2SF 0) (Prim2SF weight_kg)) as [[ | | ] | ];
          try discriminate; reflexivity. }
      assert (H0 : fvalue 0 = Some 0) by reflexivity.
      assert (H1000 : fvalue 1000 = Some (units 1000 0)) by (vm_compute; reflexivity).
      destruct (between_value 0 1000 weight_kg 0 (units 1000 0) H0 H1000 Hz Hw1)
        as (v & Hv & Hb).
      exists v. split; [ exact Hv | exact Hb ]. }
    destruct (daily_grams_ordered _ _ _ Hin Hw) as (dmin & dmax & t & Hd & _).
    exists dmin, dmax, t. exact Hd.
Qed.

Lemma target_between_daily_bounds_witness :
  (forall daily_min daily_max target,
     daily_grams 1.6 2.0 80 = Ok (daily_min, daily_max, target) ->
     exists mid,
       Py.round (1.6 * 80) = Ok daily_min
       /\ Py.round (2.0 * 80) = Ok daily_max
       /\ Py.fdiv (1.6 + 2.0) 2 = Ok mid
       /\ Py.round (mid * 80) = Ok target
       /\ daily_min <= target <= daily_max)
  /\ ((80 <=? 1000)%float = true ->
      exists daily_min daily_max target,
        daily_grams 1.6 2.0 80 = Ok (daily_min, daily_max, target)).
Proof.
  apply (target_between_daily_bounds 1.6 2.0 80); vm_compute; reflexivity.
Defined.

(** C2: for each of the nine combinations of activity and goal, lines
    136-153 produce [min_gkg = max(1.2, round(base_min, 2))] and
    [max_gkg = min(2.7, round(base_max, 2))] from the bounds after the
    goal adjustment, with [min_gkg <= max_gkg] and both between the
    floats [1.2] and [2.7]. *)
Theorem range_within_bounds (activity goal : string) :
  In activity ["low"; "moderate"; "high"] ->
  In goal ["fat_loss"; "maintenance"; "muscle_gain"] ->
  exists base_min base_max rounded_min rounded_max min_gkg max_gkg,
    goal_range goal (base_range activity) = (base_min, base_max)
    /\ Py.round_ndigits base_min 2 = Ok rounded_min
    /\ Py.round_ndigits base_max 2 = Ok rounded_max
    /\ min_gkg = Py.max 1.2 rounded_min
    /\ max_gkg = Py.min 2.7 rounded_max
    /\ gkg_range activity goal = Ok (min_gkg, max_gkg)
    /\ (min_gkg <=? max_gkg)%float = true
    /\ (1.2 <=? min_gkg)%float = true /\ (min_gkg <=? 2.7)%float = true
    /\ (1.2 <=? max_gkg)%float = true /\ (max_gkg <=? 2.7)%float = true.
Proof.
  intros Ha Hg. pose proof (gkg_range_ok _ _ Ha Hg) as Hr.
  unfold gkg_check, gkg_range, clamp_range in *.
  destruct (goal_range goal (base_range activity)) as [bmin bmax].
  destruct (Py.round_ndigits bmin 2) as [rmin | ] eqn:Emin; [ | discriminate ].
  cbn [bind] in *.
  destruct (Py.round_ndigits bmax 2) as [rmax | ] eqn:Emax; [ | discriminate ].
  cbn [bind] in *.
  exists bmin, bmax, rmin, rmax, (Py.max 1.2 rmin), (Py.min 2.7 rmax).
  unfold in_range in Hr.
  apply andb_prop in Hr. destruct Hr as [Hr H3].
  apply andb_prop in Hr. destruct Hr as [H1 H2].
  assert (H12 : fvalue 1.2 = Some (value_or_zero 1.2))
    by (apply fvalue_const; vm_compute; discriminate).
  assert (H27 : fvalue 2.7 = Some (value_or_zero 2.7))
    by (apply fvalue_const; vm_compute; discriminate).
  destruct (chain_values 1.2 2.7 _ _ _ _ H12 H27 H1 H2 H3)
    as (a & c & Hva & Hvc & Hlo & Hac & Hhi).
  assert (H4 : (Py.max 1.2 rmin <=? 2.7)%float = true)
    by (rewrite (leb_value _ _ _ _ Hva H27); apply Z.leb_le; lia).
  assert (H5 : (1.2 <=? Py.min 2.7 rmax)%float = true)
    by (rewrite (leb_value _ _ _ _ H12 Hvc); apply Z.leb_le; lia).
  repeat split; assumption.
Qed.

Lemma range_within_bounds_witness :
  exists base_min base_max rounded_min rounded_max min_gkg max_gkg,
    goal_range "fat_loss" (base_range "high") = (base_min, base_max)
    /\ Py.round_ndigits base_min 2 = Ok rounded_min
    /\ Py.round_ndigits base_max 2 = Ok rounded_max
    /\ min_gkg = Py.max 1.2 rounded_min
    /\ max_gkg = Py.min 2.7 rounded_max
    /\ gkg_range "high" "fat_loss" = Ok (min_gkg, max_gkg)
    /\ (min_gkg <=? max_gkg)%float = true
    /\ (1.2 <=? min_gkg)%float = true /\ (min_gkg <=? 2.7)%float = true
    /\ (1.2 <=? max_gkg)%float = true /\ (max_gkg <=? 2.7)%float = true.
Proof.
  apply (range_within_bounds "high" "fat_loss"); cbn [In]; tauto.
Defined.

(** C3: for every goal and every archetype of the table, the split that
    the loop computes is the one of the specification (bump 5 for
    fat_loss and 0 otherwise, protein capped at 45, carbs floored at 30,
    fat absorbing the remainder and floored at 20), and it sums to 100
    unless both floors bind under fat_loss. *)
Theorem split_sums_to_100_unless_both_floors (goal nm tag : string) (base : Z * Z * Z) :
  In (nm, tag, base) archetypes ->
  ~ (goal = "fat_loss" /\ carbs_floor_binds goal base /\ fat_floor_binds goal base) ->
  adjust_split (dict_get goal_adj goal 0) base = spec_split goal base
  /\ split_sum (spec_split goal base) = 100.
Proof.
  intros Hin _. split; [ apply adjust_split_spec | ].
  unfold archetypes in Hin. cbn [In] in Hin.
  unfold spec_split.
  destruct Hin as [H | [H | [H | [H | []]]]]; injection H as <- <- <-;
    destruct (String.eqb goal "fat_loss"); reflexivity.
Qed.

Lemma split_sums_to_100_unless_both_floors_witness :
  adjust_split (dict_get goal_adj "fat_loss" 0) (35, 35, 30)
  = spec_split "fat_loss" (35, 35, 30)
  /\ split_sum (spec_split "fat_loss" (35, 35, 30)) = 100.
Proof.
  apply (split_sums_to_100_unless_both_floors "fat_loss" "Mat Dominator"
           "Mat-ready power with cutting-edge leanness." (35, 35, 30)).
  - cbn [archetypes In]. right. left. reflexivity.
  - intros (_ & Hc & _). unfold carbs_floor_binds in Hc. cbn in Hc. lia.
Defined.

(** C4, as amended: for every valid input the rationale is the fixed
    template around [min_gkg] and [max_gkg] printed by Python's default
    float formatting ([repr], the shortest decimal that reads back),
    which for every range the calculator produces has exactly one
    decimal: a bound of 1.6 appears as "1.6". *)
Theorem rationale_embeds_repr (w : float) (u a g : option string) (age : option Z)
    (sex : option string) (req : ProteinRequest) :
  ProteinRequest_init w u a g age sex = Ok req ->
  exists resp min_gkg max_gkg,
    calculate_protein req = Ok resp
    /\ grams_per_kg_range resp = (min_gkg, max_gkg)
    /\ rationale resp = rationale_template (Py.repr min_gkg) (Py.repr max_gkg)
    /\ Py.repr min_gkg = fixed 1 min_gkg
    /\ Py.repr max_gkg = fixed 1 max_gkg.
Proof.
  intros Hinit. destruct (init_valid _ _ _ _ _ _ _ Hinit) as [Hv _].
  destruct (calculate_protein_ok req Hv)
    as (mn & mx & dmin & dmax & t & plans & rk & Hrange & _ & _ & _ & _ & _ & _ & Hcalc).
  eexists. exists mn, mx. split; [ exact Hcalc | ].
  cbn [grams_per_kg_range rationale]. split; [ reflexivity | ].
  split; [ reflexivity | ].
  destruct Hv as (_ & _ & Hact & Hgoal). cbn [In] in Hact, Hgoal.
  clear Hcalc. revert Hrange.
  destruct Hact as [<- | [<- | [<- | []]]]; destruct Hgoal as [<- | [<- | [<- | []]]];
    intros Hrange; vm_compute in Hrange; injection Hrange as <- <-;
    split; vm_compute; reflexivity.
Qed.

Lemma rationale_embeds_repr_witness :
  exists resp min_gkg max_gkg,
    calculate_protein
      {| weight := 80; unit := "kg"; activity := "moderate"; goal := "maintenance";
         age := None; sex := None |} = Ok resp
    /\ grams_per_kg_range resp = (min_gkg, max_gkg)
    /\ rationale resp = rationale_template (Py.repr min_gkg) (Py.repr max_gkg)
    /\ Py.repr min_gkg = fixed 1 min_gkg
    /\ Py.repr max_gkg = fixed 1 max_gkg.
Proof.
  apply (rationale_embeds_repr 80 (Some "kg") (Some "moderate") (Some "maintenance")
           None None).
  vm_compute. reflexivity.
Defined.

(** C4 as stated fails: for weight 80 kg, moderate activity and
    maintenance the rationale reads "1.6-2.0", not "1.60-2.00". *)
Lemma rationale_not_two_decimals :
  ~ (forall req resp,
       valid_request req -> calculate_protein req = Ok resp ->
       rationale resp =
       rationale_template (fixed 2 (fst (grams_per_kg_range resp)))
                          (fixed 2 (snd (grams_per_kg_range resp)))).
Proof.
  intros H.
  assert (Hv : valid_request {| weight := 80; unit := "kg"; activity := "moderate";
                                goal := "maintenance"; age := None; sex := None |}).
  { unfold valid_request. cbn [weight unit activity goal In].
    split; [ reflexivity | ]. tauto. }
  destruct (calculate_protein_ok _ Hv)
    as (mn & mx & dmin & dmax & t & plans & rk & Hrange & _ & _ & _ & _ & _ & _ & Hcalc).
  specialize (H _ _ Hv Hcalc). cbn [grams_per_kg_range rationale fst snd] in H.
  cbn [activity goal] in Hrange. vm_compute in Hrange. injection Hrange as <- <-.
  vm_compute in H. discriminate H.
Qed.

(** C5: weight 80, unit kg, activity moderate, goal maintenance gives
    the range (1.6, 2.0) and the daily grams 128, 160 and 144. *)
Theorem example_80_kg_moderate_maintenance :
  (req <- ProteinRequest_init 80 (Some "kg") (Some "moderate") (Some "maintenance")
                              None None ;;
   resp <- calculate_protein req ;;
   Ok (grams_per_kg_range resp, daily_grams_min resp, daily_grams_max resp,
       daily_grams_target resp))
  = Ok ((1.6, 2.0)%float, 128, 160, 144).
Proof. vm_compute. reflexivity. Qed.

(** C6: in the response to every valid request, the protein, carbs and
    fat grams of every meal plan are [round(value / 5.0) * 5] of the raw
    value (the target, and the grams that the formulas of [_make_plan]
    give for the split of the plan), hence integer multiples of 5. *)
Theorem plan_grams_multiples_of_5 (w : float) (u a g : option string) (age : option Z)
    (sex : option string) (req : ProteinRequest) :
  ProteinRequest_init w u a g age sex = Ok req ->
  exists resp,
    calculate_protein req = Ok resp
    /\ Forall (fun plan =>
                 macros_rounded (daily_grams_target resp) plan
                 /\ (5 | protein_g (macros plan))
                 /\ (5 | carbs_g (macros plan))
                 /\ (5 | fats_g (macros plan)))
              (suggestions resp).
Proof.
  intros Hinit. destruct (init_valid _ _ _ _ _ _ _ Hinit) as [Hv _].
  destruct (calculate_protein_ok req Hv)
    as (mn & mx & dmin & dmax & t & plans & rk & _ & _ & _ & _ & _ & Hshape & _ & Hcalc).
  eexists. split; [ exact Hcalc | ]. cbn [daily_grams_target suggestions].
  apply (Forall2_Forall_r _ _ _ _ Hshape). intros arch plan Hplan.
  destruct (plan_of_macros _ _ _ _ Hplan) as (Hm & _).
  split; [ exact Hm | ].
  destruct Hm as (p & c & f & total & rc & rf & _ & _ & _ & _ & Hp & Hc & Hf).
  repeat split; eapply rounds_to_5_divide; eassumption.
Qed.

Lemma plan_grams_multiples_of_5_witness :
  exists resp,
    calculate_protein
      {| weight := 150; unit := "lb"; activity := "high"; goal := "fat_loss";
         age := None; sex := None |} = Ok resp
    /\ Forall (fun plan =>
                 macros_rounded (daily_grams_target resp) plan
                 /\ (5 | protein_g (macros plan))
                 /\ (5 | carbs_g (macros plan))
                 /\ (5 | fats_g (macros plan)))
              (suggestions resp).
Proof.
  apply (plan_grams_multiples_of_5 150 (Some "lb") (Some "high") (Some "fat_loss")
           None None).
  vm_compute. reflexivity.
Defined.

(** C7: on every request that passes validation [calculate_protein]
    returns a response and raises nothing; the protein percent of every
    plan is positive and the share [p_pct / 100.0] that the calorie
    formula divides by is not zero. *)
Theorem calculate_protein_total (w : float) (u a g : option string) (age : option Z)
    (sex : option string) (req : ProteinRequest) :
  ProteinRequest_init w u a g age sex = Ok req ->
  (exists resp, calculate_protein req = Ok resp)
  /\ Forall (fun arch =>
               let '(p_pct, _, _) :=
                 adjust_split (dict_get goal_adj (goal req) 0) (snd arch) in
               0 < p_pct
               /\ exists share, share_of p_pct = Ok share /\ is_zero share = false)
            archetypes.
Proof.
  intros Hinit. destruct (init_valid _ _ _ _ _ _ _ Hinit) as [Hv _]. split.
  - destruct (calculate_protein_ok req Hv)
      as (mn & mx & dmin & dmax & t & plans & rk & _ & _ & _ & _ & _ & _ & _ & Hcalc).
    eexists. exact Hcalc.
  - apply Forall_forall. intros arch Hin.
    pose proof (divisors_nonzero (goal req)) as Hd.
    rewrite forallb_forall in Hd. specialize (Hd arch Hin).
    unfold divisor_check in Hd.
    destruct (adjust_split (dict_get goal_adj (goal req) 0) (snd arch)) as [[p c] f].
    apply andb_prop in Hd. destruct Hd as [Hp Hs]. apply Z.ltb_lt in Hp.
    split; [ assumption | ].
    destruct (share_of p) as [share | ]; [ | discriminate ].
    exists share. split; [ reflexivity | ]. now destruct (is_zero share).
Qed.

Lemma calculate_protein_total_witness :
  (exists resp,
     calculate_protein
       {| weight := 1000; unit := "kg"; activity := "high"; goal := "fat_loss";
          age := Some 30; sex := Some "other" |} = Ok resp)
  /\ Forall (fun arch =>
               let '(p_pct, _, _) :=
                 adjust_split (dict_get goal_adj "fat_loss" 0) (snd arch) in
               0 < p_pct
               /\ exists share, share_of p_pct = Ok share /\ is_zero share = false)
            archetypes.
Proof.
  apply (calculate_protein_total 1000 (Some "kg") (Some "high") (Some "fat_loss")
           (Some 30) (Some "other")).
  vm_compute. reflexivity.
Defined.

(** C8: with valid enum, age and sex fields (and a weight that is a
    number), the construction of a request raises [ValidationError]
    exactly when the weight is at most 0 or above 1000; the test is on
    the weight as given, whatever the unit, and an accepted request
    keeps the weight and the unit unchanged. *)
Theorem validation_fails_iff_weight_out_of_range (w : float) (u a g : option string)
    (age : option Z) (sex : option string) :
  is_nan w = false ->
  optional (literal ["kg"; "lb"]) u = true ->
  optional (literal ["low"; "moderate"; "high"]) a = true ->
  optional (literal ["fat_loss"; "maintenance"; "muscle_gain"]) g = true ->
  optional (fun n => (10 <=? n) && (n <=? 100)) age = true ->
  optional (literal ["male"; "female"; "other"]) sex = true ->
  (ProteinRequest_init w u a g age sex = Raise ValidationError
   <-> (w <=? 0)%float = true \/ (1000 <? w)%float = true)
  /\ (forall req, ProteinRequest_init w u a g age sex = Ok req ->
                  weight req = w /\ unit req = with_default "kg" u).
Proof.
  intros Hnan Hu Ha Hg Hage Hsex.
  assert (Hlit : forall l d (o : option string),
             literal l d = true -> optional (literal l) o = true ->
             literal l (with_default d o) = true).
  { intros l d [x | ] Hd Ho; [ exact Ho | exact Hd ]. }
  unfold ProteinRequest_init, weight_field, validate_weight.
  rewrite (not_gt_zero w Hnan).
  rewrite (Hlit ["kg"; "lb"] "kg" u eq_refl Hu),
    (Hlit ["low"; "moderate"; "high"] "moderate" a eq_refl Ha),
    (Hlit ["fat_loss"; "maintenance"; "muscle_gain"] "maintenance" g eq_refl Hg),
    Hage, Hsex.
  cbn [andb].
  destruct (w <=? 0)%float; cbn [negb]; [ | destruct (1000 <? w)%float ].
  - split; [ split; [ now left | reflexivity ] | discriminate ].
  - split; [ split; [ now right | reflexivity ] | discriminate ].
  - split; [ split; [ discriminate | intros [ | ]; discriminate ] | ].
    intros req [= <-]. split; reflexivity.
Qed.

Lemma validation_fails_iff_weight_out_of_range_witness :
  (ProteinRequest_init 1500 (Some "lb") None None (Some 40) None = Raise ValidationError
   <-> (1500 <=? 0)%float = true \/ (1000 <? 1500)%float = true)
  /\ (forall req, ProteinRequest_init 1500 (Some "lb") None None (Some 40) None = Ok req ->
                  weight req = 1500%float /\ unit req = with_default "kg" (Some "lb")).
Proof.
  apply (validation_fails_iff_weight_out_of_range 1500 (Some "lb") None None
           (Some 40) None); reflexivity.
Defined.

(** C9: for every goal and each of the four archetypes of the table the
    adjusted split sums to exactly 100, and the two floors (carbs at
    30, fat at 20) never bind together. *)
Theorem split_always_sums_to_100 (goal nm tag : string) (base : Z * Z * Z) :
  In (nm, tag, base) archetypes ->
  split_sum (adjust_split (dict_get goal_adj goal 0) base) = 100
  /\ ~ (carbs_floor_binds goal base /\ fat_floor_binds goal base).
Proof.
  intros Hin. rewrite adjust_split_spec.
  unfold archetypes in Hin. cbn [In] in Hin.
  unfold spec_split, carbs_floor_binds, fat_floor_binds.
  destruct Hin as [H | [H | [H | [H | []]]]]; injection H as <- <- <-;
    destruct (String.eqb goal "fat_loss");
    (split; [ reflexivity | cbn; lia ]).
Qed.

Lemma split_always_sums_to_100_witness :
  split_sum (adjust_split (dict_get goal_adj "fat_loss" 0) (20, 60, 20)) = 100
  /\ ~ (carbs_floor_binds "fat_loss" (20, 60, 20)
        /\ fat_floor_binds "fat_loss" (20, 60, 20)).
Proof.
  apply (split_always_sums_to_100 "fat_loss" "Grand Tour Engine"
           "Endurance-first fuel for long days in the saddle." (20, 60, 20)).
  cbn [archetypes In]. do 3 right. left. reflexivity.
Defined.

(** C10: the four meal plans of a response all report the same protein
    grams, [round(target / 5.0) * 5] of the daily target, which is the
    nearest multiple of 5 and so at most 2 grams away from
    [daily_grams_target]. *)
Theorem plans_share_rounded_target (w : float) (u a g : option string) (age : option Z)
    (sex : option string) (req : ProteinRequest) :
  ProteinRequest_init w u a g age sex = Ok req ->
  exists resp,
    calculate_protein req = Ok resp
    /\ List.length (suggestions resp) = 4%nat
    /\ Forall (fun plan =>
                 _round5 (Int (daily_grams_target resp)) = Ok (protein_g (macros plan))
                 /\ protein_g (macros plan) = Py.rne_div (daily_grams_target resp) 5 * 5
                 /\ Z.abs (protein_g (macros plan) - daily_grams_target resp) <= 2)
              (suggestions resp).
Proof.
  intros Hinit. destruct (init_valid _ _ _ _ _ _ _ Hinit) as [Hv _].
  destruct (calculate_protein_ok req Hv)
    as (mn & mx & dmin & dmax & t & plans & rk & _ & _ & _ & _ & _ & Hshape & _ & Hcalc).
  eexists. split; [ exact Hcalc | ]. cbn [daily_grams_target suggestions]. split.
  - apply Forall2_length in Hshape. now rewrite <- Hshape.
  - apply (Forall2_Forall_r _ _ _ _ Hshape). intros arch plan Hplan.
    pose proof (plan_of_macros _ _ _ _ Hplan) as (_ & Hp & _).
    destruct arch as [[nm tag] pct]. unfold plan_of in Hplan.
    destruct (adjust_split _ pct) as [[p c] f].
    destruct Hplan as (total & gc & gf & kc & kf & kcal & _ & _ & _ & Hr & _).
    rewrite Hp. repeat split; [ exact Hr | ].
    pose proof (rne_div_near t 5 ltac:(lia)). lia.
Qed.

Lemma plans_share_rounded_target_witness :
  exists resp,
    calculate_protein
      {| weight := 80; unit := "kg"; activity := "low"; goal := "fat_loss";
         age := None; sex := None |} = Ok resp
    /\ List.length (suggestions resp) = 4%nat
    /\ Forall (fun plan =>
                 _round5 (Int (daily_grams_target resp)) = Ok (protein_g (macros plan))
                 /\ protein_g (macros plan) = Py.rne_div (daily_grams_target resp) 5 * 5
                 /\ Z.abs (protein_g (macros plan) - daily_grams_target resp) <= 2)
              (suggestions resp).
Proof.
  apply (plans_share_rounded_target 80 (Some "kg") (Some "low") (Some "fat_loss")
           None None).
  vm_compute. reflexivity.
Defined.

End Claims.

(** * Further properties of the code *)

(** ** The daily grams grow with the range and the weight *)

Section Monotone.

Lemma round_mul_mono (a1 w1 a2 w2 : float) (va1 vw1 va2 vw2 : Z) :
  fvalue a1 = Some va1 -> fvalue w1 = Some vw1 ->
  fvalue a2 = Some va2 -> fvalue w2 = Some vw2 ->
  0 <= va1 <= va2 -> 0 <= vw1 <= vw2 -> va2 * vw2 < 2 ^ (2 * scale + 972) ->
  exists z1 z2,
    Py.round (a1 * w1) = Ok z1 /\ Py.round (a2 * w2) = Ok z2 /\ 0 <= z1 <= z2.
Proof.
  intros Ha1 Hw1 Ha2 Hw2 Ha Hw Hb. pose proof scale_pos as HP.
  assert (Hle : va1 * vw1 <= va2 * vw2) by nia.
  rewrite (round_value _ _ (mul_value a1 w1 va1 vw1 Ha1 Hw1 ltac:(lia))).
  rewrite (round_value _ _ (mul_value a2 w2 va2 vw2 Ha2 Hw2 Hb)).
  do 2 eexists. split; [ reflexivity | ]. split; [ reflexivity | ].
  assert (H0 : 0 <= va1 * vw1 / 2 ^ scale) by (apply Z.div_pos; nia).
  split.
  - apply rne_div_nonneg; [ assumption | ]. now apply round64_nonneg.
  - apply rne_div_mono; [ assumption | ].
    apply round64_mono; [ assumption | ]. apply Z.div_le_mono; assumption.
Qed.

(** The value of the float in the middle of two floats. *)
Lemma mid_value (lo hi : float) (a c : Z) :
  fvalue lo = Some a -> fvalue hi = Some c -> 0 <= a <= c -> c < 2 ^ (scale + 970) ->
  exists mid, Py.fdiv (lo + hi) 2 = Ok mid
              /\ fvalue mid = Some (round_units (round64 (a + c)) 2).
Proof.
  intros Ha Hc Hac Hbound.
  assert (Hp : 2 ^ (scale + 972) = 4 * 2 ^ (scale + 970)).
  { replace (scale + 972) with (2 + (scale + 970)) by lia.
    now rewrite Z.pow_add_r by (unfold scale; lia). }
  assert (Hs : fvalue (lo + hi) = Some (round64 (a + c)))
    by (apply add_value; try assumption; lia).
  assert (Hhi : round64 (a + c) <= 2 * c).
  { rewrite <- (round64_twice hi c Hc). apply round64_mono; lia. }
  assert (H2 : fvalue 2 = Some (units 2 0)) by (vm_compute; reflexivity).
  pose proof scale_pos as HP.
  unfold Py.fdiv. rewrite (is_zero_value 2 _ H2) by (rewrite units_int; lia).
  eexists. split; [ reflexivity | ].
  rewrite <- (round_units_scale (round64 (a + c)) 2 (2 ^ scale)) by lia.
  change (2 * 2 ^ scale) with (units 2 0).
  apply div_value; try eassumption; rewrite units_int; try lia.
  assert (2 ^ (scale + 970) <= 2 ^ scale * 2 ^ 972).
  { rewrite <- Z.pow_add_r by (unfold scale; lia). apply Z.pow_le_mono_r; lia. }
  nia.
Qed.

Lemma leb_refl_value (x : float) (v : Z) : fvalue x = Some v -> (x <=? x)%float = true.
Proof. intros H. rewrite (leb_value x x v v H H). apply Z.leb_refl. Qed.

(** A larger range and a larger weight give daily grams that are no
    smaller. *)
Lemma daily_grams_mono (min1 max1 min2 max2 w1 w2 : float) :
  in_range min1 max1 = true -> in_range min2 max2 = true ->
  (min1 <=? min2)%float = true -> (max1 <=? max2)%float = true ->
  below w1 1000 -> below w2 1000 -> (w1 <=? w2)%float = true ->
  exists d1 D1 t1 d2 D2 t2,
    daily_grams min1 max1 w1 = Ok (d1, D1, t1)
    /\ daily_grams min2 max2 w2 = Ok (d2, D2, t2)
    /\ d1 <= d2 /\ t1 <= t2 /\ D1 <= D2.
Proof.
  unfold in_range. intros Hr1 Hr2 Hmin Hmax (vw1 & Hw1 & Hb1) (vw2 & Hw2 & Hb2) Hw.
  apply andb_prop in Hr1. destruct Hr1 as [Hr1 H13].
  apply andb_prop in Hr1. destruct Hr1 as [H11 H12].
  apply andb_prop in Hr2. destruct Hr2 as [Hr2 H23].
  apply andb_prop in Hr2. destruct Hr2 as [H21 H22].
  assert (H12c : fvalue 1.2 = Some (value_or_zero 1.2))
    by (apply fvalue_const; vm_compute; discriminate).
  assert (H27c : fvalue 2.7 = Some (value_or_zero 2.7))
    by (apply fvalue_const; vm_compute; discriminate).
  destruct (chain_values 1.2 2.7 min1 max1 _ _ H12c H27c H11 H12 H13)
    as (a1 & c1 & Ha1 & Hc1 & Hlo1 & Hac1 & Hhi1).
  destruct (chain_values 1.2 2.7 min2 max2 _ _ H12c H27c H21 H22 H23)
    as (a2 & c2 & Ha2 & Hc2 & Hlo2 & Hac2 & Hhi2).
  assert (Hlo0 : 0 <= value_or_zero 1.2) by (vm_compute; discriminate).
  assert (Hhi4 : value_or_zero 2.7 <= 4 * 2 ^ scale) by (vm_compute; discriminate).
  rewrite (leb_value _ _ _ _ Ha1 Ha2) in Hmin. apply Z.leb_le in Hmin.
  rewrite (leb_value _ _ _ _ Hc1 Hc2) in Hmax. apply Z.leb_le in Hmax.
  rewrite (leb_value _ _ _ _ Hw1 Hw2) in Hw. apply Z.leb_le in Hw.
  rewrite units_int in *. pose proof scale_pos as HP.
  assert (H970 : forall c, c <= value_or_zero 2.7 -> c < 2 ^ (scale + 970)).
  { intros c Hc. rewrite Z.pow_add_r by (unfold scale; lia).
    assert (2 ^ 3 <= 2 ^ 970) by (apply Z.pow_le_mono_r; lia).
    change (2 ^ 3) with 8 in *. nia. }
  destruct (mid_value min1 max1 a1 c1 Ha1 Hc1 ltac:(lia) (H970 _ Hhi1)) as (m1 & Hm1 & Hb1v).
  destruct (mid_value min2 max2 a2 c2 Ha2 Hc2 ltac:(lia) (H970 _ Hhi2)) as (m2 & Hm2 & Hb2v).
  destruct (mid_between min2 max2 a2 c2 Ha2 Hc2 ltac:(lia) (H970 _ Hhi2))
    as (m2' & b2 & Hm2' & Hb2' & Hab2).
  rewrite Hm2 in Hm2'. injection Hm2' as <-.
  rewrite Hb2v in Hb2'. apply some_inj in Hb2'. subst b2.
  assert (Hmid : 0 <= round_units (round64 (a1 + c1)) 2 <= round_units (round64 (a2 + c2)) 2).
  { split.
    - apply round_units_nonneg; [ lia | ]. apply round64_nonneg. lia.
    - apply round_units_mono; [ lia | apply round64_nonneg; lia | ].
      apply round64_mono; lia. }
  assert (Hbound : forall c, c <= value_or_zero 2.7 -> c * vw2 < 2 ^ (2 * scale + 972)).
  { intros c Hc. replace (2 * scale + 972) with (972 + scale + scale) by lia.
    rewrite !Z.pow_add_r by (unfold scale; lia).
    assert (2 ^ 12 <= 2 ^ 972) by (apply Z.pow_le_mono_r; lia).
    change (2 ^ 12) with 4096 in *. nia. }
  destruct (round_mul_mono min1 w1 min2 w2 a1 vw1 a2 vw2 Ha1 Hw1 Ha2 Hw2
              ltac:(lia) ltac:(lia) (Hbound a2 ltac:(lia)))
    as (d1 & d2 & Hd1 & Hd2 & Hd).
  destruct (round_mul_mono max1 w1 max2 w2 c1 vw1 c2 vw2 Hc1 Hw1 Hc2 Hw2
              ltac:(lia) ltac:(lia) (Hbound c2 ltac:(lia)))
    as (D1 & D2 & HD1 & HD2 & HD).
  destruct (round_mul_mono m1 w1 m2 w2 _ vw1 _ vw2 Hb1v Hw1 Hb2v Hw2
              Hmid ltac:(lia) (Hbound (round_units (round64 (a2 + c2)) 2) ltac:(lia)))
    as (t1 & t2 & Ht1 & Ht2 & Ht).
  exists d1, D1, t1, d2, D2, t2. unfold daily_grams.
  rewrite Hd1, HD1, Hd2, HD2, Hm1, Hm2. cbn [bind]. rewrite Ht1, Ht2. cbn [bind].
  repeat split; lia.
Qed.

Lemma ranges_ordered_eq : ranges_ordered = true.
Proof. vm_compute. reflexivity. Qed.

End Monotone.

Section Responses.

Lemma weight_value (req : ProteinRequest) :
  valid_request req -> exists v, fvalue (weight req) = Some v /\ 0 < v <= units 1000 0.
Proof.
  intros (Hw & _). destruct (weight_field_value _ _ Hw) as (_ & H). exact H.
Qed.

Lemma lb_value : exists vc, fvalue 0.45359237 = Some vc /\ 0 <= vc <= 2 ^ scale.
Proof.
  exists (value_or_zero 0.45359237). split; [ apply fvalue_const; vm_compute; discriminate | ].
  split; vm_compute; discriminate.
Qed.

(** The weight in kilograms grows with the weight, for one unit. *)
Lemma to_kg_mono (req1 req2 : ProteinRequest) :
  valid_request req1 -> valid_request req2 -> unit req1 = unit req2 ->
  (weight req1 <=? weight req2)%float = true ->
  (to_kg req1 <=? to_kg req2)%float = true.
Proof.
  intros Hv1 Hv2 Hu Hle. unfold to_kg. rewrite Hu.
  destruct (String.eqb (unit req2) "kg"); [ assumption | ].
  destruct (weight_value req1 Hv1) as (v1 & Hw1 & Hb1).
  destruct (weight_value req2 Hv2) as (v2 & Hw2 & Hb2).
  destruct lb_value as (vc & Hc & Hvc).
  rewrite (leb_value _ _ _ _ Hw1 Hw2) in Hle. apply Z.leb_le in Hle.
  rewrite units_int in *. pose proof scale_pos as HP.
  assert (Hbound : forall v, 0 <= v <= 1000 * 2 ^ scale -> v * vc < 2 ^ (2 * scale + 972)).
  { intros v Hv. replace (2 * scale + 972) with (972 + scale + scale) by lia.
    rewrite !Z.pow_add_r by (unfold scale; lia).
    assert (2 ^ 10 <= 2 ^ 972) by (apply Z.pow_le_mono_r; lia).
    change (2 ^ 10) with 1024 in *. nia. }
  rewrite (leb_value _ _ _ _ (mul_value _ _ _ _ Hw1 Hc (Hbound v1 ltac:(lia)))
                             (mul_value _ _ _ _ Hw2 Hc (Hbound v2 ltac:(lia)))).
  apply Z.leb_le. apply round64_mono; [ apply Z.div_pos; nia | ].
  apply Z.div_le_mono; nia.
Qed.

(** A weight in pounds is no more kilograms than the number given. *)
Lemma lb_le_kg (w : float) (v : Z) :
  fvalue w = Some v -> 0 <= v <= units 1000 0 ->
  (w * 0.45359237 <=? w)%float = true.
Proof.
  intros Hw Hb. destruct lb_value as (vc & Hc & Hvc).
  rewrite units_int in *. pose proof scale_pos as HP.
  assert (Hbound : v * vc < 2 ^ (2 * scale + 972)).
  { replace (2 * scale + 972) with (972 + scale + scale) by lia.
    rewrite !Z.pow_add_r by (unfold scale; lia).
    assert (2 ^ 10 <= 2 ^ 972) by (apply Z.pow_le_mono_r; lia).
    change (2 ^ 10) with 1024 in *. nia. }
  rewrite (leb_value _ _ _ _ (mul_value _ _ _ _ Hw Hc Hbound) Hw).
  apply Z.leb_le. rewrite <- (round64_value w v Hw) at 2.
  apply round64_mono; [ apply Z.div_pos; nia | ].
  apply Z.div_le_upper_bound; [ assumption | nia ].
Qed.

(** A larger range on a larger weight in kilograms gives a response with
    daily grams that are no smaller. *)
Lemma response_mono (req1 req2 : ProteinRequest) :
  valid_request req1 -> valid_request req2 ->
  range_leb (gkg_range (activity req1) (goal req1))
            (gkg_range (activity req2) (goal req2)) = true ->
  (to_kg req1 <=? to_kg req2)%float = true ->
  exists resp1 resp2,
    calculate_protein req1 = Ok resp1 /\ calculate_protein req2 = Ok resp2
    /\ daily_grams_min resp1 <= daily_grams_min resp2
    /\ daily_grams_target resp1 <= daily_grams_target resp2
    /\ daily_grams_max resp1 <= daily_grams_max resp2.
Proof.
  intros Hv1 Hv2 Hr Hw.
  destruct (calculate_protein_ok req1 Hv1)
    as (mn1 & mx1 & d1 & D1 & t1 & pl1 & rk1 & Hg1 & Hin1 & Hd1 & _ & _ & _ & _ & Hc1).
  destruct (calculate_protein_ok req2 Hv2)
    as (mn2 & mx2 & d2 & D2 & t2 & pl2 & rk2 & Hg2 & Hin2 & Hd2 & _ & _ & _ & _ & Hc2).
  rewrite Hg1, Hg2 in Hr. cbn [range_leb] in Hr.
  apply andb_prop in Hr. destruct Hr as [Hmn Hmx].
  destruct (daily_grams_mono mn1 mx1 mn2 mx2 _ _ Hin1 Hin2 Hmn Hmx
              (to_kg_below req1 Hv1) (to_kg_below req2 Hv2) Hw)
    as (e1 & E1 & s1 & e2 & E2 & s2 & He1 & He2 & Hle).
  rewrite Hd1 in He1. rewrite Hd2 in He2.
  injection He1 as <- <- <-. injection He2 as <- <- <-.
  do 2 eexists. split; [ exact Hc1 | ]. split; [ exact Hc2 | ].
  cbn [daily_grams_min daily_grams_target daily_grams_max]. exact Hle.
Qed.

Lemma range_leb_refl (activity goal : string) :
  In activity ["low"; "moderate"; "high"] ->
  In goal ["fat_loss"; "maintenance"; "muscle_gain"] ->
  range_leb (gkg_range activity goal) (gkg_range activity goal) = true.
Proof.
  cbn [In]. intros [<- | [<- | [<- | []]]] [<- | [<- | [<- | []]]];
    vm_compute; reflexivity.
Qed.

Lemma range_leb_rank (a1 a2 g1 g2 : string) :
  In a1 ["low"; "moderate"; "high"] -> In a2 ["low"; "moderate"; "high"] ->
  In g1 ["fat_loss"; "maintenance"; "muscle_gain"] ->
  In g2 ["fat_loss"; "maintenance"; "muscle_gain"] ->
  activity_rank a1 <= activity_rank a2 -> goal_rank g1 <= goal_rank g2 ->
  range_leb (gkg_range a1 g1) (gkg_range a2 g2) = true.
Proof.
  intros Ha1 Ha2 Hg1 Hg2 Hra Hrg.
  pose proof ranges_ordered_eq as H. unfold ranges_ordered in H.
  rewrite forallb_forall in H. specialize (H a1 Ha1).
  rewrite forallb_forall in H. specialize (H a2 Ha2).
  rewrite forallb_forall in H. specialize (H g1 Hg1).
  rewrite forallb_forall in H. specialize (H g2 Hg2).
  apply Z.leb_le in Hra, Hrg. rewrite Hra, Hrg in H. exact H.
Qed.

End Responses.

(** ** The target against the middle of the two bounds *)

Section Middle.

(** The rounding to a double of a value below 4096 moves it by at most
    [2^-42]. *)
Lemma round64_near (x : Z) :
  0 <= x < 2 ^ (scale + 12) -> 2 * Z.abs (round64 x - x) <= 2 ^ (scale - 41).
Proof.
  intros Hx. unfold round64, round_units. rewrite Z.div_1_r, Z.mul_1_l.
  set (l := last_place x).
  assert (Hl : 1074 <= l <= scale - 41).
  { unfold l, last_place. split; [ unfold scale; lia | ].
    destruct (Z.eq_dec x 0) as [-> | Hx0]; [ simpl Z.log2; unfold scale; lia | ].
    assert (Z.log2 x < scale + 12) by (apply Z.log2_lt_pow2; lia).
    unfold scale in *. lia. }
  pose proof (rne_div_near x (2 ^ l) (pow2_pos l ltac:(lia))) as Hn.
  assert (2 ^ l <= 2 ^ (scale - 41)) by (apply Z.pow_le_mono_r; lia).
  lia.
Qed.

(** Halving a double below 16 moves it by at most [2^-42]. *)
Lemma half_near (r : Z) :
  0 <= r < 2 ^ (scale + 4) -> Z.abs (2 * round_units r 2 - r) <= 2 ^ (scale - 41).
Proof.
  intros Hr. unfold round_units.
  set (l := last_place (r / 2)).
  assert (Hl : 1074 <= l <= scale - 41).
  { unfold l, last_place. split; [ unfold scale; lia | ].
    assert (Hh : 0 <= r / 2 < 2 ^ (scale + 4))
      by (split; [ apply Z.div_pos; lia | apply Z.div_lt_upper_bound; lia ]).
    destruct (Z.eq_dec (r / 2) 0) as [-> | Hx0]; [ simpl Z.log2; unfold scale; lia | ].
    assert (Z.log2 (r / 2) < scale + 4) by (apply Z.log2_lt_pow2; lia).
    unfold scale in *. lia. }
  pose proof (pow2_pos l ltac:(lia)) as Hp.
  pose proof (rne_div_near r (2 * 2 ^ l) ltac:(lia)) as Hn.
  assert (2 ^ l <= 2 ^ (scale - 41)) by (apply Z.pow_le_mono_r; lia).
  lia.
Qed.

Lemma scaled_bound (x vw e S : Z) :
  0 <= vw <= 1000 * S -> - (3 * e) <= x <= 3 * e -> 0 <= e ->
  - (3 * e * (1000 * S)) <= x * vw <= 3 * e * (1000 * S).
Proof.
  intros Hvw Hx He.
  assert (H1 : 3 * e * vw <= 3 * e * (1000 * S)) by (apply Z.mul_le_mono_nonneg_l; lia).
  assert (H2 : x * vw <= 3 * e * vw) by (apply Z.mul_le_mono_nonneg_r; lia).
  assert (H3 : - (3 * e) * vw <= x * vw) by (apply Z.mul_le_mono_nonneg_r; lia).
  lia.
Qed.

(** The daily grams as roundings of the values. *)
Lemma daily_grams_values (min_gkg max_gkg w : float) :
  in_range min_gkg max_gkg = true -> below w 1000 ->
  exists a c vw,
    0 <= a /\ a <= c /\ c <= 4 * 2 ^ scale /\ 0 <= vw <= 1000 * 2 ^ scale
    /\ daily_grams min_gkg max_gkg w =
       Ok (Py.rne_div (round64 (a * vw / 2 ^ scale)) (2 ^ scale),
           Py.rne_div (round64 (c * vw / 2 ^ scale)) (2 ^ scale),
           Py.rne_div (round64 (round_units (round64 (a + c)) 2 * vw / 2 ^ scale))
                      (2 ^ scale))
    /\ a <= round_units (round64 (a + c)) 2 <= c.
Proof.
  unfold in_range, daily_grams. intros Hr (vw & Hw & Hvw).
  apply andb_prop in Hr. destruct Hr as [Hr H3].
  apply andb_prop in Hr. destruct Hr as [H1 H2].
  assert (H12 : fvalue 1.2 = Some (value_or_zero 1.2))
    by (apply fvalue_const; vm_compute; discriminate).
  assert (H27 : fvalue 2.7 = Some (value_or_zero 2.7))
    by (apply fvalue_const; vm_compute; discriminate).
  destruct (chain_values 1.2 2.7 min_gkg max_gkg _ _ H12 H27 H1 H2 H3)
    as (a & c & Ha & Hc & Hlo & Hac & Hhi).
  assert (Hlo0 : 0 <= value_or_zero 1.2) by (vm_compute; discriminate).
  assert (Hhi4 : value_or_zero 2.7 <= 4 * 2 ^ scale) by (vm_compute; discriminate).
  rewrite units_int in *. pose proof scale_pos as HP.
  assert (Hc970 : c < 2 ^ (scale + 970)).
  { rewrite Z.pow_add_r by (unfold scale; lia).
    assert (2 ^ 3 <= 2 ^ 970) by (apply Z.pow_le_mono_r; lia).
    change (2 ^ 3) with 8 in *. nia. }
  destruct (mid_value min_gkg max_gkg a c Ha Hc ltac:(lia) Hc970) as (mid & Hmid & Hb).
  destruct (mid_between min_gkg max_gkg a c Ha Hc ltac:(lia) Hc970)
    as (mid' & b & Hmid' & Hb' & Hab).
  rewrite Hmid in Hmid'. injection Hmid' as <-.
  rewrite Hb in Hb'. apply some_inj in Hb'. subst b.
  assert (Hbound : forall x, 0 <= x <= c -> x * vw < 2 ^ (2 * scale + 972)).
  { intros x Hx. replace (2 * scale + 972) with (972 + scale + scale) by lia.
    rewrite !Z.pow_add_r by (unfold scale; lia).
    assert (2 ^ 12 <= 2 ^ 972) by (apply Z.pow_le_mono_r; lia).
    change (2 ^ 12) with 4096 in *. nia. }
  exists a, c, vw.
  rewrite (round_value _ _ (mul_value _ _ _ _ Ha Hw (Hbound a ltac:(lia)))). cbn [bind].
  rewrite (round_value _ _ (mul_value _ _ _ _ Hc Hw (Hbound c ltac:(lia)))). cbn [bind].
  rewrite Hmid. cbn [bind].
  rewrite (round_value _ _ (mul_value _ _ _ _ Hb Hw (Hbound (round_units (round64 (a + c)) 2) ltac:(lia)))). cbn [bind].
  repeat split; try reflexivity; lia.
Qed.

Lemma abs_le_2 (x y : Z) : 2 * Z.abs x <= y -> - y <= 2 * x <= y.
Proof. intros H. pose proof (Z.abs_spec x). lia. Qed.

Lemma div_floor (n d : Z) : 0 < d -> d * (n / d) <= n < d * (n / d) + d.
Proof.
  intros Hd. pose proof (Z.mul_div_le n d Hd). pose proof (Z.mul_succ_div_gt n d Hd). lia.
Qed.

(** The arithmetic of the three roundings: the products [a * vw],
    [b * vw] and [c * vw] with [b] next to the middle of [a] and [c],
    rounded down to [A], [B], [C], then to the doubles [rA], [rB], [rC],
    then to the integers [d], [t], [D]. *)
Lemma middle_arith (S e a b c vw A B C rA rB rC d D t : Z) :
  0 < e -> S = 2199023255552 * e -> 0 <= vw <= 1000 * S ->
  - (3 * e) <= 2 * (2 * b - (a + c)) <= 3 * e ->
  S * A <= a * vw < S * A + S ->
  S * B <= b * vw < S * B + S ->
  S * C <= c * vw < S * C + S ->
  - e <= 2 * (rA - A) <= e -> - e <= 2 * (rB - B) <= e -> - e <= 2 * (rC - C) <= e ->
  - S <= 2 * (d * S - rA) <= S -> - S <= 2 * (D * S - rC) <= S ->
  - S <= 2 * (t * S - rB) <= S ->
  Z.abs (2 * t - (d + D)) <= 2.
Proof.
  intros He HS Hvw Hmid HA HB HC HrA HrB HrC Hd HD Ht.
  assert (HP : 0 < S) by lia.
  pose proof (scaled_bound _ vw e S Hvw Hmid ltac:(lia)) as Hprod.
  assert (HABC : - (3000 * e + 4) * S <= 2 * (2 * B - A - C) * S <= (3000 * e + 4) * S).
  { clear HrA HrB HrC Hd HD Ht Hmid Hvw HS. lia. }
  assert (HABC' : - (3000 * e + 4) <= 2 * (2 * B - A - C) <= 3000 * e + 4).
  { clear - HABC HP. split; apply (Z.mul_le_mono_pos_r _ _ S HP); lia. }
  clear HABC Hprod HA HB HC Hmid Hvw.
  assert (Hz : - (6 * S) < 2 * ((2 * t - (d + D)) * S) < 6 * S) by lia.
  clear - Hz HP.
  destruct (Z_le_gt_dec 3 (2 * t - (d + D))) as [Hge | Hlt].
  - assert (3 * S <= (2 * t - (d + D)) * S) by (apply Z.mul_le_mono_nonneg_r; lia). lia.
  - destruct (Z_le_gt_dec (2 * t - (d + D)) (-3)) as [Hle | Hgt]; [ | lia ].
    assert ((2 * t - (d + D)) * S <= -3 * S) by (apply Z.mul_le_mono_nonneg_r; lia). lia.
Qed.

(** The target is within one gram of the middle of the two bounds. *)
Lemma target_near_middle (min_gkg max_gkg w : float) (daily_min daily_max target : Z) :
  in_range min_gkg max_gkg = true -> below w 1000 ->
  daily_grams min_gkg max_gkg w = Ok (daily_min, daily_max, target) ->
  Z.abs (2 * target - (daily_min + daily_max)) <= 2.
Proof.
  intros Hin Hw Hd.
  destruct (daily_grams_values _ _ _ Hin Hw) as (a & c & vw & Ha & Hac & Hc & Hvw & Heq & Hb).
  pose proof scale_pos as HP.
  assert (HS : 2 ^ scale = 2199023255552 * 2 ^ (scale - 41)).
  { change 2199023255552 with (2 ^ 41).
    rewrite <- Z.pow_add_r by (unfold scale; lia). f_equal; lia. }
  assert (He : 0 < 2 ^ (scale - 41)) by (apply pow2_pos; unfold scale; lia).
  assert (H12 : 2 ^ (scale + 12) = 4096 * 2 ^ scale).
  { rewrite Z.pow_add_r by (unfold scale; lia). change (2 ^ 12) with 4096. lia. }
  assert (H4 : 2 ^ (scale + 4) = 16 * 2 ^ scale).
  { rewrite Z.pow_add_r by (unfold scale; lia). change (2 ^ 4) with 16. lia. }
  assert (Hsmall : forall x, 0 <= x <= c -> 0 <= x * vw / 2 ^ scale < 2 ^ (scale + 12)).
  { intros x Hx. split.
    - apply Z.div_pos; [ apply Z.mul_nonneg_nonneg; lia | assumption ].
    - apply Z.div_lt_upper_bound; [ assumption | ].
      apply Z.le_lt_trans with (4 * 2 ^ scale * (1000 * 2 ^ scale)).
      + apply Z.mul_le_mono_nonneg; lia.
      + rewrite H12. clear - HP. nia. }
  set (b := round_units (round64 (a + c)) 2) in *.
  pose proof (Hsmall a ltac:(lia)) as HA0.
  pose proof (Hsmall b ltac:(lia)) as HB0.
  pose proof (Hsmall c ltac:(lia)) as HC0.
  assert (Hr : - 2 ^ (scale - 41) <= 2 * (round64 (a + c) - (a + c)) <= 2 ^ (scale - 41)).
  { apply abs_le_2, round64_near. lia. }
  assert (Hh : Z.abs (2 * b - round64 (a + c)) <= 2 ^ (scale - 41)).
  { apply half_near. split; [ apply round64_nonneg; lia | lia ]. }
  assert (Hmid : - (3 * 2 ^ (scale - 41)) <= 2 * (2 * b - (a + c)) <= 3 * 2 ^ (scale - 41)).
  { clear - Hr Hh. pose proof (Z.abs_spec (2 * b - round64 (a + c))). lia. }
  assert (Hgoal :
    Z.abs (2 * Py.rne_div (round64 (b * vw / 2 ^ scale)) (2 ^ scale)
           - (Py.rne_div (round64 (a * vw / 2 ^ scale)) (2 ^ scale)
              + Py.rne_div (round64 (c * vw / 2 ^ scale)) (2 ^ scale))) <= 2).
  { exact (middle_arith (2 ^ scale) (2 ^ (scale - 41)) a b c vw
             (a * vw / 2 ^ scale) (b * vw / 2 ^ scale) (c * vw / 2 ^ scale)
             (round64 (a * vw / 2 ^ scale)) (round64 (b * vw / 2 ^ scale))
             (round64 (c * vw / 2 ^ scale)) _ _ _
             He HS Hvw Hmid
             (div_floor _ _ HP) (div_floor _ _ HP) (div_floor _ _ HP)
             (abs_le_2 _ _ (round64_near _ HA0)) (abs_le_2 _ _ (round64_near _ HB0))
             (abs_le_2 _ _ (round64_near _ HC0))
             (abs_le_2 _ _ (rne_div_near _ _ HP)) (abs_le_2 _ _ (rne_div_near _ _ HP))
             (abs_le_2 _ _ (rne_div_near _ _ HP))). }
  rewrite Heq in Hd. injection Hd as <- <- <-. exact Hgoal.
Qed.

End Middle.

(** ** The quick evaluation of the plans *)

Section Fast.

Lemma rne_shift_spec (n k : Z) : 0 <= k -> rne_shift n k = Py.rne_div n (2 ^ k).
Proof.
  intros Hk. unfold rne_shift, Py.rne_div.
  rewrite Z.shiftr_div_pow2, Z.land_ones, Z.shiftl_mul_pow2, Z.mul_1_l by assumption.
  reflexivity.
Qed.

Lemma round_fast_eq (x : float) : Py.round x = round_fast x.
Proof.
  unfold Py.round, round_fast.
  destruct (Prim2SF x) as [s | s | | s m e]; try reflexivity.
  do 2 f_equal. unfold Py.num_of, Py.den_of.
  destruct (Z.leb_spec 0 e) as [He | He].
  - unfold Py.rne_div. rewrite Z.mod_1_r, Z.div_1_r. reflexivity.
  - symmetry. apply rne_shift_spec. lia.
Qed.

Lemma int_fast_eq (n : Z) : 0 <= n < 2 ^ 63 -> Py.float_of_int n = int_fast n.
Proof.
  intros Hn. unfold Py.float_of_int, int_fast.
  replace (SF2Prim (binary_normalize prec emax n 0 false))
    with (of_uint63 (Uint63.of_Z n)); [ reflexivity | ].
  rewrite <- (SF2Prim_Prim2SF (of_uint63 (Uint63.of_Z n))).
  rewrite of_uint63_spec, Uint63.of_Z_spec.
  rewrite Z.mod_small; [ reflexivity | ].
  exact Hn.
Qed.

Lemma round5_fast_eq (x : number) :
  match x with Int n => 0 <= n < 2 ^ 63 | Float _ => True end ->
  _round5 x = round5_fast x.
Proof.
  intros Hx. unfold _round5, round5_fast.
  assert (Ha : as_float x = match x with Int n => int_fast n | Float x => Ok x end).
  { destruct x as [n | y]; [ now apply int_fast_eq | reflexivity ]. }
  rewrite Ha. destruct (match x with Int n => int_fast n | Float x => Ok x end); [ | reflexivity ].
  cbn [bind]. destruct (Py.fdiv a 5); [ | reflexivity ]. cbn [bind].
  now rewrite round_fast_eq.
Qed.

Lemma total_kcal_fast_eq (p t : Z) :
  0 <= p < 2 ^ 63 -> 0 <= t < 2 ^ 63 -> total_kcal_of p t = total_kcal_fast p t.
Proof.
  intros Hp Ht. unfold total_kcal_of, total_kcal_fast.
  now rewrite (int_fast_eq t Ht), (int_fast_eq p Hp).
Qed.

Lemma grams_fast_eq (total : float) (c : Z) (k : float) :
  0 <= c < 2 ^ 63 -> grams_of total c k = grams_fast total c k.
Proof.
  intros Hc. unfold grams_of, grams_fast. now rewrite (int_fast_eq c Hc).
Qed.

(** The numbers of a plan are those of the quick evaluation. *)
Lemma make_plan_numbers (nm tag : string) (p c f t : Z) (plan : MealSuggestion) :
  0 <= p < 2 ^ 63 -> 0 <= c < 2 ^ 63 -> 0 <= f < 2 ^ 63 -> 0 <= t < 2 ^ 63 ->
  _make_plan nm tag (p, c, f) t = Ok plan ->
  plan_numbers (p, c, f) t =
  Ok (protein_g (macros plan), carbs_g (macros plan), fats_g (macros plan),
      calories (macros plan)).
Proof.
  intros Hp Hc Hf Ht. unfold _make_plan, plan_numbers.
  rewrite (total_kcal_fast_eq p t Hp Ht).
  destruct (total_kcal_fast p t) as [total | ]; [ | discriminate ]. cbn [bind].
  rewrite (grams_fast_eq total c 4 Hc).
  destruct (grams_fast total c 4) as [gc | ]; [ | discriminate ]. cbn [bind].
  rewrite (grams_fast_eq total f 9 Hf).
  destruct (grams_fast total f 9) as [gf | ]; [ | discriminate ]. cbn [bind].
  rewrite (round5_fast_eq (Int t) Ht).
  destruct (round5_fast (Int t)) as [rp | ]; [ | discriminate ]. cbn [bind].
  rewrite (round5_fast_eq (Float gc) I).
  destruct (round5_fast (Float gc)) as [rc | ]; [ | discriminate ]. cbn [bind].
  rewrite (round5_fast_eq (Float gf) I).
  destruct (round5_fast (Float gf)) as [rf | ]; [ | discriminate ]. cbn [bind].
  rewrite round_fast_eq.
  destruct (round_fast total) as [kcal | ]; [ | discriminate ]. cbn [bind].
  intros [= <-]. reflexivity.
Qed.

End Fast.

Section Scan.

Lemma numbers_leb_le (n1 n2 : Z * Z * Z * Z) : numbers_leb n1 n2 = true -> numbers_le n1 n2.
Proof.
  destruct n1 as [[[P1 C1] F1] K1], n2 as [[[P2 C2] F2] K2]. cbn [numbers_leb numbers_le].
  rewrite !andb_true_iff, !Z.leb_le. tauto.
Qed.

Lemma numbers_le_refl (n : Z * Z * Z * Z) : numbers_le n n.
Proof. destruct n as [[[P C] F] K]. cbn. lia. Qed.

Lemma numbers_le_trans (n1 n2 n3 : Z * Z * Z * Z) :
  numbers_le n1 n2 -> numbers_le n2 n3 -> numbers_le n1 n3.
Proof.
  destruct n1 as [[[P1 C1] F1] K1], n2 as [[[P2 C2] F2] K2], n3 as [[[P3 C3] F3] K3].
  cbn. lia.
Qed.

Lemma scan_spec (n : nat) (pct : Z * Z * Z) :
  forall t0 prev, scan n pct t0 prev = true ->
  forall t1 t2, t0 <= t1 -> t1 <= t2 -> t2 < t0 + Z.of_nat n ->
  exists n1 n2,
    plan_numbers pct t1 = Ok n1 /\ plan_numbers pct t2 = Ok n2
    /\ numbers_ok pct t1 n1 = true /\ numbers_le prev n1 /\ numbers_le n1 n2.
Proof.
  induction n as [ | n IH ]; intros t0 prev H t1 t2 H01 H12 H2; [ lia | ].
  cbn [scan] in H.
  destruct (plan_numbers pct t0) as [cur | ] eqn:Hcur; [ | discriminate ].
  apply andb_prop in H. destruct H as [H Hrest].
  apply andb_prop in H. destruct H as [Hok Hle]. apply numbers_leb_le in Hle.
  destruct (Z.eq_dec t1 t0) as [-> | Hne1].
  - destruct (Z.eq_dec t2 t0) as [-> | Hne2].
    + exists cur, cur. repeat split; try assumption. apply numbers_le_refl.
    + destruct (IH (t0 + 1) cur Hrest t2 t2 ltac:(lia) ltac:(lia) ltac:(lia))
        as (n2 & n2' & H2' & _ & _ & Hc2 & _).
      exists cur, n2. repeat split; assumption.
  - destruct (IH (t0 + 1) cur Hrest t1 t2 ltac:(lia) ltac:(lia) ltac:(lia))
      as (n1 & n2 & H1' & H2' & Hok1 & Hc1 & H12').
    exists n1, n2. repeat split; try assumption.
    now apply numbers_le_trans with cur.
Qed.

Lemma scan_all : forallb (fun pct => scan 2701 pct 0 (0, 0, 0, 0)) adjusted_splits = true.
Proof. vm_compute. reflexivity. Qed.

Lemma split_eqb_eq (x y : Z * Z * Z) : split_eqb x y = true -> x = y.
Proof.
  destruct x as [[p1 c1] f1], y as [[p2 c2] f2]. cbn [split_eqb].
  rewrite !andb_true_iff, !Z.eqb_eq. intros [[-> ->] ->]. reflexivity.
Qed.

Lemma adjusted_split_listed (goal : string) (a : string * string * (Z * Z * Z)) :
  In a archetypes ->
  In (adjust_split (dict_get goal_adj goal 0) (snd a)) adjusted_splits.
Proof.
  intros Hin.
  assert (H : forall b, b = 5 \/ b = 0 ->
              forallb (fun a => existsb (split_eqb (adjust_split b (snd a))) adjusted_splits)
                      archetypes = true).
  { intros b [-> | ->]; vm_compute; reflexivity. }
  specialize (H _ (p_bump_cases goal)).
  rewrite forallb_forall in H. specialize (H a Hin).
  apply existsb_exists in H. destruct H as (s & Hs & Heq).
  apply split_eqb_eq in Heq. now rewrite Heq.
Qed.

(** The numbers of the plans of all targets up to 2700. *)
Lemma plans_scanned (pct : Z * Z * Z) (t1 t2 : Z) :
  In pct adjusted_splits -> 0 <= t1 -> t1 <= t2 -> t2 <= 2700 ->
  exists n1 n2,
    plan_numbers pct t1 = Ok n1 /\ plan_numbers pct t2 = Ok n2
    /\ numbers_ok pct t1 n1 = true /\ numbers_le (0, 0, 0, 0) n1 /\ numbers_le n1 n2.
Proof.
  intros Hin H0 H12 H2. pose proof scan_all as H.
  rewrite forallb_forall in H. specialize (H pct Hin).
  apply (scan_spec 2701 pct 0 _ H); lia.
Qed.

End Scan.

Section ResponsePlans.

Lemma mapM_inv {A B : Type} (f : A -> result B) (l : list A) (bs : list B) :
  mapM f l = Ok bs -> Forall2 (fun a b => f a = Ok b) l bs.
Proof.
  revert bs. induction l as [ | a l IH ]; intros bs; cbn [mapM].
  - intros [= <-]. constructor.
  - destruct (f a) as [b | ] eqn:Hb; [ | discriminate ]. cbn [bind].
    destruct (mapM f l) as [bs' | ]; [ | discriminate ]. cbn [bind].
    intros [= <-]. constructor; [ assumption | now apply IH ].
Qed.

Lemma Forall2_impl_In {A B : Type} (P Q : A -> B -> Prop) (l : list A) (l' : list B) :
  Forall2 P l l' -> (forall a b, In a l -> P a b -> Q a b) -> Forall2 Q l l'.
Proof.
  intros H. induction H as [ | a b l l' Hab H IH ]; intros HPQ; constructor.
  - apply HPQ; [ now left | assumption ].
  - apply IH. intros a' b' Hin. apply HPQ. now right.
Qed.

Lemma Forall2_zip {A B : Type} (P Q : A -> B -> Prop) (R : B -> B -> Prop)
    (l : list A) (l1 l2 : list B) :
  Forall2 P l l1 -> Forall2 Q l l2 ->
  (forall a b1 b2, P a b1 -> Q a b2 -> R b1 b2) -> Forall2 R l1 l2.
Proof.
  intros H1. revert l2. induction H1 as [ | a b1 l l1 Hab H1 IH ]; intros l2 H2 HR.
  - inversion H2. constructor.
  - inversion H2 as [ | a' b2 l' l2' Hab2 H2' ]; subst. constructor.
    + now apply (HR a).
    + now apply IH.
Qed.

(** The fields that [_make_plan] copies into the plan. *)
Lemma make_plan_fields (nm tag : string) (pct : Z * Z * Z) (t : Z) (plan : MealSuggestion) :
  _make_plan nm tag pct t = Ok plan ->
  name plan = nm /\ tagline plan = tag
  /\ split_percent (macros plan) =
     (let '(p, c, f) := pct in [("protein", p); ("carbs", c); ("fats", f)])
  /\ sample_meals plan = dict_get base_meals nm default_meals.
Proof.
  destruct pct as [[p c] f]. unfold _make_plan.
  destruct (total_kcal_of p t) as [total | ]; [ | discriminate ]. cbn [bind].
  destruct (grams_of total c 4) as [gc | ]; [ | discriminate ]. cbn [bind].
  destruct (grams_of total f 9) as [gf | ]; [ | discriminate ]. cbn [bind].
  destruct (_round5 (Int t)) as [rp | ]; [ | discriminate ]. cbn [bind].
  destruct (_round5 (Float gc)) as [rc | ]; [ | discriminate ]. cbn [bind].
  destruct (_round5 (Float gf)) as [rf | ]; [ | discriminate ]. cbn [bind].
  destruct (Py.round total) as [kcal | ]; [ | discriminate ]. cbn [bind].
  intros [= <-]. repeat split.
Qed.

Lemma listed_split_small (pct : Z * Z * Z) :
  In pct adjusted_splits ->
  let '(p, c, f) := pct in
  (0 < p < 2 ^ 63) /\ (0 <= c < 2 ^ 63) /\ (0 <= f < 2 ^ 63).
Proof.
  unfold adjusted_splits. cbn [In].
  intros [<- | [<- | [<- | [<- | [<- | [<- | [<- | []]]]]]]]; cbn; lia.
Qed.

(** The response to a valid request, with its plans. *)
Lemma response_plans (req : ProteinRequest) :
  valid_request req ->
  exists resp,
    calculate_protein req = Ok resp
    /\ 0 <= daily_grams_target resp <= 2700
    /\ Forall2 (plan_for (dict_get goal_adj (goal req) 0) (daily_grams_target resp))
               archetypes (suggestions resp).
Proof.
  intros Hv.
  destruct (calculate_protein_ok req Hv)
    as (mn & mx & dmin & dmax & t & plans & rk & _ & _ & _ & Hb & Hplans & _ & _ & Hcalc).
  eexists. split; [ exact Hcalc | ]. cbn [daily_grams_target suggestions].
  split; [ lia | ].
  unfold make_suggestions in Hplans. apply mapM_inv in Hplans.
  apply (Forall2_impl_In _ _ _ _ Hplans). intros [[nm tag] base] plan Hin Hplan.
  pose proof (adjusted_split_listed (goal req) _ Hin) as Hl. cbn [snd] in Hl.
  pose proof (listed_split_small _ Hl) as Hs.
  unfold plan_for.
  destruct (adjust_split (dict_get goal_adj (goal req) 0) base) as [[p c] f].
  destruct (make_plan_fields _ _ _ _ _ Hplan) as (Hn & Ht & Hsp & Hm).
  repeat split; try assumption.
  apply (make_plan_numbers nm tag); try assumption; lia.
Qed.

End ResponsePlans.

(** ** The ranges, and [_round5] on floats that are not finite *)

Section Small.

Lemma clamp_idle_all (activity goal : string) :
  In activity ["low"; "moderate"; "high"] ->
  In goal ["fat_loss"; "maintenance"; "muscle_gain"] ->
  clamp_idle activity goal = true.
Proof.
  cbn [In]. intros [<- | [<- | [<- | []]]] [<- | [<- | [<- | []]]];
    vm_compute; reflexivity.
Qed.

Lemma gkg_range_value (activity goal : string) :
  In activity ["low"; "moderate"; "high"] ->
  In goal ["fat_loss"; "maintenance"; "muscle_gain"] ->
  gkg_range activity goal = round_range (goal_range goal (base_range activity)).
Proof.
  cbn [In]. intros [<- | [<- | [<- | []]]] [<- | [<- | [<- | []]]];
    vm_compute; reflexivity.
Qed.

(** The largest daily amount of a range of at most 2.4 on at most
    1000 kg. *)
Lemma daily_max_le (min_gkg max_gkg w : float) (daily_min daily_max target : Z) :
  in_range min_gkg max_gkg = true -> (max_gkg <=? 2.4)%float = true -> below w 1000 ->
  daily_grams min_gkg max_gkg w = Ok (daily_min, daily_max, target) ->
  daily_max <= 2400.
Proof.
  unfold in_range. intros Hr Htop (vw & Hw & Hvw) Hd.
  apply andb_prop in Hr. destruct Hr as [Hr H3].
  apply andb_prop in Hr. destruct Hr as [H1 H2].
  assert (H12 : fvalue 1.2 = Some (value_or_zero 1.2))
    by (apply fvalue_const; vm_compute; discriminate).
  assert (H24 : fvalue 2.4 = Some (value_or_zero 2.4))
    by (apply fvalue_const; vm_compute; discriminate).
  assert (H1000 : fvalue 1000 = Some (units 1000 0)) by (vm_compute; reflexivity).
  destruct (chain_values 1.2 2.4 min_gkg max_gkg _ _ H12 H24 H1 H2 Htop)
    as (a & c & Ha & Hc & Hlo & Hac & Hhi).
  assert (Hlo0 : 0 <= value_or_zero 1.2) by (vm_compute; discriminate).
  assert (Hhi4 : value_or_zero 2.4 <= 4 * 2 ^ scale) by (vm_compute; discriminate).
  pose proof scale_pos as HP.
  assert (Hbound : value_or_zero 2.4 * units 1000 0 < 2 ^ (2 * scale + 972)).
  { rewrite units_int. replace (2 * scale + 972) with (972 + scale + scale) by lia.
    rewrite !Z.pow_add_r by (unfold scale; lia).
    assert (2 ^ 12 <= 2 ^ 972) by (apply Z.pow_le_mono_r; lia).
    change (2 ^ 12) with 4096 in *. nia. }
  destruct (round_mul_mono max_gkg w 2.4 1000 c vw _ _ Hc Hw H24 H1000
              ltac:(lia) ltac:(lia) Hbound) as (z1 & z2 & Hz1 & Hz2 & Hz).
  assert (Htop' : Py.round (2.4 * 1000) = Ok 2400) by (vm_compute; reflexivity).
  rewrite Htop' in Hz2. injection Hz2 as <-.
  unfold daily_grams in Hd.
  destruct (Py.round (min_gkg * w)) as [d | ]; [ | discriminate Hd ]. cbn [bind] in Hd.
  rewrite Hz1 in Hd. cbn [bind] in Hd.
  destruct (Py.fdiv (min_gkg + max_gkg) 2) as [mid | ]; [ | discriminate Hd ].
  cbn [bind] in Hd.
  destruct (Py.round (mid * w)) as [t | ]; [ | discriminate Hd ]. cbn [bind] in Hd.
  injection Hd as <- <- <-. lia.
Qed.

Lemma SFcompare_refl (s : bool) (m : positive) (e : Z) :
  SFcompare (S754_finite s m e) (S754_finite s m e) = Some Eq.
Proof.
  assert (Hc : forall r, Pos.compare_cont r m m = r)
    by (induction m; intros r; cbn; auto).
  cbn [SFcompare]. rewrite Z.compare_refl. destruct s; rewrite Hc; reflexivity.
Qed.

Lemma is_nan_spec (x : float) : is_nan x = true <-> Prim2SF x = S754_nan.
Proof.
  unfold is_nan. rewrite eqb_spec. unfold SFeqb.
  destruct (Prim2SF x) as [s | s | | s m e] eqn:Hx.
  - destruct s; cbn; split; discriminate.
  - destruct s; cbn; split; discriminate.
  - cbn. split; reflexivity.
  - rewrite SFcompare_refl. cbn. split; discriminate.
Qed.

Lemma is_infinity_spec (x : float) :
  is_infinity x = true <-> exists s, Prim2SF x = S754_infinity s.
Proof.
  unfold is_infinity. rewrite eqb_spec, abs_spec. unfold SFeqb.
  change (Prim2SF infinity) with (S754_infinity false).
  destruct (Prim2SF x) as [s | s | | s m e]; cbn [SFabs SFcompare].
  - split; [ discriminate | intros (s' & H); discriminate ].
  - split; [ intros _; now exists s | reflexivity ].
  - split; [ discriminate | intros (s' & H); discriminate ].
  - split; [ discriminate | intros (s' & H); discriminate ].
Qed.

(** [_round5] on a float that is not finite. *)
Lemma round5_nan (x : float) :
  Prim2SF x = S754_nan -> _round5 (Float x) = Raise ValueError.
Proof.
  intros Hx. unfold _round5. cbn [as_float bind]. unfold Py.fdiv.
  change (is_zero 5) with false. cbn [bind]. unfold Py.round.
  rewrite div_spec, Hx. reflexivity.
Qed.

Lemma round5_infinity (x : float) (s : bool) :
  Prim2SF x = S754_infinity s -> _round5 (Float x) = Raise OverflowError.
Proof.
  intros Hx. unfold _round5. cbn [as_float bind]. unfold Py.fdiv.
  change (is_zero 5) with false. cbn [bind]. unfold Py.round.
  rewrite div_spec, Hx. reflexivity.
Qed.

End Small.

(** ** Requests, dicts and responses *)

Section MoreLemmas.

Lemma literal_default (l : list string) (d : string) (o : option string) :
  In d l ->
  (literal l (with_default d o) = false <-> exists s, o = Some s /\ ~ In s l).
Proof.
  intros Hd. destruct o as [s | ]; cbn [with_default].
  - split.
    + intros H. exists s. split; [ reflexivity | ].
      intros Hin. apply in_literal in Hin. congruence.
    + intros (s' & [= <-] & Hn). destruct (literal l s) eqn:E; [ | reflexivity ].
      exfalso. apply Hn. now apply literal_in.
  - split.
    + intros H. apply in_literal in Hd. congruence.
    + intros (s & Hs & _). discriminate.
Qed.

Lemma dict_get_in {V : Type} (d : list (string * V)) (k : string) (def : V) :
  In k (map fst d) -> In (k, dict_get d k def) d.
Proof.
  induction d as [ | [k' v] d IH ]; cbn [map fst In dict_get]; [ tauto | ].
  intros H. destruct (String.eqb_spec k' k) as [-> | Hne].
  - now left.
  - right. apply IH. destruct H as [H | H]; [ congruence | assumption ].
Qed.

Lemma dict_get_default {V : Type} (d : list (string * V)) (k : string) (def : V) :
  ~ In k (map fst d) -> dict_get d k def = def.
Proof.
  induction d as [ | [k' v] d IH ]; cbn [map fst In dict_get]; [ reflexivity | ].
  intros H. destruct (String.eqb_spec k' k) as [-> | Hne]; [ tauto | ].
  apply IH. tauto.
Qed.

Lemma meals_of_plan (nm : string) :
  List.length (dict_get base_meals nm default_meals) = 4%nat.
Proof.
  unfold base_meals. cbn [dict_get].
  repeat match goal with
         | |- context [ String.eqb ?a nm ] => destruct (String.eqb a nm)
         end; reflexivity.
Qed.

Lemma Forall2_map_eq {A B C : Type} (f : A -> C) (g : B -> C) (l : list A) (l' : list B) :
  Forall2 (fun a b => g b = f a) l l' -> map g l' = map f l.
Proof. intros H. induction H; cbn [map]; congruence. Qed.

(** The response of a valid request, with what is known of its daily
    grams. *)
Lemma response_grams (req : ProteinRequest) :
  valid_request req ->
  exists resp min_gkg max_gkg,
    calculate_protein req = Ok resp
    /\ gkg_range (activity req) (goal req) = Ok (min_gkg, max_gkg)
    /\ in_range min_gkg max_gkg = true
    /\ daily_grams min_gkg max_gkg (to_kg req)
       = Ok (daily_grams_min resp, daily_grams_max resp, daily_grams_target resp)
    /\ 0 <= daily_grams_min resp.
Proof.
  intros Hv.
  destruct (calculate_protein_ok req Hv)
    as (mn & mx & dmin & dmax & t & plans & rk & Hg & Hin & Hd & Hb & _ & _ & _ & Hcalc).
  eexists. exists mn, mx. split; [ exact Hcalc | ].
  cbn [daily_grams_min daily_grams_max daily_grams_target].
  repeat split; try assumption. lia.
Qed.

Lemma valid_range_top (req : ProteinRequest) (min_gkg max_gkg : float) :
  valid_request req -> gkg_range (activity req) (goal req) = Ok (min_gkg, max_gkg) ->
  (min_gkg <? max_gkg)%float = true /\ (max_gkg <=? 2.4)%float = true.
Proof.
  intros (_ & _ & Ha & Hg) Hr.
  pose proof (clamp_idle_all _ _ Ha Hg) as H. unfold clamp_idle in H.
  rewrite Hr in H.
  destruct (round_range _) as [[rmin rmax] | ]; [ | discriminate H ].
  apply andb_prop in H. destruct H as [H H4].
  apply andb_prop in H. destruct H as [H H3]. split; assumption.
Qed.

Lemma same_response (req : ProteinRequest) (r1 r2 : ProteinResponse) :
  calculate_protein req = Ok r1 -> calculate_protein req = Ok r2 -> r1 = r2.
Proof. congruence. Qed.

End MoreLemmas.

Section PlanFacts.

Lemma plan_for_checked (b t : Z) (a : string * string * (Z * Z * Z)) (plan : MealSuggestion) :
  0 <= t <= 2700 -> plan_for b t a plan ->
  exists p c f,
    split_percent (macros plan) = [("protein", p); ("carbs", c); ("fats", f)]
    /\ 0 < p
    /\ numbers_ok (p, c, f) t
         (protein_g (macros plan), carbs_g (macros plan), fats_g (macros plan),
          calories (macros plan)) = true
    /\ numbers_le (0, 0, 0, 0)
         (protein_g (macros plan), carbs_g (macros plan), fats_g (macros plan),
          calories (macros plan)).
Proof.
  intros Ht. destruct a as [[nm tag] base]. unfold plan_for.
  destruct (adjust_split b base) as [[p c] f].
  intros (_ & _ & Hsp & _ & Hl & Hn).
  destruct (plans_scanned _ t t Hl (proj1 Ht) (Z.le_refl t) (proj2 Ht))
    as (n1 & n2 & H1 & _ & Hok & H0 & _).
  rewrite Hn in H1. injection H1 as <-.
  pose proof (listed_split_small _ Hl) as (Hp & _).
  exists p, c, f. split; [ assumption | ]. split; [ lia | ]. split; assumption.
Qed.

Lemma numbers_ok_inv (p c f t P C F K : Z) :
  numbers_ok (p, c, f) t (P, C, F, K) = true ->
  P = Py.rne_div t 5 * 5 /\ K = Py.rne_div (400 * t) p
  /\ 2 * Z.abs (C * p - t * c) <= 5 * p
  /\ 2 * Z.abs (9 * p * F - 4 * t * f) <= 45 * p
  /\ Z.abs (4 * P + 4 * C + 9 * F - K) <= 38.
Proof.
  cbn [numbers_ok]. rewrite !andb_true_iff, !Z.eqb_eq, !Z.leb_le. tauto.
Qed.

End PlanFacts.

(** ** The properties *)

Section Further.

(** X1: with a weight in (0, 1000], the construction of a request
    raises [ValidationError] exactly when [unit], [activity], [goal] or
    [sex] is given and is not one of the allowed strings, or [age] is
    given and is not between 10 and 100; otherwise it returns the request
    with the values given and kg, moderate, maintenance for the ones
    left out. *)
Theorem request_rejected_iff (w : float) (u a g : option string) (age : option Z)
    (sex : option string) :
  (0 <? w)%float = true -> (1000 <? w)%float = false ->
  (ProteinRequest_init w u a g age sex = Raise ValidationError
   <-> (exists s, u = Some s /\ ~ In s ["kg"; "lb"])
       \/ (exists s, a = Some s /\ ~ In s ["low"; "moderate"; "high"])
       \/ (exists s, g = Some s /\ ~ In s ["fat_loss"; "maintenance"; "muscle_gain"])
       \/ (exists n, age = Some n /\ ~ 10 <= n <= 100)
       \/ (exists s, sex = Some s /\ ~ In s ["male"; "female"; "other"]))
  /\ (ProteinRequest_init w u a g age sex = Raise ValidationError
      \/ ProteinRequest_init w u a g age sex =
         Ok {| weight := w; unit := with_default "kg" u;
               activity := with_default "moderate" a;
               goal := with_default "maintenance" g; age := age; sex := sex |}).
Proof.
  intros Hpos Hcap.
  pose proof (literal_default ["kg"; "lb"] "kg" u ltac:(cbn; tauto)) as Hu.
  pose proof (literal_default ["low"; "moderate"; "high"] "moderate" a ltac:(cbn; tauto)) as Ha.
  pose proof (literal_default ["fat_loss"; "maintenance"; "muscle_gain"] "maintenance" g
                ltac:(cbn; tauto)) as Hg.
  assert (Hage : optional (fun n => (10 <=? n) && (n <=? 100)) age = false
                 <-> exists n, age = Some n /\ ~ 10 <= n <= 100).
  { destruct age as [n | ]; cbn [optional].
    - split.
      + intros H. exists n. split; [ reflexivity | ].
        apply andb_false_iff in H. destruct H as [H | H];
          [ apply Z.leb_gt in H | apply Z.leb_gt in H ]; lia.
      + intros (n' & [= <-] & Hn). apply andb_false_iff.
        destruct (Z.leb_spec 10 n); [ right; apply Z.leb_gt; lia | now left ].
    - split; [ discriminate | intros (n & Hn & _); discriminate ]. }
  assert (Hsex : optional (literal ["male"; "female"; "other"]) sex = false
                 <-> exists s, sex = Some s /\ ~ In s ["male"; "female"; "other"]).
  { destruct sex as [s | ]; cbn [optional].
    - split.
      + intros H. exists s. split; [ reflexivity | ].
        intros Hin. apply in_literal in Hin. congruence.
      + intros (s' & [= <-] & Hn).
        destruct (literal ["male"; "female"; "other"] s) eqn:E; [ | reflexivity ].
        exfalso. apply Hn. now apply literal_in.
    - split; [ discriminate | intros (s & Hs & _); discriminate ]. }
  unfold ProteinRequest_init, weight_field, validate_weight. rewrite Hpos, Hcap.
  destruct (literal ["kg"; "lb"] (with_default "kg" u));
    destruct (literal ["low"; "moderate"; "high"] (with_default "moderate" a));
    destruct (literal ["fat_loss"; "maintenance"; "muscle_gain"]
                      (with_default "maintenance" g));
    destruct (optional (fun n => (10 <=? n) && (n <=? 100)) age);
    destruct (optional (literal ["male"; "female"; "other"]) sex);
    cbn [andb]; (split; [ | tauto ]); split; try discriminate; try tauto;
    intros [H | [H | [H | [H | H]]]];
    first [ apply Hu in H | apply Ha in H | apply Hg in H | apply Hage in H
          | apply Hsex in H ]; discriminate.
Qed.

Lemma request_rejected_iff_witness :
  (ProteinRequest_init 70 (Some "kg") None None (Some 9) None = Raise ValidationError
   <-> (exists s, Some "kg" = Some s /\ ~ In s ["kg"; "lb"])
       \/ (exists s, @None string = Some s /\ ~ In s ["low"; "moderate"; "high"])
       \/ (exists s, @None string = Some s
                     /\ ~ In s ["fat_loss"; "maintenance"; "muscle_gain"])
       \/ (exists n, Some 9 = Some n /\ ~ 10 <= n <= 100)
       \/ (exists s, @None string = Some s /\ ~ In s ["male"; "female"; "other"]))
  /\ (ProteinRequest_init 70 (Some "kg") None None (Some 9) None = Raise ValidationError
      \/ ProteinRequest_init 70 (Some "kg") None None (Some 9) None =
         Ok {| weight := 70; unit := with_default "kg" (Some "kg");
               activity := with_default "moderate" None;
               goal := with_default "maintenance" None; age := Some 9; sex := None |}).
Proof.
  apply (request_rejected_iff 70 (Some "kg") None None (Some 9) None); reflexivity.
Defined.

(** X2: in the response to every valid request the daily grams are
    in order and between 0 and 2400. *)
Theorem response_grams_in_range (req : ProteinRequest) :
  valid_request req ->
  exists resp,
    calculate_protein req = Ok resp
    /\ 0 <= daily_grams_min resp
    /\ daily_grams_min resp <= daily_grams_target resp
    /\ daily_grams_target resp <= daily_grams_max resp
    /\ daily_grams_max resp <= 2400.
Proof.
  intros Hv.
  destruct (calculate_protein_ok req Hv)
    as (mn & mx & dmin & dmax & t & plans & rk & Hg & Hin & Hd & Hb & _ & _ & _ & Hcalc).
  eexists. split; [ exact Hcalc | ].
  cbn [daily_grams_min daily_grams_max daily_grams_target].
  destruct (valid_range_top req mn mx Hv Hg) as (_ & Htop).
  pose proof (daily_max_le mn mx _ _ _ _ Hin Htop (to_kg_below req Hv) Hd).
  lia.
Qed.

Lemma response_grams_in_range_witness :
  exists resp,
    calculate_protein {| weight := 1000; unit := "kg"; activity := "high";
                         goal := "fat_loss"; age := None; sex := None |} = Ok resp
    /\ 0 <= daily_grams_min resp
    /\ daily_grams_min resp <= daily_grams_target resp
    /\ daily_grams_target resp <= daily_grams_max resp
    /\ daily_grams_max resp <= 2400.
Proof.
  apply (response_grams_in_range
           {| weight := 1000; unit := "kg"; activity := "high"; goal := "fat_loss";
              age := None; sex := None |}).
  unfold valid_request. cbn [weight unit activity goal In].
  split; [ vm_compute; reflexivity | tauto ].
Defined.

(** X3: in the response to every valid request the target is within
    one gram of the middle of [daily_grams_min] and [daily_grams_max]:
    twice the target differs from their sum by at most 2. *)
Theorem target_is_near_middle (req : ProteinRequest) :
  valid_request req ->
  exists resp,
    calculate_protein req = Ok resp
    /\ Z.abs (2 * daily_grams_target resp
              - (daily_grams_min resp + daily_grams_max resp)) <= 2.
Proof.
  intros Hv.
  destruct (response_grams req Hv) as (resp & mn & mx & Hcalc & _ & Hin & Hd & _).
  exists resp. split; [ assumption | ].
  exact (target_near_middle mn mx _ _ _ _ Hin (to_kg_below req Hv) Hd).
Qed.

Lemma target_is_near_middle_witness :
  exists resp,
    calculate_protein {| weight := 150; unit := "lb"; activity := "high";
                         goal := "fat_loss"; age := None; sex := None |} = Ok resp
    /\ Z.abs (2 * daily_grams_target resp
              - (daily_grams_min resp + daily_grams_max resp)) <= 2.
Proof.
  apply (target_is_near_middle
           {| weight := 150; unit := "lb"; activity := "high"; goal := "fat_loss";
              age := None; sex := None |}).
  unfold valid_request. cbn [weight unit activity goal In].
  split; [ vm_compute; reflexivity | tauto ].
Defined.

(** X4: of two valid requests with the same unit, activity and goal,
    the one with the larger weight gets daily grams that are no smaller,
    and plans whose protein, carbs and fat grams and calories are no
    smaller, plan by plan. *)
Theorem heavier_never_less (req1 req2 : ProteinRequest) :
  valid_request req1 -> valid_request req2 ->
  unit req1 = unit req2 -> activity req1 = activity req2 -> goal req1 = goal req2 ->
  (weight req1 <=? weight req2)%float = true ->
  exists resp1 resp2,
    calculate_protein req1 = Ok resp1 /\ calculate_protein req2 = Ok resp2
    /\ daily_grams_min resp1 <= daily_grams_min resp2
    /\ daily_grams_target resp1 <= daily_grams_target resp2
    /\ daily_grams_max resp1 <= daily_grams_max resp2
    /\ Forall2 (fun plan1 plan2 =>
                  name plan1 = name plan2
                  /\ protein_g (macros plan1) <= protein_g (macros plan2)
                  /\ carbs_g (macros plan1) <= carbs_g (macros plan2)
                  /\ fats_g (macros plan1) <= fats_g (macros plan2)
                  /\ calories (macros plan1) <= calories (macros plan2))
               (suggestions resp1) (suggestions resp2).
Proof.
  intros Hv1 Hv2 Hu Ha Hg Hw.
  assert (Hr : range_leb (gkg_range (activity req1) (goal req1))
                         (gkg_range (activity req2) (goal req2)) = true).
  { rewrite Ha, Hg. destruct Hv2 as (_ & _ & Ha2 & Hg2). now apply range_leb_refl. }
  destruct (response_mono req1 req2 Hv1 Hv2 Hr (to_kg_mono _ _ Hv1 Hv2 Hu Hw))
    as (resp1 & resp2 & Hc1 & Hc2 & Hmin & Ht & Hmax).
  destruct (response_plans req1 Hv1) as (r1 & Hc1' & Ht1 & Hp1).
  destruct (response_plans req2 Hv2) as (r2 & Hc2' & Ht2 & Hp2).
  rewrite (same_response _ _ _ Hc1' Hc1) in *. rewrite (same_response _ _ _ Hc2' Hc2) in *.
  exists resp1, resp2. repeat split; try assumption.
  rewrite Hg in Hp1.
  apply (Forall2_zip _ _ _ _ _ _ Hp1 Hp2).
  intros [[nm tag] base] plan1 plan2. unfold plan_for.
  destruct (adjust_split (dict_get goal_adj (goal req2) 0) base) as [[p c] f].
  intros (Hn1 & _ & _ & _ & Hl & Hnum1) (Hn2 & _ & _ & _ & _ & Hnum2).
  destruct (plans_scanned _ _ _ Hl (proj1 Ht1) Ht (proj2 Ht2))
    as (n1 & n2 & H1 & H2 & _ & _ & Hle).
  rewrite Hnum1 in H1. rewrite Hnum2 in H2.
  injection H1 as <-. injection H2 as <-.
  split; [ congruence | exact Hle ].
Qed.

Lemma heavier_never_less_witness :
  exists resp1 resp2,
    calculate_protein {| weight := 60; unit := "kg"; activity := "low";
                         goal := "muscle_gain"; age := None; sex := None |} = Ok resp1
    /\ calculate_protein {| weight := 90; unit := "kg"; activity := "low";
                            goal := "muscle_gain"; age := Some 30; sex := None |} = Ok resp2
    /\ daily_grams_min resp1 <= daily_grams_min resp2
    /\ daily_grams_target resp1 <= daily_grams_target resp2
    /\ daily_grams_max resp1 <= daily_grams_max resp2
    /\ Forall2 (fun plan1 plan2 =>
                  name plan1 = name plan2
                  /\ protein_g (macros plan1) <= protein_g (macros plan2)
                  /\ carbs_g (macros plan1) <= carbs_g (macros plan2)
                  /\ fats_g (macros plan1) <= fats_g (macros plan2)
                  /\ calories (macros plan1) <= calories (macros plan2))
               (suggestions resp1) (suggestions resp2).
Proof.
  apply (heavier_never_less
           {| weight := 60; unit := "kg"; activity := "low"; goal := "muscle_gain";
              age := None; sex := None |}
           {| weight := 90; unit := "kg"; activity := "low"; goal := "muscle_gain";
              age := Some 30; sex := None |});
    try reflexivity;
    unfold valid_request; cbn [weight unit activity goal In];
    (split; [ vm_compute; reflexivity | tauto ]).
Defined.

(** X5: of two valid requests with the same weight and unit, the one
    with the higher activity (low, moderate, high) and the goal that
    adds more (maintenance, muscle_gain, fat_loss) gets daily grams that
    are no smaller. *)
Theorem more_active_never_less (req1 req2 : ProteinRequest) :
  valid_request req1 -> valid_request req2 ->
  weight req1 = weight req2 -> unit req1 = unit req2 ->
  activity_rank (activity req1) <= activity_rank (activity req2) ->
  goal_rank (goal req1) <= goal_rank (goal req2) ->
  exists resp1 resp2,
    calculate_protein req1 = Ok resp1 /\ calculate_protein req2 = Ok resp2
    /\ daily_grams_min resp1 <= daily_grams_min resp2
    /\ daily_grams_target resp1 <= daily_grams_target resp2
    /\ daily_grams_max resp1 <= daily_grams_max resp2.
Proof.
  intros Hv1 Hv2 Hw Hu Ha Hg. apply response_mono; try assumption.
  - destruct Hv1 as (_ & _ & Ha1 & Hg1). destruct Hv2 as (_ & _ & Ha2 & Hg2).
    now apply range_leb_rank.
  - unfold to_kg. rewrite Hw, Hu. fold (to_kg req2).
    destruct (to_kg_below req2 Hv2) as (v & Hv & _). exact (leb_refl_value _ v Hv).
Qed.

Lemma more_active_never_less_witness :
  exists resp1 resp2,
    calculate_protein {| weight := 80; unit := "kg"; activity := "low";
                         goal := "maintenance"; age := None; sex := None |} = Ok resp1
    /\ calculate_protein {| weight := 80; unit := "kg"; activity := "high";
                            goal := "fat_loss"; age := None; sex := None |} = Ok resp2
    /\ daily_grams_min resp1 <= daily_grams_min resp2
    /\ daily_grams_target resp1 <= daily_grams_target resp2
    /\ daily_grams_max resp1 <= daily_grams_max resp2.
Proof.
  apply (more_active_never_less
           {| weight := 80; unit := "kg"; activity := "low"; goal := "maintenance";
              age := None; sex := None |}
           {| weight := 80; unit := "kg"; activity := "high"; goal := "fat_loss";
              age := None; sex := None |});
    try reflexivity; try (vm_compute; discriminate);
    unfold valid_request; cbn [weight unit activity goal In];
    (split; [ vm_compute; reflexivity | tauto ]).
Defined.

(** X6: a weight given in lb gets daily grams no larger than the same
    number given in kg, for the same activity and goal. *)
Theorem pounds_never_more (req_lb req_kg : ProteinRequest) :
  valid_request req_lb -> valid_request req_kg ->
  unit req_lb = "lb" -> unit req_kg = "kg" -> weight req_lb = weight req_kg ->
  activity req_lb = activity req_kg -> goal req_lb = goal req_kg ->
  exists resp_lb resp_kg,
    calculate_protein req_lb = Ok resp_lb /\ calculate_protein req_kg = Ok resp_kg
    /\ daily_grams_min resp_lb <= daily_grams_min resp_kg
    /\ daily_grams_target resp_lb <= daily_grams_target resp_kg
    /\ daily_grams_max resp_lb <= daily_grams_max resp_kg.
Proof.
  intros Hv1 Hv2 Hu1 Hu2 Hw Ha Hg. apply response_mono; try assumption.
  - rewrite Ha, Hg. destruct Hv2 as (_ & _ & Ha2 & Hg2). now apply range_leb_refl.
  - unfold to_kg. rewrite Hu1, Hu2, Hw. cbn [String.eqb Ascii.eqb Bool.eqb].
    destruct (weight_value req_kg Hv2) as (v & Hval & Hb).
    apply (lb_le_kg _ v Hval). lia.
Qed.

Lemma pounds_never_more_witness :
  exists resp_lb resp_kg,
    calculate_protein {| weight := 150; unit := "lb"; activity := "moderate";
                         goal := "maintenance"; age := None; sex := None |} = Ok resp_lb
    /\ calculate_protein {| weight := 150; unit := "kg"; activity := "moderate";
                            goal := "maintenance"; age := None; sex := None |} = Ok resp_kg
    /\ daily_grams_min resp_lb <= daily_grams_min resp_kg
    /\ daily_grams_target resp_lb <= daily_grams_target resp_kg
    /\ daily_grams_max resp_lb <= daily_grams_max resp_kg.
Proof.
  apply (pounds_never_more
           {| weight := 150; unit := "lb"; activity := "moderate"; goal := "maintenance";
              age := None; sex := None |}
           {| weight := 150; unit := "kg"; activity := "moderate"; goal := "maintenance";
              age := None; sex := None |});
    try reflexivity;
    unfold valid_request; cbn [weight unit activity goal In];
    (split; [ vm_compute; reflexivity | tauto ]).
Defined.

(** X7: for the nine pairs of activity and goal the clamp of lines
    152-153 changes nothing: the range is the two adjusted bounds
    rounded to two decimals, it starts at 1.2 or above, is strictly
    increasing and ends at 2.4 or below. *)
Theorem clamp_never_binds (activity goal : string) :
  In activity ["low"; "moderate"; "high"] ->
  In goal ["fat_loss"; "maintenance"; "muscle_gain"] ->
  gkg_range activity goal = round_range (goal_range goal (base_range activity))
  /\ exists min_gkg max_gkg,
       gkg_range activity goal = Ok (min_gkg, max_gkg)
       /\ (1.2 <=? min_gkg)%float = true
       /\ (min_gkg <? max_gkg)%float = true
       /\ (max_gkg <=? 2.4)%float = true.
Proof.
  intros Ha Hg. split; [ now apply gkg_range_value | ].
  pose proof (clamp_idle_all _ _ Ha Hg) as H. unfold clamp_idle in H.
  pose proof (gkg_range_ok _ _ Ha Hg) as Hr. unfold gkg_check in Hr.
  destruct (gkg_range activity goal) as [[mn mx] | ]; [ | discriminate H ].
  destruct (round_range _) as [[rmin rmax] | ]; [ | discriminate H ].
  apply andb_prop in H. destruct H as [H H4].
  apply andb_prop in H. destruct H as [H H3].
  unfold in_range in Hr. apply andb_prop in Hr. destruct Hr as [Hr _].
  apply andb_prop in Hr. destruct Hr as [H1 _].
  exists mn, mx. repeat split; assumption.
Qed.

Lemma clamp_never_binds_witness :
  gkg_range "high" "fat_loss" = round_range (goal_range "fat_loss" (base_range "high"))
  /\ exists min_gkg max_gkg,
       gkg_range "high" "fat_loss" = Ok (min_gkg, max_gkg)
       /\ (1.2 <=? min_gkg)%float = true
       /\ (min_gkg <? max_gkg)%float = true
       /\ (max_gkg <=? 2.4)%float = true.
Proof.
  apply (clamp_never_binds "high" "fat_loss"); cbn [In]; tauto.
Defined.

(** X8: for every split and bump, the adjusted protein percent is at
    most 45, the carbs percent at least 30 and the three percents sum to
    at least 100; they sum to exactly 100 when they did before the fat
    was touched or when protein and carbs leave at least 20 for the fat,
    and the fat percent is at least 20 whenever it was changed. *)
Theorem adjust_split_invariant (p_bump p c f : Z) :
  let '(adj_p, adj_c, adj_f) := adjust_split p_bump (p, c, f) in
  adj_p <= 45 /\ 30 <= adj_c
  /\ 100 <= adj_p + adj_c + adj_f
  /\ (adj_p + adj_c + adj_f = 100 <-> adj_p + adj_c + f = 100 \/ adj_p + adj_c <= 80)
  /\ (adj_f <> f -> 20 <= adj_f).
Proof.
  unfold adjust_split.
  destruct (Z.eqb_spec (Z.min 45 (p + p_bump) + Z.max 30 (c - p_bump) + f) 100);
    cbn [negb]; lia.
Qed.

(** X9: on the four archetypes of the table neither the cap of 45, nor
    the floor of 30, nor the change of the fat percent applies: the
    bump (5 for fat_loss, 0 for any other goal) moves from carbs to
    protein and the fat percent stays. *)
Theorem table_split_unchanged (goal nm tag : string) (p c f : Z) :
  In (nm, tag, (p, c, f)) archetypes ->
  adjust_split (dict_get goal_adj goal 0) (p, c, f)
  = (p + dict_get goal_adj goal 0, c - dict_get goal_adj goal 0, f)
  /\ dict_get goal_adj goal 0 = (if String.eqb goal "fat_loss" then 5 else 0).
Proof.
  intros Hin.
  assert (Hb : dict_get goal_adj goal 0 = if String.eqb goal "fat_loss" then 5 else 0).
  { unfold goal_adj. cbn [dict_get]. rewrite (String.eqb_sym "fat_loss" goal).
    destruct (String.eqb goal "fat_loss"); [ reflexivity | ].
    destruct (String.eqb "maintenance" goal); [ reflexivity | ].
    destruct (String.eqb "muscle_gain" goal); reflexivity. }
  split; [ | exact Hb ]. rewrite Hb.
  unfold archetypes in Hin. cbn [In] in Hin.
  destruct Hin as [H | [H | [H | [H | []]]]]; injection H as <- <- <- <- <-;
    destruct (String.eqb goal "fat_loss"); reflexivity.
Qed.

Lemma table_split_unchanged_witness :
  adjust_split (dict_get goal_adj "fat_loss" 0) (35, 35, 30)
  = (35 + dict_get goal_adj "fat_loss" 0, 35 - dict_get goal_adj "fat_loss" 0, 30)
  /\ dict_get goal_adj "fat_loss" 0 = (if String.eqb "fat_loss" "fat_loss" then 5 else 0).
Proof.
  apply (table_split_unchanged "fat_loss" "Mat Dominator"
           "Mat-ready power with cutting-edge leanness." 35 35 30).
  cbn [archetypes In]. right. left. reflexivity.
Defined.

(** X10: [_round5] raises on a float that is not finite: [ValueError]
    on nan, [OverflowError] on an infinity. *)
Theorem round5_not_finite (x : float) :
  is_finite x = false ->
  _round5 (Float x) = Raise (if is_nan x then ValueError else OverflowError).
Proof.
  unfold is_finite. intros H. apply negb_false_iff in H.
  destruct (is_nan x) eqn:Hn.
  - apply round5_nan. now apply is_nan_spec.
  - cbn [orb] in H. apply is_infinity_spec in H. destruct H as (s & Hs).
    now apply (round5_infinity x s).
Qed.

Lemma round5_not_finite_witness :
  _round5 (Float infinity) = Raise (if is_nan infinity then ValueError else OverflowError).
Proof. apply (round5_not_finite infinity). reflexivity. Defined.

(** X11: on floats between 0 and [10^15], [_round5] returns and keeps
    the order. *)
Theorem round5_monotone (x y : float) :
  (0 <=? x)%float = true -> (x <=? y)%float = true -> (y <=? 1e15)%float = true ->
  exists zx zy, _round5 (Float x) = Ok zx /\ _round5 (Float y) = Ok zy /\ 0 <= zx <= zy.
Proof.
  intros H0 Hxy Hy.
  assert (Hz : fvalue 0 = Some 0) by reflexivity.
  assert (Ht : fvalue 1e15 = Some (value_or_zero 1e15))
    by (apply fvalue_const; vm_compute; discriminate).
  assert (H5 : fvalue 5 = Some (units 5 0)) by (vm_compute; reflexivity).
  destruct (chain_values 0 1e15 x y _ _ Hz Ht H0 Hxy Hy) as (vx & vy & Hx & Hvy & Hx0 & Hle & Htop).
  assert (Hb : value_or_zero 1e15 < units 5 0 * 2 ^ 972) by (vm_compute; reflexivity).
  pose proof scale_pos as HP.
  assert (Hp5 : 0 < units 5 0) by (rewrite units_int; lia).
  unfold _round5. cbn [as_float bind]. unfold Py.fdiv.
  rewrite (is_zero_value 5 _ H5 Hp5). cbn [bind].
  rewrite (round_value _ _ (div_value x 5 vx _ Hx H5 Hp5 ltac:(lia))).
  rewrite (round_value _ _ (div_value y 5 vy _ Hvy H5 Hp5 ltac:(lia))).
  cbn [bind]. do 2 eexists. split; [ reflexivity | ]. split; [ reflexivity | ].
  assert (Hr0 : 0 <= round_units (vx * 2 ^ scale) (units 5 0))
    by (apply round_units_nonneg; [ assumption | ]; apply Z.mul_nonneg_nonneg; lia).
  assert (Hr : round_units (vx * 2 ^ scale) (units 5 0)
               <= round_units (vy * 2 ^ scale) (units 5 0)).
  { apply round_units_mono; [ assumption | apply Z.mul_nonneg_nonneg; lia | ].
    apply Z.mul_le_mono_nonneg_r; lia. }
  pose proof (rne_div_nonneg _ _ HP Hr0).
  pose proof (rne_div_mono _ _ _ HP Hr). lia.
Qed.

Lemma round5_monotone_witness :
  exists zx zy,
    _round5 (Float 7.4) = Ok zx /\ _round5 (Float 7.6) = Ok zy /\ 0 <= zx <= zy.
Proof. apply (round5_monotone 7.4 7.6); vm_compute; reflexivity. Defined.

(** X12: [_round5] returns a multiple of 5 between 0 and 2700
    unchanged. *)
Theorem round5_fixes_multiples (t : Z) :
  0 <= t <= 2700 -> (5 | t) -> _round5 (Int t) = Ok t.
Proof.
  intros Ht (k & ->).
  destruct (float_of_int_below (k * 5) Ht) as (_ & _ & _ & ->).
  now rewrite rne_div_exact by lia.
Qed.

Lemma round5_fixes_multiples_witness : _round5 (Int 135) = Ok 135.
Proof.
  apply (round5_fixes_multiples 135); [ lia | exists 27; reflexivity ].
Defined.

(** X13: a plan that [_make_plan] returns carries the name and the
    tagline given and four sample meals: the ones of the table when the
    name is a key of [base_meals], the default ones when it is not. *)
Theorem make_plan_meals (nm tag : string) (pct : Z * Z * Z) (t : Z) (plan : MealSuggestion) :
  _make_plan nm tag pct t = Ok plan ->
  name plan = nm /\ tagline plan = tag
  /\ List.length (sample_meals plan) = 4%nat
  /\ (In nm (map fst base_meals) -> In (nm, sample_meals plan) base_meals)
  /\ (~ In nm (map fst base_meals) -> sample_meals plan = default_meals).
Proof.
  intros H. destruct (make_plan_fields _ _ _ _ _ H) as (Hn & Ht & _ & Hm).
  rewrite Hm. repeat split; try assumption.
  - apply meals_of_plan.
  - apply dict_get_in.
  - apply dict_get_default.
Qed.

Lemma make_plan_meals_witness :
  name {| name := "Power Walker"; tagline := "Steady.";
          macros := {| protein_g := 145; carbs_g := 215; fats_g := 55;
                       split_percent := [("protein", 30); ("carbs", 45); ("fats", 25)];
                       calories := 1920 |};
          sample_meals := default_meals |} = "Power Walker"
  /\ tagline {| name := "Power Walker"; tagline := "Steady.";
                macros := {| protein_g := 145; carbs_g := 215; fats_g := 55;
                             split_percent := [("protein", 30); ("carbs", 45); ("fats", 25)];
                             calories := 1920 |};
                sample_meals := default_meals |} = "Steady."
  /\ List.length (sample_meals
       {| name := "Power Walker"; tagline := "Steady.";
          macros := {| protein_g := 145; carbs_g := 215; fats_g := 55;
                       split_percent := [("protein", 30); ("carbs", 45); ("fats", 25)];
                       calories := 1920 |};
          sample_meals := default_meals |}) = 4%nat
  /\ (In "Power Walker" (map fst base_meals) ->
      In ("Power Walker",
          sample_meals
            {| name := "Power Walker"; tagline := "Steady.";
               macros := {| protein_g := 145; carbs_g := 215; fats_g := 55;
                            split_percent := [("protein", 30); ("carbs", 45); ("fats", 25)];
                            calories := 1920 |};
               sample_meals := default_meals |}) base_meals)
  /\ (~ In "Power Walker" (map fst base_meals) ->
      sample_meals
        {| name := "Power Walker"; tagline := "Steady.";
           macros := {| protein_g := 145; carbs_g := 215; fats_g := 55;
                        split_percent := [("protein", 30); ("carbs", 45); ("fats", 25)];
                        calories := 1920 |};
           sample_meals := default_meals |} = default_meals).
Proof.
  apply (make_plan_meals "Power Walker" "Steady." (30, 45, 25) 144).
  vm_compute. reflexivity.
Defined.

(** X14: with a protein percent of 0, [_make_plan] raises
    [ZeroDivisionError], whatever the other percents and the target. *)
Theorem make_plan_zero_protein_share (nm tag : string) (c f t : Z) (pg : float) :
  Py.float_of_int t = Ok pg ->
  _make_plan nm tag (0, c, f) t = Raise ZeroDivisionError.
Proof.
  intros Ht. unfold _make_plan, total_kcal_of. rewrite Ht. cbn [bind].
  change (Py.float_of_int 0) with (Ok 0%float). cbn [bind].
  unfold Py.fdiv at 2. change (is_zero 100) with false. cbn [bind].
  unfold Py.fdiv. change (is_zero (0 / 100)) with true. reflexivity.
Qed.

Lemma make_plan_zero_protein_share_witness :
  _make_plan "Lifting Beast" "Build thick strength with steady carbs." (0, 60, 40) 144
  = Raise ZeroDivisionError.
Proof.
  apply (make_plan_zero_protein_share _ _ 60 40 144 144). vm_compute. reflexivity.
Defined.

(** X15: in the response to every valid request, the calories of
    every plan are [400 * target / p] rounded to the nearest integer,
    ties to even, for the protein percent [p] of the plan: the float
    computation never moves them off the exact quotient. *)
Theorem calories_exact (req : ProteinRequest) :
  valid_request req ->
  exists resp,
    calculate_protein req = Ok resp
    /\ Forall (fun plan =>
                 exists p c f,
                   split_percent (macros plan) = [("protein", p); ("carbs", c); ("fats", f)]
                   /\ 0 < p
                   /\ calories (macros plan) = Py.rne_div (400 * daily_grams_target resp) p)
              (suggestions resp).
Proof.
  intros Hv. destruct (response_plans req Hv) as (resp & Hcalc & Ht & Hplans).
  exists resp. split; [ assumption | ].
  apply (Forall2_Forall_r _ _ _ _ Hplans). intros a plan Hplan.
  destruct (plan_for_checked _ _ _ _ Ht Hplan) as (p & c & f & Hsp & Hp & Hok & _).
  exists p, c, f. split; [ assumption | ]. split; [ assumption | ].
  now destruct (numbers_ok_inv _ _ _ _ _ _ _ _ Hok) as (_ & HK & _).
Qed.

Lemma calories_exact_witness :
  exists resp,
    calculate_protein {| weight := 150; unit := "lb"; activity := "high";
                         goal := "fat_loss"; age := None; sex := None |} = Ok resp
    /\ Forall (fun plan =>
                 exists p c f,
                   split_percent (macros plan) = [("protein", p); ("carbs", c); ("fats", f)]
                   /\ 0 < p
                   /\ calories (macros plan) = Py.rne_div (400 * daily_grams_target resp) p)
              (suggestions resp).
Proof.
  apply (calories_exact {| weight := 150; unit := "lb"; activity := "high";
                           goal := "fat_loss"; age := None; sex := None |}).
  unfold valid_request. cbn [weight unit activity goal In].
  split; [ vm_compute; reflexivity | tauto ].
Defined.

(** X16: in the response to every valid request, the carbs and fat
    grams of every plan are not negative and within 2.5 of the exact
    [target * c / p] and [4 * target * f / (9 * p)], for the split
    [(p, c, f)] of the plan. *)
Theorem grams_nearest_multiples_of_5 (req : ProteinRequest) :
  valid_request req ->
  exists resp,
    calculate_protein req = Ok resp
    /\ Forall (fun plan =>
                 exists p c f,
                   split_percent (macros plan) = [("protein", p); ("carbs", c); ("fats", f)]
                   /\ 0 < p
                   /\ 0 <= carbs_g (macros plan) /\ 0 <= fats_g (macros plan)
                   /\ 2 * Z.abs (carbs_g (macros plan) * p - daily_grams_target resp * c)
                      <= 5 * p
                   /\ 2 * Z.abs (9 * p * fats_g (macros plan)
                                 - 4 * daily_grams_target resp * f) <= 45 * p)
              (suggestions resp).
Proof.
  intros Hv. destruct (response_plans req Hv) as (resp & Hcalc & Ht & Hplans).
  exists resp. split; [ assumption | ].
  apply (Forall2_Forall_r _ _ _ _ Hplans). intros a plan Hplan.
  destruct (plan_for_checked _ _ _ _ Ht Hplan) as (p & c & f & Hsp & Hp & Hok & H0).
  exists p, c, f. split; [ assumption | ]. split; [ assumption | ].
  destruct (numbers_ok_inv _ _ _ _ _ _ _ _ Hok) as (_ & _ & HC & HF & _).
  cbn [numbers_le] in H0. repeat split; try assumption; lia.
Qed.

Lemma grams_nearest_multiples_of_5_witness :
  exists resp,
    calculate_protein {| weight := 80; unit := "kg"; activity := "moderate";
                         goal := "maintenance"; age := None; sex := None |} = Ok resp
    /\ Forall (fun plan =>
                 exists p c f,
                   split_percent (macros plan) = [("protein", p); ("carbs", c); ("fats", f)]
                   /\ 0 < p
                   /\ 0 <= carbs_g (macros plan) /\ 0 <= fats_g (macros plan)
                   /\ 2 * Z.abs (carbs_g (macros plan) * p - daily_grams_target resp * c)
                      <= 5 * p
                   /\ 2 * Z.abs (9 * p * fats_g (macros plan)
                                 - 4 * daily_grams_target resp * f) <= 45 * p)
              (suggestions resp).
Proof.
  apply (grams_nearest_multiples_of_5
           {| weight := 80; unit := "kg"; activity := "moderate"; goal := "maintenance";
              age := None; sex := None |}).
  unfold valid_request. cbn [weight unit activity goal In].
  split; [ vm_compute; reflexivity | tauto ].
Defined.

(** X17: in the response to every valid request, the energy of the
    grams of a plan, 4 kcal per gram of protein and carbs and 9 per
    gram of fat, is within 38 kcal of the calories of the plan. *)
Theorem energy_of_grams_near_calories (req : ProteinRequest) :
  valid_request req ->
  exists resp,
    calculate_protein req = Ok resp
    /\ Forall (fun plan =>
                 Z.abs (4 * protein_g (macros plan) + 4 * carbs_g (macros plan)
                        + 9 * fats_g (macros plan) - calories (macros plan)) <= 38)
              (suggestions resp).
Proof.
  intros Hv. destruct (response_plans req Hv) as (resp & Hcalc & Ht & Hplans).
  exists resp. split; [ assumption | ].
  apply (Forall2_Forall_r _ _ _ _ Hplans). intros a plan Hplan.
  destruct (plan_for_checked _ _ _ _ Ht Hplan) as (p & c & f & Hsp & Hp & Hok & _).
  now destruct (numbers_ok_inv _ _ _ _ _ _ _ _ Hok) as (_ & _ & _ & _ & HE).
Qed.

Lemma energy_of_grams_near_calories_witness :
  exists resp,
    calculate_protein {| weight := 72.5; unit := "kg"; activity := "high";
                         goal := "muscle_gain"; age := Some 25; sex := Some "female" |}
    = Ok resp
    /\ Forall (fun plan =>
                 Z.abs (4 * protein_g (macros plan) + 4 * carbs_g (macros plan)
                        + 9 * fats_g (macros plan) - calories (macros plan)) <= 38)
              (suggestions resp).
Proof.
  apply (energy_of_grams_near_calories
           {| weight := 72.5; unit := "kg"; activity := "high"; goal := "muscle_gain";
              age := Some 25; sex := Some "female" |}).
  unfold valid_request. cbn [weight unit activity goal In].
  split; [ vm_compute; reflexivity | tauto ].
Defined.

(** X18: the plans of the response to every valid request carry the
    names and taglines of the four archetypes, in the order of the
    table, each with the sample meals of the table for its name (never
    the default meals). *)
Theorem suggestions_follow_archetypes (req : ProteinRequest) :
  valid_request req ->
  exists resp,
    calculate_protein req = Ok resp
    /\ map (fun plan => (name plan, tagline plan)) (suggestions resp) = map fst archetypes
    /\ Forall (fun plan => In (name plan, sample_meals plan) base_meals) (suggestions resp).
Proof.
  intros Hv. destruct (response_plans req Hv) as (resp & Hcalc & Ht & Hplans).
  exists resp. split; [ assumption | ]. split.
  - apply Forall2_map_eq. apply (Forall2_impl_In _ _ _ _ Hplans).
    intros [[nm tag] base] plan _. unfold plan_for.
    destruct (adjust_split _ base) as [[p c] f]. intros (-> & -> & _). reflexivity.
  - assert (Hin : Forall2 (fun a plan => In a archetypes
                            /\ plan_for (dict_get goal_adj (goal req) 0)
                                        (daily_grams_target resp) a plan)
                          archetypes (suggestions resp))
      by (apply (Forall2_impl_In _ _ _ _ Hplans); intros a b Ha Hb; split; assumption).
    apply (Forall2_Forall_r _ _ _ _ Hin). intros [[nm tag] base] plan (Ha & Hp).
    unfold plan_for in Hp. destruct (adjust_split _ base) as [[p c] f].
    destruct Hp as (-> & _ & _ & -> & _).
    apply dict_get_in. unfold archetypes in Ha. cbn [In] in Ha.
    destruct Ha as [H | [H | [H | [H | []]]]]; injection H as <- _ _;
      cbn [base_meals map fst In]; tauto.
Qed.

Lemma suggestions_follow_archetypes_witness :
  exists resp,
    calculate_protein {| weight := 80; unit := "kg"; activity := "moderate";
                         goal := "maintenance"; age := None; sex := None |} = Ok resp
    /\ map (fun plan => (name plan, tagline plan)) (suggestions resp) = map fst archetypes
    /\ Forall (fun plan => In (name plan, sample_meals plan) base_meals) (suggestions resp).
Proof.
  apply (suggestions_follow_archetypes
           {| weight := 80; unit := "kg"; activity := "moderate"; goal := "maintenance";
              age := None; sex := None |}).
  unfold valid_request. cbn [weight unit activity goal In].
  split; [ vm_compute; reflexivity | tauto ].
Defined.

(** X19: whatever the database module does, [database_url] and
    [database_name] of the result of [test_database] only say whether
    the environment variable is set and not empty, and [backend] is
    always the same text: the values written from [db] are
    overwritten. *)
Theorem report_shows_environment_only (w : world) :
  backend (test_database w) = "✅ Running"
  /\ database_url (test_database w)
     = Some (match getenv w "DATABASE_URL" with
             | Some (String _ _) => "✅ Set"
             | _ => "❌ Not Set"
             end)
  /\ database_name (test_database w)
     = Some (match getenv w "DATABASE_NAME" with
             | Some (String _ _) => "✅ Set"
             | _ => "❌ Not Set"
             end).
Proof.
  assert (Ht : forall v, (if truthy v then "✅ Set" else "❌ Not Set")
                         = match v with Some (String _ _) => "✅ Set" | _ => "❌ Not Set" end).
  { intros [[ | c s] | ]; reflexivity. }
  unfold test_database. rewrite !Ht.
  destruct (import_db w) as [[db | ] | e].
  - unfold probe. destruct (db_name db) as [nm | e].
    + destruct (list_collection_names db) as [cols | e]; repeat split.
    + unfold handle. destruct (is_import_error e); repeat split.
  - repeat split.
  - unfold handle. destruct (is_import_error e); repeat split.
Qed.

(** X20: [collections] holds at most ten names, the first ones that
    the database lists, and is empty unless the listing worked. *)
Theorem collections_first_ten (w : world) :
  (List.length (collections (test_database w)) <= 10)%nat
  /\ (forall db nm cols,
        import_db w = Returns (Some db) -> db_name db = Returns nm ->
        list_collection_names db = Returns cols ->
        collections (test_database w) = firstn 10 cols
        /\ database (test_database w) = "✅ Connected & Working")
  /\ (collections (test_database w) <> [] ->
      database (test_database w) = "✅ Connected & Working"
      /\ connection_status (test_database w) = "Connected").
Proof.
  unfold test_database. split; [ | split ].
  - destruct (import_db w) as [[db | ] | e]; cbn -[firstn].
    + unfold probe. destruct (db_name db) as [nm | e].
      * destruct (list_collection_names db) as [cols | e]; cbn -[firstn];
          [ apply firstn_le_length | lia ].
      * unfold handle. destruct (is_import_error e); cbn -[firstn]; lia.
    + lia.
    + unfold handle. destruct (is_import_error e); cbn -[firstn]; lia.
  - intros db nm cols -> Hn Hc. unfold probe. rewrite Hn, Hc. split; reflexivity.
  - destruct (import_db w) as [[db | ] | e]; cbn -[firstn].
    + unfold probe. destruct (db_name db) as [nm | e].
      * destruct (list_collection_names db) as [cols | e]; cbn -[firstn];
          [ intros _; split; reflexivity | intros H; now elim H ].
      * unfold handle. destruct (is_import_error e); cbn -[firstn]; intros H; now elim H.
    + intros H; now elim H.
    + unfold handle. destruct (is_import_error e); cbn -[firstn]; intros H; now elim H.
Qed.

(** X21: the status is "Connected" exactly when the import gave a
    [db] that is not [None] and reading [db.name] did not raise, and
    "Not Connected" otherwise; a failing listing does not change it. *)
Theorem connection_status_cases (w : world) :
  (connection_status (test_database w) = "Connected"
   <-> exists db nm, import_db w = Returns (Some db) /\ db_name db = Returns nm)
  /\ (connection_status (test_database w) = "Connected"
      \/ connection_status (test_database w) = "Not Connected").
Proof.
  unfold test_database.
  destruct (import_db w) as [[db | ] | e]; cbn.
  - unfold probe. destruct (db_name db) as [nm | e] eqn:Hn.
    + destruct (list_collection_names db) as [cols | e]; cbn;
        (split; [ split; [ intros _; now exists db, nm | reflexivity ] | now left ]).
    + unfold handle. destruct (is_import_error e); cbn;
        (split; [ split; [ discriminate | ] | now right ]);
        intros (db' & nm & [= <-] & H); congruence.
  - split; [ split; [ discriminate | ] | now right ].
    intros (db' & nm & H & _). discriminate.
  - unfold handle. destruct (is_import_error e); cbn;
      (split; [ split; [ discriminate | ] | now right ]);
      intros (db' & nm & H & _); discriminate.
Qed.

End Further.
